(** * Column extractor: [homework/extract_specific_columns.py]

    The script reads [files/input/truck_event_text_partition.csv] with
    [pandas.read_csv], keeping nine named columns with declared types, and
    writes them to [files/output/specific-columns.csv] with
    [DataFrame.to_csv].  It is a single linear procedure wrapped in one
    [try]/[except]; the directory of the output file is created before the
    [try] block.

    The embedding has two layers.

    - The script itself ([extract_specific_columns] and the [__main__]
      block) is transcribed statement by statement into a small state and
      exception monad over a world made of a file system and the console.

    - The library calls the script makes ([Path.mkdir], [pd.read_csv],
      [DataFrame.to_csv], [print]) are modelled after the behaviour of the
      libraries: the file system with the error codes of [stat] and
      [mkdir], the parser with its column selection and its conversion of
      cells to the declared types, the writer with its [%.6f] formatting of
      binary32 values.

    What the model leaves out.  The file system holds directories and
    regular files, without permissions, links or a full disk, and nothing
    else changes it during a run.  The console is a parameter: it decides,
    text by text, whether [print] succeeds or raises; the statements that
    name no console are about one that prints every text.  A CSV file is
    represented as the tokenizer delivers it, a list of records, each a
    list of fields, so quoting and line ends do not appear.  Rows shorter
    than the header read as missing values, as in the parser; what the
    parser does with longer rows is not followed, and the statements about
    cells are made for tables whose rows have one field per header name.
    The defaults are those of pandas 2; numbers are read by the parser's
    default converter [precise_xstrtod], operation by operation, as
    compiled for a processor without fused multiply-add. *)

From stdpp Require Import gmap strings list.
From Stdlib Require Import ZArith Ascii String.

Open Scope Z_scope.

(** ** Characters and decimal text *)

Module Text.

Definition chars (s : string) : list ascii := list_ascii_of_string s.
Definition text (l : list ascii) : string := string_of_list_ascii l.

Definition code (a : ascii) : Z := Z.of_N (N_of_ascii a).

(** [isdigit_ascii] and [isspace_ascii] of the tokenizer. *)
Definition isdigit (a : ascii) : bool := (48 <=? code a) && (code a <=? 57).
Definition isspace (a : ascii) : bool :=
  (code a =? 32) || ((9 <=? code a) && (code a <=? 13)).

Definition toupper (a : ascii) : ascii :=
  if (97 <=? code a) && (code a <=? 122)
  then ascii_of_N (Z.to_N (code a - 32)) else a.

Definition digit_value (a : ascii) : Z := code a - 48.
Definition digit_char (d : Z) : ascii := ascii_of_N (Z.to_N (48 + d mod 10)).

(** Value of a run of digits, most significant first. *)
Definition digits_value (ds : list ascii) : Z :=
  fold_left (fun acc a => 10 * acc + digit_value a) ds 0.

(** Longest prefix satisfying [f], and the rest. *)
Fixpoint span (f : ascii -> bool) (l : list ascii) : list ascii * list ascii :=
  match l with
  | [] => ([], [])
  | a :: l' =>
      if f a then let '(u, v) := span f l' in (a :: u, v) else ([], l)
  end.

(** An optional sign: [true] for a leading minus. *)
Definition sign (l : list ascii) : bool * list ascii :=
  match l with
  | a :: l' =>
      if (code a =? 45) then (true, l')
      else if (code a =? 43) then (false, l')
      else (false, l)
  | [] => (false, [])
  end.

(** Exactly [width] decimal digits of [v] (the low ones), zero padded. *)
Fixpoint fixed_digits (width : nat) (v : Z) : list ascii :=
  match width with
  | O => []
  | S w => fixed_digits w (v / 10) ++ [digit_char v]
  end.

(** Decimal digits of [v >= 0] without leading zeros (one digit for 0):
    [v] has at most as many decimal digits as binary ones. *)
Definition decimal (v : Z) : list ascii :=
  let ds := fixed_digits (S (Z.to_nat (Z.log2 v))) v in
  match snd (span (fun a => code a =? 48) ds) with
  | [] => [digit_char 0]
  | ds' => ds'
  end.

(** [str(n)] for a Python [int]. *)
Definition str_int (v : Z) : string :=
  text ((if v <? 0 then ["-"%char] else []) ++ decimal (Z.abs v)).

(** Digits grouped by thousands, as the format specifier [:,] does. *)
Fixpoint group3 (fuel : nat) (rev_digits : list ascii) : list ascii :=
  match fuel, rev_digits with
  | S fuel', a :: b :: c :: rest =>
      match rest with
      | [] => rev_digits
      | _ :: _ => a :: b :: c :: ","%char :: group3 fuel' rest
      end
  | _, _ => rev_digits
  end.

Definition str_thousands (n : nat) : string :=
  let ds := rev (decimal (Z.of_nat n)) in
  text (rev (group3 (List.length ds) ds)).

Definition upper (s : string) : string := text (map toupper (chars s)).

End Text.

(** ** Binary floating point, as far as the script needs it

    The parser reads a decimal literal into a binary64 [double] and, for a
    column declared [float32], narrows the column with [astype]; the writer
    formats each value with [float_format % value], which widens the
    binary32 value back (exactly) and prints it with [%.6f].  Values are
    kept as exact dyadic rationals [m * 2^e], so every rounding is computed
    on integers. *)

Module Float.

Inductive float :=
| NaN
| Inf (neg : bool)
| Finite (neg : bool) (m : Z) (e : Z).   (* (-1)^neg * m * 2^e, 0 <= m *)

(** The integer nearest to [n / d], ties to even ([0 <= n], [0 < d]). *)
Definition div_rne (n d : Z) : Z :=
  let q := n / d in
  let r := n mod d in
  match 2 * r ?= d with
  | Lt => q
  | Gt => q + 1
  | Eq => if Z.even q then q else q + 1
  end.

(** [n / d] scaled by [2^-e], rounded to an integer. *)
Definition scaled_rne (n d e : Z) : Z :=
  if 0 <=? e then div_rne n (d * 2 ^ e) else div_rne (n * 2 ^ (- e)) d.

(** Round the positive rational [n / d] to a format with [prec] bits of
    precision whose smallest exponent is [emin] and whose values stay
    below [2^emax]: nearest, ties to even. *)
Definition round (prec emin emax : Z) (neg : bool) (n d : Z) : float :=
  if n =? 0 then Finite neg 0 0 else
  (* 2^(prec-1) < (n/d) / 2^e0 < 2^(prec+1) *)
  let e0 := Z.log2 n - Z.log2 d - prec in
  let e1 :=
    if 0 <=? prec + e0
    then (if d * 2 ^ (prec + e0) <=? n then e0 + 1 else e0)
    else (if d <=? n * 2 ^ (- (prec + e0)) then e0 + 1 else e0) in
  let e := Z.max e1 emin in
  let m := scaled_rne n d e in
  if 2 ^ emax <=? (if 0 <=? e then m * 2 ^ e else 0) then Inf neg
  else Finite neg m e.

Definition binary64 := round 53 (-1074) 1024.
Definition binary32 := round 24 (-149) 128.

(** Arithmetic on binary64 values as the processor does it: the exact
    result, rounded once.  The parser multiplies, divides and adds finite
    values only; the other cases follow IEEE 754. *)
Definition of_Z (v : Z) : float := binary64 (v <? 0) (Z.abs v) 1.

Definition opp (x : float) : float :=
  match x with
  | NaN => NaN
  | Inf neg => Inf (negb neg)
  | Finite neg m e => Finite (negb neg) m e
  end.

Definition mul (x y : float) : float :=
  match x, y with
  | Finite n1 m1 e1, Finite n2 m2 e2 =>
      let e := e1 + e2 in
      if 0 <=? e then binary64 (xorb n1 n2) (m1 * m2 * 2 ^ e) 1
      else binary64 (xorb n1 n2) (m1 * m2) (2 ^ (- e))
  | NaN, _ | _, NaN => NaN
  | Inf n1, Inf n2 => Inf (xorb n1 n2)
  | Inf n1, Finite n2 m _ | Finite n2 m _, Inf n1 =>
      if m =? 0 then NaN else Inf (xorb n1 n2)
  end.

Definition div (x y : float) : float :=
  match x, y with
  | Finite n1 m1 e1, Finite n2 m2 e2 =>
      if m2 =? 0 then (if m1 =? 0 then NaN else Inf (xorb n1 n2))
      else
        let e := e1 - e2 in
        if 0 <=? e then binary64 (xorb n1 n2) (m1 * 2 ^ e) m2
        else binary64 (xorb n1 n2) m1 (m2 * 2 ^ (- e))
  | NaN, _ | _, NaN => NaN
  | Inf _, Inf _ => NaN
  | Inf n1, Finite n2 _ _ => Inf (xorb n1 n2)
  | Finite n1 _ _, Inf n2 => Finite (xorb n1 n2) 0 0
  end.

Definition add (x y : float) : float :=
  match x, y with
  | Finite n1 m1 e1, Finite n2 m2 e2 =>
      let e := Z.min e1 e2 in
      let s := (if n1 then -1 else 1) * (m1 * 2 ^ (e1 - e))
               + (if n2 then -1 else 1) * (m2 * 2 ^ (e2 - e)) in
      let neg := if s =? 0 then n1 && n2 else s <? 0 in
      if 0 <=? e then binary64 neg (Z.abs s * 2 ^ e) 1
      else binary64 neg (Z.abs s) (2 ^ (- e))
  | NaN, _ | _, NaN => NaN
  | Inf n1, Inf n2 => if Bool.eqb n1 n2 then Inf n1 else NaN
  | Inf n, Finite _ _ _ | Finite _ _ _, Inf n => Inf n
  end.

(** [ndarray.astype('float32')] on a binary64 value. *)
Definition astype_float32 (x : float) : float :=
  match x with
  | Finite neg m e =>
      if 0 <=? e then binary32 neg (m * 2 ^ e) 1 else binary32 neg m (2 ^ (- e))
  | _ => x
  end.

(** ['%.Nf' % x] for a finite [x]: the exact value rounded to [digits]
    decimals, ties to even; an integer part, a point, [digits] digits. *)
Definition format_f (digits : nat) (neg : bool) (m e : Z) : string :=
  let p := 10 ^ Z.of_nat digits in
  let k := if 0 <=? e then m * 2 ^ e * p else div_rne (m * p) (2 ^ (- e)) in
  Text.text ((if neg then ["-"%char] else [])
             ++ Text.decimal (k / p) ++ ["."%char]
             ++ Text.fixed_digits digits (k mod p)).

(** [float_format % x]; a missing value is written as [na_rep], which
    [to_csv] leaves empty. *)
Definition format (digits : nat) (x : float) : string :=
  match x with
  | NaN => EmptyString
  | Inf neg => if neg then "-inf" else "inf"
  | Finite neg m e => format_f digits neg m e
  end.

(** The value of [x] when it is an integer. *)
Definition to_integer (x : float) : option Z :=
  match x with
  | Finite neg m e =>
      if 0 <=? e then Some ((if neg then -1 else 1) * (m * 2 ^ e))
      else if m mod 2 ^ (- e) =? 0
           then Some ((if neg then -1 else 1) * (m / 2 ^ (- e)))
           else None
  | _ => None
  end.

End Float.

(** ** Paths, files and exceptions *)

(** A relative [pathlib.Path]: the working directory or a name below a
    parent, so that [self.parent] is structural. *)
Inductive Path :=
| Cwd
| Slash (parent : Path) (name : string).

#[global] Instance Path_eq_dec : EqDecision Path.
Proof. solve_decision. Defined.

Fixpoint parts (p : Path) : list string :=
  match p with
  | Cwd => []
  | Slash q n => n :: parts q
  end.

Fixpoint of_parts (l : list string) : Path :=
  match l with
  | [] => Cwd
  | n :: l' => Slash (of_parts l') n
  end.

#[global] Instance Path_countable : Countable Path.
Proof.
  apply (inj_countable' parts of_parts).
  intros p; induction p as [|q IH n]; simpl; congruence.
Defined.

(** [Path.parent]: the parent of the working directory is itself. *)
Definition parent (p : Path) : Path :=
  match p with
  | Cwd => Cwd
  | Slash q _ => q
  end.

(** [str(path)]. *)
Fixpoint str (p : Path) : string :=
  match p with
  | Cwd => "."
  | Slash Cwd n => n
  | Slash q n => str q +:+ "/" +:+ n
  end.

(** What a file holds, as the CSV tokenizer sees it: records of fields
    (blank lines dropped, quoting resolved), or bytes on which the
    tokenizer gives up (undecodable bytes, an unterminated quoted field). *)
Inductive content :=
| Table (records : list (list string))
| Unparsable.

Inductive node :=
| Dir
| File (c : content).

#[global] Instance content_eq_dec : EqDecision content.
Proof. solve_decision. Defined.
#[global] Instance node_eq_dec : EqDecision node.
Proof. solve_decision. Defined.

(** The exceptions the modelled calls raise.  All of them are subclasses
    of [Exception]; the first four and [OSError] are [OSError]s. *)
Inductive value_error :=
| UsecolsMismatch (missing : list string)  (* Usecols do not match columns *)
| IntegerNA (column : string)               (* Integer column has NA values *)
| UnsafeCast (column : string)              (* cannot safely convert passed user dtype *)
| InvalidLiteral (column : string)          (* text that is no number at all *)
| UintConflict (column : string).           (* Cannot convert to numerical dtype *)

Inductive exn :=
| FileNotFoundError (filename : Path)
| FileExistsError (filename : Path)
| NotADirectoryError (filename : Path)
| IsADirectoryError (filename : Path)
| OSError (filename : Path)
| EmptyDataError
| ParserError
| ValueError (why : value_error)
| OverflowError
| UnicodeEncodeError.

(** The classes named in [except] clauses. *)
Module cls.
Inductive t := FileNotFoundError | OSError | Exception.
End cls.

Definition isinstance (e : exn) (c : cls.t) : bool :=
  match c, e with
  | cls.Exception, _ => true
  | cls.FileNotFoundError, FileNotFoundError _ => true
  | cls.FileNotFoundError, _ => false
  | cls.OSError, (FileNotFoundError _ | FileExistsError _ | NotADirectoryError _
                 | IsADirectoryError _ | OSError _) => true
  | cls.OSError, _ => false
  end.

(** ** Data frames *)

Inductive dtype := int32 | float32 | string_ | category | object_.

Definition dtype_name (d : dtype) : string :=
  match d with
  | int32 => "int32"
  | float32 => "float32"
  | string_ => "string"
  | category => "category"
  | object_ => "object"
  end.

(** A column of a data frame.  Text columns hold [None] for a missing
    value; a [float32] column holds [NaN] for it; an [int32] column cannot
    hold one. *)
Inductive Series :=
| Int32 (v : list Z)
| Float32 (v : list Float.float)
| String_ (v : list (option string))
| Category (v : list (option string))
| Object_ (v : list (option string)).

Definition Series_dtype (s : Series) : dtype :=
  match s with
  | Int32 _ => int32
  | Float32 _ => float32
  | String_ _ => string_
  | Category _ => category
  | Object_ _ => object_
  end.

(** [len(df)] is [nrows]; [df.columns] are the names of [columns]. *)
Record DataFrame := {
  nrows : nat;
  columns : list (string * Series)
}.

Definition Series_head (n : nat) (s : Series) : Series :=
  match s with
  | Int32 v => Int32 (take n v)
  | Float32 v => Float32 (take n v)
  | String_ v => String_ (take n v)
  | Category v => Category (take n v)
  | Object_ v => Object_ (take n v)
  end.

(** [df.head(n)]. *)
Definition head (n : nat) (df : DataFrame) : DataFrame :=
  {| nrows := Nat.min n (nrows df);
     columns := map (fun '(name, s) => (name, Series_head n s)) (columns df) |}.

(** ** The world: a file system and the console *)

(** One entry per call of [print].  [Line] is text the script fixes
    completely.  The memory figure of line 66 and the table rendering of
    line 86 are kept as the value they are computed from; the message of
    line 94 as its prefix and the exception whose [str] follows it. *)
Inductive printed :=
| Line (s : string)
| MemoryLine (df : DataFrame)
| SampleLines (df : DataFrame)
| ErrorLine (prefix : string) (e : exn).

Record World := {
  fs : gmap Path node;
  stdout : list printed
}.

Inductive result (A : Type) :=
| Return (a : A)
| Raise (e : exn).
Arguments Return {A} a.
Arguments Raise {A} e.

(** A Python computation: it returns or raises, and leaves a world. *)
Definition Py (A : Type) : Type := World -> result A * World.

Definition ret {A} (a : A) : Py A := fun w => (Return a, w).
Definition raise {A} (e : exn) : Py A := fun w => (Raise e, w).
Definition bind {A B} (c : Py A) (k : A -> Py B) : Py B :=
  fun w =>
    match c w with
    | (Return a, w') => k a w'
    | (Raise e, w') => (Raise e, w')
    end.

Declare Scope py_scope.
Delimit Scope py_scope with py.
Notation "x <- c ;; k" := (bind c (fun x => k))
  (at level 100, c at next level, right associativity) : py_scope.
Notation "c ;; k" := (bind c (fun _ => k))
  (at level 100, right associativity) : py_scope.
Open Scope py_scope.

(** [try: body except C1: h1 except C2 as e: h2 ...]: the first clause
    whose class the exception is an instance of handles it, in the world
    the body left behind. *)
Fixpoint handle {A} (clauses : list (cls.t * (exn -> Py A))) (e : exn) : Py A :=
  match clauses with
  | [] => raise e
  | (c, h) :: rest => if isinstance e c then h e else handle rest e
  end.

Definition try_except {A} (body : Py A) (clauses : list (cls.t * (exn -> Py A))) : Py A :=
  fun w =>
    match body w with
    | (Raise e, w') => handle clauses e w'
    | r => r
    end.

(** What the console does with a text handed to [print]: [None] when it
    prints it, [Some e] when [print] raises [e] instead (a console whose
    encoding lacks a character of the text raises [UnicodeEncodeError]).
    The console is a parameter of everything that prints. *)
Class Console := console : printed -> option exn.

Definition print `{Console} (x : printed) : Py unit :=
  fun w =>
    match console x with
    | None => (Return tt, {| fs := fs w; stdout := stdout w ++ [x] |})
    | Some e => (Raise e, w)
    end.

(** *** The file system *)

Inductive stat_result :=
| ENOENT                 (* a component of the path is missing *)
| ENOTDIR                (* a component that must be a directory is a file *)
| IsDir
| IsFile (c : content).

Fixpoint stat (m : gmap Path node) (p : Path) : stat_result :=
  match p with
  | Cwd => IsDir
  | Slash q n =>
      match stat m q with
      | IsDir =>
          match m !! Slash q n with
          | None => ENOENT
          | Some Dir => IsDir
          | Some (File c) => IsFile c
          end
      | IsFile _ => ENOTDIR
      | r => r
      end
  end.

Definition put (p : Path) (x : node) : Py unit :=
  fun w => (Return tt, {| fs := <[p := x]> (fs w); stdout := stdout w |}).

Module os.

(** [os.mkdir(path)]. *)
Definition mkdir (path : Path) : Py unit :=
  fun w =>
    match stat (fs w) path with
    | IsDir | IsFile _ => raise (FileExistsError path) w
    | ENOTDIR => raise (NotADirectoryError path) w
    | ENOENT =>
        match stat (fs w) (parent path) with
        | IsDir => put path Dir w
        | ENOENT => raise (FileNotFoundError path) w
        | _ => raise (NotADirectoryError path) w
        end
    end.

End os.

(** [Path.is_dir()]. *)
Definition is_dir (self : Path) : Py bool :=
  fun w => (Return (match stat (fs w) self with IsDir => true | _ => false end), w).

(** [Path.mkdir(parents=False, exist_ok=exist_ok)]: an [OSError] of
    [os.mkdir] is swallowed when [exist_ok] is set and the path is a
    directory; [FileNotFoundError] is raised again. *)
Definition mkdir_single (self : Path) (exist_ok : bool) : Py unit :=
  try_except (os.mkdir self)
    [ (cls.FileNotFoundError, fun e => raise e);
      (cls.OSError, fun e =>
         d <- is_dir self ;;
         if negb exist_ok || negb d then raise e else ret tt) ].

(** [Path.mkdir(parents, exist_ok)].  On [FileNotFoundError] with
    [parents] set, the parent is made with [parents=True, exist_ok=True]
    and the path itself is made again with [parents=False]. *)
Fixpoint mkdir (self : Path) (parents exist_ok : bool) : Py unit :=
  try_except (os.mkdir self)
    [ (cls.FileNotFoundError, fun e =>
         match self with
         | Cwd => raise e
         | Slash q _ =>
             if negb parents then raise e
             else (mkdir q true true ;; mkdir_single self exist_ok)
         end);
      (cls.OSError, fun e =>
         d <- is_dir self ;;
         if negb exist_ok || negb d then raise e else ret tt) ].

(** [open(path)] for reading, as the parser does. *)
Definition open_read (path : Path) : Py content :=
  fun w =>
    match stat (fs w) path with
    | IsFile c => ret c w
    | IsDir => raise (IsADirectoryError path) w
    | ENOENT => raise (FileNotFoundError path) w
    | ENOTDIR => raise (NotADirectoryError path) w
    end.

(** [open(path, 'w')] followed by writing [c]: the file is created or
    replaced. *)
Definition open_write (path : Path) (c : content) : Py unit :=
  fun w =>
    match stat (fs w) path with
    | IsFile _ => put path (File c) w
    | IsDir => raise (IsADirectoryError path) w
    | ENOTDIR => raise (NotADirectoryError path) w
    | ENOENT =>
        match stat (fs w) (parent path) with
        | IsDir => put path (File c) w
        | ENOENT => raise (FileNotFoundError path) w
        | _ => raise (NotADirectoryError path) w
        end
    end.

(** ** The pandas calls of the script *)

Module pd.

(** The markers [read_csv] reads as a missing value by default. *)
Definition STR_NA_VALUES : gset string :=
  list_to_set
    [ "-1.#IND"; "1.#QNAN"; "1.#IND"; "-1.#QNAN"; "#N/A N/A"; "#N/A"; "N/A";
      "n/a"; "NA"; "<NA>"; "#NA"; "NULL"; "null"; "NaN"; "-NaN"; "nan";
      "-nan"; "None"; EmptyString ].

Definition isna (cell : string) : bool := bool_decide (cell ∈ STR_NA_VALUES).

(** The tokenizer's [str_to_int64]: blanks, an optional sign, at least
    one digit, blanks; the value must fit 64 bits. *)
Definition str_to_int64 (cell : string) : option Z :=
  let p := snd (Text.span Text.isspace (Text.chars cell)) in
  let '(isneg, p) := Text.sign p in
  let '(ds, p) := Text.span Text.isdigit p in
  match ds, snd (Text.span Text.isspace p) with
  | _ :: _, [] =>
      let v := if isneg then - Text.digits_value ds else Text.digits_value ds in
      if (- 2 ^ 63 <=? v) && (v <=? 2 ^ 63 - 1) then Some v else None
  | _, _ => None
  end.

(** The table [e] of the converter: the binary64 values nearest to the
    powers of ten [1e0] ... [1e308]. *)
Definition e (k : Z) : Float.float := Float.binary64 false (10 ^ k) 1.

(** C [int] arithmetic as compiled code does it: values wrap around. *)
Definition wrap_int (v : Z) : Z := (v + 2 ^ 31) mod 2 ^ 32 - 2 ^ 31.

Definition max_digits : nat := 17.

(** [number = number * 10. + digit]: two operations, each rounded. *)
Definition push_digit (number : Float.float) (a : ascii) : Float.float :=
  Float.add (Float.mul number (Float.of_Z 10)) (Float.of_Z (Text.digit_value a)).

(** The digits before the point: the first [max_digits] of them (leading
    zeros count) are accumulated, each further one raises the exponent. *)
Fixpoint integer_digits (ds : list ascii) (number : Float.float) (num_digits : nat)
    (exponent : Z) : Float.float * nat * Z :=
  match ds with
  | [] => (number, num_digits, exponent)
  | a :: ds' =>
      if (num_digits <? max_digits)%nat
      then integer_digits ds' (push_digit number a) (S num_digits) exponent
      else integer_digits ds' number num_digits (exponent + 1)
  end.

(** The digits after the point: accumulated while fewer than
    [max_digits] digits have been used, the others are dropped. *)
Fixpoint decimal_digits (ds : list ascii) (number : Float.float) (num_digits : nat)
    (num_decimals : Z) : Float.float * nat * Z :=
  match ds with
  | [] => (number, num_digits, num_decimals)
  | a :: ds' =>
      if (num_digits <? max_digits)%nat
      then decimal_digits ds' (push_digit number a) (S num_digits) (num_decimals + 1)
      else (number, num_digits, num_decimals)
  end.

(** The digits of the exponent, at most [max_digits] of them, read into
    an [int]; what follows them is left in place. *)
Fixpoint exponent_digits (p : list ascii) (n : Z) (num_digits : nat)
  : Z * nat * list ascii :=
  match p with
  | a :: p' =>
      if (num_digits <? max_digits)%nat && Text.isdigit a
      then exponent_digits p' (wrap_int (n * 10 + Text.digit_value a)) (S num_digits)
      else (n, num_digits, p)
  | [] => (n, num_digits, p)
  end.

(** The tokenizer's [precise_xstrtod], the converter [read_csv] uses by
    default ([float_precision=None]), called with the decimal point [.],
    the exponent mark [E], no thousands separator, and trailing blanks
    skipped; [None] stands for an error ([ERANGE], or text left over).
    Blanks, an optional sign, digits with an optional point (at least one
    digit), an optional exponent, blanks.  At most 17 digits enter the
    number, which is accumulated in binary64 and then scaled by one
    multiplication or division by an entry of [e] (two divisions below
    [1e-308]): the result is close to the decimal, not always the binary64
    value nearest to it. *)
Definition precise_xstrtod (cell : string) : option Float.float :=
  let p := snd (Text.span Text.isspace (Text.chars cell)) in
  let '(negative, p) := Text.sign p in
  let '(int_ds, p) := Text.span Text.isdigit p in
  let '(number, num_digits, exponent) := integer_digits int_ds (Float.of_Z 0) 0 0 in
  let '(number, num_digits, exponent, p) :=
    match p with
    | a :: p1 =>
        if Text.code a =? 46 then
          let '(dec_ds, p2) := Text.span Text.isdigit p1 in
          let '(number, num_digits, num_decimals) :=
            decimal_digits dec_ds number num_digits 0 in
          (number, num_digits, exponent - num_decimals, p2)
        else (number, num_digits, exponent, p)
    | [] => (number, num_digits, exponent, p)
    end in
  if (num_digits =? 0)%nat then None
  else
    let number := if negative then Float.opp number else number in
    let '(exponent, p) :=
      match p with
      | a :: p1 =>
          if Text.code (Text.toupper a) =? 69 then
            let '(eneg, p2) := Text.sign p1 in
            let '(n, exponent_digits_read, p3) := exponent_digits p2 0 0 in
            (wrap_int (if eneg then exponent - n else exponent + n),
             (* no digit after the mark: step back by one character *)
             if (exponent_digits_read =? 0)%nat
             then (if bool_decide (p2 = p1) then p else p1)
             else p3)
          else (exponent, p)
      | [] => (exponent, p)
      end in
    if 308 <? exponent then None
    else
      let number :=
        if 0 <? exponent then Float.mul number (e exponent)
        else if exponent <? -308 then
          if exponent <? -616 then Float.of_Z 0
          else Float.div (Float.div number (e (-308 - exponent))) (e 308)
        else Float.div number (e (- exponent)) in
      match number, snd (Text.span Text.isspace p) with
      | Float.Inf _, _ => None
      | _, [] => Some number
      | _, _ :: _ => None
      end.

(** [to_double] with the spellings of infinity the parser accepts. *)
Definition to_double (cell : string) : option Float.float :=
  match precise_xstrtod cell with
  | Some x => Some x
  | None =>
      let u := Text.upper cell in
      if bool_decide (u ∈ ["INF"; "+INF"; "INFINITY"; "+INFINITY"]) then Some (Float.Inf false)
      else if bool_decide (u ∈ ["-INF"; "-INFINITY"]) then Some (Float.Inf true)
      else None
  end.

(** [to_boolean]: the words true and false in any case. *)
Definition to_boolean (cell : string) : option bool :=
  let u := Text.upper cell in
  if bool_decide (u = "TRUE") then Some true
  else if bool_decide (u = "FALSE") then Some false
  else None.

(** [ndarray.astype('int32')] on 64-bit integers, signed or unsigned,
    wraps around. *)
Definition astype_int32 (v : Z) : Z := (v + 2 ^ 31) mod 2 ^ 32 - 2 ^ 31.

(** A binary64 value that survives the cast to [int32] unchanged. *)
Definition exact_int32 (cell : string) : option Z :=
  match to_double cell with
  | Some x =>
      match Float.to_integer x with
      | Some v => if (- 2 ^ 31 <=? v) && (v <=? 2 ^ 31 - 1) then Some v else None
      | None => None
      end
  | None => None
  end.

(** [str_to_int64] gives up with [ERROR_OVERFLOW] as soon as the digits
    read so far leave the 64-bit range, before it looks at what follows
    them; every other failure is [ERROR_NO_DIGITS] or
    [ERROR_INVALID_CHARS]. *)
Definition int64_overflow (cell : string) : bool :=
  let p := snd (Text.span Text.isspace (Text.chars cell)) in
  let '(isneg, p) := Text.sign p in
  let '(ds, _) := Text.span Text.isdigit p in
  match ds with
  | [] => false
  | _ :: _ =>
      let v := if isneg then - Text.digits_value ds else Text.digits_value ds in
      negb ((- 2 ^ 63 <=? v) && (v <=? 2 ^ 63 - 1))
  end.

(** How a scan of a column ends: with the values, or at the first cell
    (in row order) that cannot be read, which either overflows or is
    invalid. *)
Inductive scan (A : Type) :=
| Scanned (v : A)
| Overflow
| Invalid.
Arguments Scanned {A} v.
Arguments Overflow {A}.
Arguments Invalid {A}.

(** [_try_int64]: a missing value is counted and skipped, every other
    cell goes through [str_to_int64]. *)
Fixpoint try_int64 (cells : list string) : scan (list (option Z)) :=
  match cells with
  | [] => Scanned []
  | c :: cells' =>
      if isna c then
        match try_int64 cells' with
        | Scanned v => Scanned (None :: v)
        | r => r
        end
      else
        match str_to_int64 c with
        | Some x =>
            match try_int64 cells' with
            | Scanned v => Scanned (Some x :: v)
            | r => r
            end
        | None => if int64_overflow c then Overflow else Invalid
        end
  end.

(** What [_try_uint64] makes of a cell: a missing value, a cell that
    starts with a minus sign (nothing further of it is read), or an
    unsigned number. *)
Inductive uint_token :=
| Null
| Sint
| Uint (number : Z).

(** [str_to_uint64]. *)
Definition str_to_uint64 (cell : string) : scan uint_token :=
  let p := snd (Text.span Text.isspace (Text.chars cell)) in
  match p with
  | a :: p1 =>
      if Text.code a =? 45 then Scanned Sint
      else
        let '(ds, p) := Text.span Text.isdigit (if Text.code a =? 43 then p1 else p) in
        match ds with
        | [] => Invalid
        | _ :: _ =>
            if Text.digits_value ds <=? 2 ^ 64 - 1 then
              match snd (Text.span Text.isspace p) with
              | [] => Scanned (Uint (Text.digits_value ds))
              | _ :: _ => Invalid
              end
            else Overflow
        end
  | [] => Invalid
  end.

Fixpoint try_uint64 (cells : list string) : scan (list uint_token) :=
  match cells with
  | [] => Scanned []
  | c :: cells' =>
      if isna c then
        match try_uint64 cells' with
        | Scanned v => Scanned (Null :: v)
        | r => r
        end
      else
        match str_to_uint64 c with
        | Scanned t =>
            match try_uint64 cells' with
            | Scanned v => Scanned (t :: v)
            | r => r
            end
        | Overflow => Overflow
        | Invalid => Invalid
        end
  end.

(** The flags of [uint_state], read off the tokens. *)
Definition seen_null (v : list uint_token) : bool :=
  existsb (fun t => match t with Null => true | _ => false end) v.
Definition seen_sint (v : list uint_token) : bool :=
  existsb (fun t => match t with Sint => true | _ => false end) v.
Definition seen_uint (v : list uint_token) : bool :=
  existsb (fun t => match t with Uint number => 2 ^ 63 - 1 <? number | _ => false end) v.

Definition uint64_conflict (v : list uint_token) : bool :=
  seen_uint v && (seen_sint v || seen_null v).

Definition uint_value (t : uint_token) : Z :=
  match t with
  | Uint number => number
  | _ => 0
  end.

(** The parser's own inference, on which it falls back when a column
    cannot be read at the type declared for it: binary64 numbers, then
    booleans, then text.  The result is cast to [int32], which is allowed
    only when no value changes.  (The inference tries integers first; that
    repeats the scans that have just failed.) *)
Definition int32_fallback (name : string) (cells : list string) : result (list Z) :=
  if forallb (fun c => isna c || bool_decide (is_Some (to_double c))) cells then
    if forallb (fun c => negb (isna c) && bool_decide (is_Some (exact_int32 c))) cells
    then Return (map (fun c => default 0 (exact_int32 c)) cells)
    else Raise (ValueError (UnsafeCast name))
  else if forallb (fun c => isna c || bool_decide (is_Some (to_boolean c))) cells then
    if existsb isna cells then Raise (ValueError (UnsafeCast name))
    else Return (map (fun c => if default false (to_boolean c) then 1 else 0) cells)
  else Raise (ValueError (InvalidLiteral name)).

(** A column declared [int32] ([_convert_with_dtype], then
    [_convert_tokens]).  The signed scan reads integer literals and
    counts missing values, which an integer column cannot hold.  When its
    first failure is an overflow the column is scanned again as unsigned
    numbers, which succeeds only without negative and missing cells.
    Either way the 64-bit values are narrowed with [astype].  When a scan
    meets an invalid cell the parser falls back on its own inference. *)
Definition int32_column (name : string) (cells : list string) : result (list Z) :=
  match try_int64 cells with
  | Scanned v =>
      if existsb isna cells then Raise (ValueError (IntegerNA name))
      else Return (map (fun x => astype_int32 (default 0 x)) v)
  | Overflow =>
      match try_uint64 cells with
      | Scanned v =>
          if uint64_conflict v then Raise (ValueError (UintConflict name))
          else if seen_sint v then Raise OverflowError
          else Return (map (fun t => astype_int32 (uint_value t)) v)
      | Overflow => Raise OverflowError
      | Invalid => int32_fallback name cells
      end
  | Invalid => int32_fallback name cells
  end.

(** A column declared [float32]: parsed as binary64, then narrowed. *)
Definition float32_column (name : string) (cells : list string)
  : result (list Float.float) :=
  if forallb (fun c => isna c || bool_decide (is_Some (to_double c))) cells then
    Return (map (fun c => if isna c then Float.NaN
                          else Float.astype_float32 (default Float.NaN (to_double c)))
                cells)
  else if forallb (fun c => isna c || bool_decide (is_Some (to_boolean c))) cells then
    Return (map (fun c => if isna c then Float.NaN
                          else if default false (to_boolean c)
                               then Float.Finite false 1 0
                               else Float.Finite false 0 0)
                cells)
  else Raise (ValueError (InvalidLiteral name)).

(** Text columns keep the cell, or nothing where it is a missing-value
    marker.  (Categories that all look like numbers are re-typed by
    pandas; that is not followed here.) *)
Definition text_column (cells : list string) : list (option string) :=
  map (fun c => if isna c then None else Some c) cells.

Definition convert (name : string) (d : option dtype) (cells : list string)
  : result Series :=
  match d with
  | Some int32 =>
      match int32_column name cells with
      | Return v => Return (Int32 v)
      | Raise e => Raise e
      end
  | Some float32 =>
      match float32_column name cells with
      | Return v => Return (Float32 v)
      | Raise e => Raise e
      end
  | Some string_ => Return (String_ (text_column cells))
  | Some category => Return (Category (text_column cells))
  | Some object_ | None => Return (Object_ (text_column cells))
  end.

(** The columns [usecols] keeps, with their position in the file, in the
    order of the file.  The order of the list passed as [usecols] is
    ignored (the documentation of [read_csv]: element order is ignored, so
    [usecols=[0, 1]] is the same as [[1, 0]]; to keep the order of the list
    one has to index the frame with it afterwards).  A repeated header name
    is renamed by the parser ([name.1], ...), so only the first column of a
    name can match. *)
Fixpoint selected_from (usecols seen : list string) (i : nat) (header : list string)
  : list (nat * string) :=
  match header with
  | [] => []
  | name :: rest =>
      (if bool_decide (name ∈ usecols ∧ name ∉ seen) then [(i, name)] else [])
      ++ selected_from usecols (name :: seen) (S i) rest
  end.

Definition selected (usecols header : list string) : list (nat * string) :=
  selected_from usecols [] 0 header.

(** Field [i] of every row; a row that is too short reads as empty, that
    is as a missing value. *)
Definition column_cells (i : nat) (rows : list (list string)) : list string :=
  map (fun r => default EmptyString (r !! i)) rows.

Fixpoint convert_columns (dtype : gmap string dtype) (rows : list (list string))
    (cols : list (nat * string)) : result (list (string * Series)) :=
  match cols with
  | [] => Return []
  | (i, name) :: cols' =>
      match convert name (dtype !! name) (column_cells i rows) with
      | Raise e => Raise e
      | Return s =>
          match convert_columns dtype rows cols' with
          | Raise e => Raise e
          | Return ss => Return ((name, s) :: ss)
          end
      end
  end.

(** What the parser makes of the content of a file. *)
Definition parse (usecols : list string) (dtype : gmap string dtype) (c : content)
  : result DataFrame :=
  match c with
  | Unparsable => Raise ParserError
  | Table [] => Raise EmptyDataError
  | Table (header :: rows) =>
      match filter (fun name => name ∉ header) usecols with
      | [] =>
          match convert_columns dtype rows (selected usecols header) with
          | Return cols => Return {| nrows := List.length rows; columns := cols |}
          | Raise e => Raise e
          end
      | missing => Raise (ValueError (UsecolsMismatch missing))
      end
  end.

(** [pd.read_csv(path, usecols=..., dtype=..., engine='c')]. *)
Definition read_csv (filepath_or_buffer : Path) (usecols : list string)
    (dtype : gmap string dtype) : Py DataFrame :=
  c <- open_read filepath_or_buffer ;;
  match parse usecols dtype c with
  | Return df => ret df
  | Raise e => raise e
  end.

(** The text of every value of a column, as [to_csv] writes it. *)
Definition values_for_csv (float_format : nat) (s : Series) : list string :=
  match s with
  | Int32 v => map Text.str_int v
  | Float32 v => map (Float.format float_format) v
  | String_ v | Category v | Object_ v => map (default EmptyString) v
  end.

(** The records [to_csv] writes: the header, then one record per row.
    With [index] set every record starts with the row label, under an
    empty header field. *)
Definition csv_records (df : DataFrame) (index : bool) (float_format : nat)
  : list (list string) :=
  let header := (if index then [EmptyString] else []) ++ map fst (columns df) in
  let record (i : nat) :=
    (if index then [Text.str_int (Z.of_nat i)] else [])
    ++ map (fun col => default EmptyString (values_for_csv float_format col.2 !! i)) (columns df) in
  header :: map record (seq 0 (nrows df)).

(** [df.to_csv(path, index=..., float_format='%.Nf')]; [float_format] is
    the [N] of the format.  The writer refuses a path whose parent is no
    directory before it opens the file. *)
Definition to_csv (df : DataFrame) (path_or_buf : Path) (index : bool)
    (float_format : nat) : Py unit :=
  d <- is_dir (parent path_or_buf) ;;
  if negb d then raise (OSError (parent path_or_buf))
  else open_write path_or_buf (Table (csv_records df index float_format)).

End pd.

(** ** The script *)

Definition nl : string := String (ascii_of_nat 10) EmptyString.

Fixpoint for_each {A} (l : list A) (body : A -> Py unit) : Py unit :=
  match l with
  | [] => ret tt
  | x :: l' => body x ;; for_each l' body
  end.

Definition input_file : Path :=
  Slash (Slash (Slash Cwd "files") "input") "truck_event_text_partition.csv".
Definition output_file : Path :=
  Slash (Slash (Slash Cwd "files") "output") "specific-columns.csv".

Definition columns_to_extract : list string :=
  [ "driverId"; "truckId"; "eventTime"; "eventType"; "longitude"; "latitude";
    "driverName"; "routeName"; "eventDate" ].

Definition dtype_mapping : gmap string dtype :=
  list_to_map
    [ ("driverId", int32); ("truckId", int32); ("eventTime", string_);
      ("eventType", category); ("longitude", float32); ("latitude", float32);
      ("driverName", string_); ("routeName", string_); ("eventDate", string_) ].

Definition extract_specific_columns `{Console} : Py bool :=
  mkdir (parent output_file) true true ;;
  try_except
    (print (Line "Leyendo archivo de entrada...") ;;
     df <- pd.read_csv input_file columns_to_extract dtype_mapping ;;
     print (Line ("Datos leídos: " +:+ Text.str_thousands (nrows df) +:+ " filas, "
                  +:+ Text.str_int (Z.of_nat (List.length (columns df))) +:+ " columnas")) ;;
     print (MemoryLine df) ;;
     print (Line (nl +:+ "Columnas extraídas:")) ;;
     for_each (columns df) (fun col =>
       print (Line ("  - " +:+ col.1 +:+ ": " +:+ dtype_name (Series_dtype col.2)))) ;;
     print (Line (nl +:+ "Guardando archivo de salida...")) ;;
     pd.to_csv df output_file false 6 ;;
     print (Line ("✅ Archivo guardado exitosamente: " +:+ str output_file)) ;;
     print (Line ("📊 Resumen: " +:+ Text.str_int (Z.of_nat (nrows df)) +:+ " registros, "
                  +:+ Text.str_int (Z.of_nat (List.length (columns df)))
                  +:+ " columnas específicas")) ;;
     print (Line (nl +:+ "📋 Muestra de los datos extraídos:")) ;;
     print (SampleLines (head 3 df)) ;;
     ret true)
    [ (cls.FileNotFoundError, fun _ =>
         print (Line ("❌ Error: No se encontró el archivo " +:+ str input_file)) ;;
         ret false);
      (cls.Exception, fun e =>
         print (ErrorLine "❌ Error procesando datos: " e) ;;
         ret false) ].

(** The [__main__] block: [exit(0 if success else 1)].  An exception that
    leaves [extract_specific_columns] ends the interpreter with a traceback
    and status 1. *)
Definition main `{Console} (w : World) : Z * World :=
  match extract_specific_columns w with
  | (Return success, w') => (if success then 0 else 1, w')
  | (Raise _, w') => (1, w')
  end.

(** A console that prints every text.  It is the console of every
    statement below that does not name another one. *)
#[global] Instance terminal : Console := fun _ => None.

(** ** Notions used in the statements *)

Definition files_dir : Path := Slash Cwd "files".
Definition input_dir : Path := Slash files_dir "input".
Definition output_dir : Path := parent output_file.

Definition is_file (x : option node) : bool :=
  match x with
  | Some (File _) => true
  | _ => false
  end.

(** [q] is [p] or lies above it. *)
Fixpoint above (q p : Path) : Prop :=
  q = p ∨ match p with
          | Cwd => False
          | Slash p' _ => above q p'
          end.

(** No regular file at [p] or above it. *)
Fixpoint free_way (m : gmap Path node) (p : Path) : Prop :=
  match p with
  | Cwd => True
  | Slash q n => free_way m q ∧ is_file (m !! Slash q n) = false
  end.

(** No regular file stands where [files] or [files/output] has to be a
    directory. *)
Definition unobstructed (m : gmap Path node) : Prop :=
  is_file (m !! files_dir) = false ∧ is_file (m !! output_dir) = false.

(** What [mkdir(parents=True, exist_ok=True)] makes of the file system on
    the way to [files/output], and how it ends. *)
Definition made (m : gmap Path node) : gmap Path node :=
  if is_file (m !! files_dir) then m
  else
    let m1 := <[files_dir := Dir]> m in
    match m !! output_dir with
    | None => <[output_dir := Dir]> m1
    | Some _ => m1
    end.

Definition mkdir_status (m : gmap Path node) : result unit :=
  if is_file (m !! files_dir) then Raise (NotADirectoryError output_dir)
  else if is_file (m !! output_dir) then Raise (FileExistsError output_dir)
  else Return tt.

Definition handler_line (e : exn) : printed :=
  if isinstance e cls.FileNotFoundError
  then Line ("❌ Error: No se encontró el archivo " +:+ str input_file)
  else ErrorLine "❌ Error procesando datos: " e.

Definition reading (m : gmap Path node) : result DataFrame :=
  match stat m input_file with
  | IsFile c => pd.parse columns_to_extract dtype_mapping c
  | IsDir => Raise (IsADirectoryError input_file)
  | ENOENT => Raise (FileNotFoundError input_file)
  | ENOTDIR => Raise (NotADirectoryError input_file)
  end.

Definition outcome (m : gmap Path node) : result bool * gmap Path node :=
  match mkdir_status m with
  | Raise e => (Raise e, made m)
  | Return _ =>
      let m1 := made m in
      match reading m1 with
      | Raise _ => (Return false, m1)
      | Return df =>
          if bool_decide (m1 !! output_file = Some Dir) then (Return false, m1)
          else (Return true, <[output_file := File (Table (pd.csv_records df false 6))]> m1)
      end
  end.

(** Nothing at the input path, and no regular file in place of
    [files/input]. *)
Definition input_missing (m : gmap Path node) : Prop :=
  m !! input_file = None ∧ is_file (m !! input_dir) = false.

Definition empty_world : World := {| fs := ∅; stdout := [] |}.

Definition blocked_world : World :=
  {| fs := <[output_dir := File (Table [])]> (<[files_dir := Dir]> ∅); stdout := [] |}.

Definition header_of (c : content) : list string :=
  match c with
  | Table (header :: _) => header
  | _ => []
  end.

Definition sample_header : list string :=
  [ "driverId"; "truckId"; "eventTime"; "eventType"; "longitude"; "latitude";
    "eventKey"; "correlationId"; "driverName"; "routeId"; "routeName"; "eventDate" ].

Definition sample_row : list string :=
  [ "10"; "200"; "59:21.7"; "Normal"; "-94.5"; "39.1"; "10|200|1"; "3.66E+18";
    "Alice"; "160405074"; "R1"; "2016-01-01" ].

(** A world whose input file holds [records], with nothing else beside it. *)
Definition world_with (records : list (list string)) : World :=
  {| fs := <[input_file := File (Table records)]>
             (<[input_dir := Dir]> (<[files_dir := Dir]> ∅));
     stdout := [] |}.

Definition example_world : World := world_with [sample_header; sample_row].

(** The sample without its [latitude] column. *)
Definition narrow_world : World :=
  world_with
    [ [ "driverId"; "truckId"; "eventTime"; "eventType"; "longitude";
        "driverName"; "routeName"; "eventDate" ];
      [ "10"; "200"; "59:21.7"; "Normal"; "-94.5"; "Alice"; "R1"; "2016-01-01" ] ].

(** Every row has one field per header name. *)
Definition rectangular (header : list string) (rows : list (list string)) : Prop :=
  Forall (fun row => List.length row = List.length header) rows.



(** A cell the declared type of its column can be read from: for
    [int32] an integer literal, for [float32] a number or a missing value;
    text takes anything. *)
Definition cell_ok (d : option dtype) (cell : string) : bool :=
  match d with
  | Some int32 => negb (pd.isna cell) && bool_decide (is_Some (pd.str_to_int64 cell))
  | Some float32 => pd.isna cell || bool_decide (is_Some (pd.to_double cell))
  | _ => true
  end.

(** A table whose header names are distinct and include the nine
    columns, whose rows all have one field per header name, and whose
    cells can be read at the type declared for their column. *)
Definition well_formed (header : list string) (rows : list (list string)) : bool :=
  bool_decide (NoDup header)
  && bool_decide (columns_to_extract ⊆ header)
  && forallb
       (fun row =>
          bool_decide (List.length row = List.length header)
          && forallb (fun x => cell_ok (dtype_mapping !! x.2) (default EmptyString (row !! x.1)))
                     (imap (fun i name => (i, name)) header))
       rows.

(** The sample with [truckId] ahead of [driverId]. *)
Definition swapped_world : World :=
  world_with
    [ [ "truckId"; "driverId"; "eventTime"; "eventType"; "longitude"; "latitude";
        "eventKey"; "correlationId"; "driverName"; "routeId"; "routeName"; "eventDate" ];
      [ "200"; "10"; "59:21.7"; "Normal"; "-94.5"; "39.1"; "10|200|1"; "3.66E+18";
        "Alice"; "160405074"; "R1"; "2016-01-01" ] ].

(** Text with exactly six digits after its decimal point: an optional
    minus sign, at least one digit, a point, six digits. *)
Definition six_decimals (cell : string) : Prop :=
  exists sign ip fr,
    Text.chars cell = sign ++ ip ++ "."%char :: fr
    ∧ (sign = [] ∨ sign = ["-"%char])
    ∧ ip <> []
    ∧ Forall (fun a => Text.isdigit a = true) ip
    ∧ List.length fr = 6%nat
    ∧ Forall (fun a => Text.isdigit a = true) fr.

(** The text written for a cell of a [float32] column: nothing for a
    missing value; for a number, [%.6f] of the binary64 value the parser
    reads for it, narrowed to binary32; for the words true and false,
    which the parser's fallback reads as 1 and 0, these values. *)
Definition rendered (cell text : string) : Prop :=
  (pd.isna cell = true ∧ text = EmptyString)
  ∨ (exists x, pd.isna cell = false ∧ pd.to_double cell = Some x
               ∧ text = Float.format 6 (Float.astype_float32 x))
  ∨ (exists b : bool, pd.isna cell = false ∧ pd.to_boolean cell = Some b
                      ∧ text = if b then "1.000000" else "0.000000").

(** The example row of the specification, with the nine columns only. *)
Definition spec_example_world : World :=
  world_with
    [ [ "driverId"; "truckId"; "eventTime"; "eventType"; "longitude"; "latitude";
        "driverName"; "routeName"; "eventDate" ];
      [ "10"; "200"; "59:21.7"; "Normal"; "-94.5"; "39.1"; "Alice"; "R1";
        "2016-01-01" ] ].

(** The same row without a value for [latitude]. *)
Definition blank_latitude_world : World :=
  world_with
    [ [ "driverId"; "truckId"; "eventTime"; "eventType"; "longitude"; "latitude";
        "driverName"; "routeName"; "eventDate" ];
      [ "10"; "200"; "59:21.7"; "Normal"; "-94.5"; EmptyString; "Alice"; "R1"; "2016-01-01" ] ].

(** The same row with an infinite [latitude]. *)
Definition infinite_latitude_world : World :=
  world_with
    [ [ "driverId"; "truckId"; "eventTime"; "eventType"; "longitude"; "latitude";
        "driverName"; "routeName"; "eventDate" ];
      [ "10"; "200"; "59:21.7"; "Normal"; "-94.5"; "inf"; "Alice"; "R1"; "2016-01-01" ] ].

(** ** Notions used in the further properties *)

(** What a run that gets as far as writing has printed by then, and what
    it prints after the file is written. *)
Definition lines_before_saving (df : DataFrame) : list printed :=
  [ Line "Leyendo archivo de entrada...";
    Line ("Datos leídos: " +:+ Text.str_thousands (nrows df) +:+ " filas, "
          +:+ Text.str_int (Z.of_nat (List.length (columns df))) +:+ " columnas");
    MemoryLine df;
    Line (nl +:+ "Columnas extraídas:") ]
  ++ map (fun col => Line ("  - " +:+ col.1 +:+ ": " +:+ dtype_name (Series_dtype col.2)))
         (columns df)
  ++ [ Line (nl +:+ "Guardando archivo de salida...") ].

Definition lines_after_saving (df : DataFrame) : list printed :=
  [ Line ("✅ Archivo guardado exitosamente: " +:+ str output_file);
    Line ("📊 Resumen: " +:+ Text.str_int (Z.of_nat (nrows df)) +:+ " registros, "
          +:+ Text.str_int (Z.of_nat (List.length (columns df)))
          +:+ " columnas específicas");
    Line (nl +:+ "📋 Muestra de los datos extraídos:");
    SampleLines (head 3 df) ].

(** The exception [read_csv] raises when something stands at the input
    path that cannot be read as a table: a directory, a path below a
    regular file, a file without records. *)
Definition unreadable (r : stat_result) : option exn :=
  match r with
  | IsDir => Some (IsADirectoryError input_file)
  | ENOTDIR => Some (NotADirectoryError input_file)
  | IsFile (Table []) => Some EmptyDataError
  | _ => None
  end.

(** An input file without a single record. *)
Definition empty_file_world : World := world_with [].

(** A directory at the input path. *)
Definition input_is_directory_world : World :=
  {| fs := <[input_file := Dir]> (<[input_dir := Dir]> (<[files_dir := Dir]> ∅));
     stdout := [] |}.

(** The sample with the output directory in place; the same with an
    output file left by an earlier run; the same with a directory where
    the output file goes. *)
Definition ready_world : World :=
  {| fs := <[output_dir := Dir]> (fs example_world); stdout := [] |}.

Definition stale_output_world : World :=
  {| fs := <[output_file := File (Table [["old"]; ["1"]; ["2"]; ["3"]])]> (fs ready_world);
     stdout := [] |}.

Definition output_is_directory_world : World :=
  {| fs := <[output_file := Dir]> (fs ready_world); stdout := [] |}.

(** The sample with a second [driverId] column at the end. *)
Definition repeated_header_world : World :=
  world_with [ sample_header ++ ["driverId"]; sample_row ++ ["77"] ].

(** The sample with a driver whose name is a missing-value marker. *)
Definition marker_name_world : World :=
  world_with
    [ sample_header;
      [ "10"; "200"; "59:21.7"; "Normal"; "-94.5"; "39.1"; "10|200|1"; "3.66E+18";
        "NA"; "160405074"; "R1"; "2016-01-01" ] ].

(** The sample with its identifiers written with a blank, leading zeros
    and a plus sign. *)
Definition padded_id_world : World :=
  world_with
    [ sample_header;
      [ " 007"; "+200"; "59:21.7"; "Normal"; "-94.5"; "39.1"; "10|200|1"; "3.66E+18";
        "Alice"; "160405074"; "R1"; "2016-01-01" ] ].

(** The header of the sample and no row. *)
Definition header_only_world : World := world_with [sample_header].

(** A console that encodes Latin-1: it prints the accented letters of the
    messages and raises on their emoji.  (In UTF-8 a character beyond
    Latin-1 starts with a byte from 196 on.)  The lines made of data are
    printed as they are; those of the sample are ASCII. *)
Definition latin1 (s : string) : bool :=
  forallb (fun a => Text.code a <? 196) (Text.chars s).

Definition latin1_console : Console :=
  fun x =>
    match x with
    | Line s | ErrorLine s _ => if latin1 s then None else Some UnicodeEncodeError
    | MemoryLine _ | SampleLines _ => None
    end.


(** A regular file where the directory [files] has to be; a regular file
    where [files/input] has to be. *)
Definition files_is_file_world : World :=
  {| fs := <[files_dir := File (Table [])]> ∅; stdout := [] |}.

Definition input_dir_is_file_world : World :=
  {| fs := <[input_dir := File (Table [])]> (<[files_dir := Dir]> ∅); stdout := [] |}.



Definition deep_path : Path := Slash (Slash (Slash Cwd "a") "b") "c".

(** * Facts *)

Ltac paths :=
  unfold output_dir, input_dir, files_dir, output_file, input_file in *;
  cbn [parent] in *.

Ltac lookups :=
  repeat first
    [ rewrite lookup_insert_eq
    | rewrite lookup_insert_ne by discriminate
    | match goal with H : ?m !! ?p = _ |- context [?m !! ?p] => rewrite H end ].

Ltac exec :=
  repeat progress
    (unfold try_except, os.mkdir, mkdir_single, bind, ret, raise, put, is_dir,
            open_read, open_write, print;
     cbn [stat fs stdout parent handle isinstance negb orb andb];
     lookups).

(** ** Rounding *)

(** [div_rne] is within one half of the quotient. *)
Lemma div_rne_nearest (n d : Z) :
  0 < d -> 2 * Z.abs (n - d * Float.div_rne n d) <= d.
Proof.
  intros Hd. unfold Float.div_rne. cbv zeta.
  pose proof (Z.div_mod n d ltac:(lia)) as Hnd.
  pose proof (Z.mod_pos_bound n d Hd) as Hr.
  generalize dependent (n mod d). generalize dependent (n / d). intros q r Hnd Hr.
  subst n. destruct (Z.compare_spec (2 * r) d) as [Hc|Hc|Hc].
  - destruct (Z.even q).
    + replace (d * q + r - d * q) with r by ring. lia.
    + replace (d * q + r - d * (q + 1)) with (r - d) by ring. lia.
  - replace (d * q + r - d * q) with r by ring. lia.
  - replace (d * q + r - d * (q + 1)) with (r - d) by ring. lia.
Qed.

(** [39.1] lies strictly between the consecutive binary32 values
    [10249830 / 2^18] and [10249831 / 2^18], nearer to the first, which is
    what the parse followed by [astype] yields; and that value,
    39.09999847..., lies between 39.099998 and 39.0999985. *)
Lemma binary32_nearest_to_39_1 :
  pd.to_double "39.1" = Some (Float.Finite false 5502835794693325 (-47))
  ∧ Float.astype_float32 (Float.Finite false 5502835794693325 (-47))
    = Float.Finite false 10249830 (-18)
  ∧ 2 ^ 23 <= 10249830 < 2 ^ 24
  ∧ 10249830 * 10 < 391 * 2 ^ 18 < 10249831 * 10
  ∧ 391 * 2 ^ 18 - 10249830 * 10 < 10249831 * 10 - 391 * 2 ^ 18
  ∧ 39099998 * 2 ^ 18 < 10249830 * 10 ^ 6
  ∧ 2 * (10249830 * 10 ^ 6) < (2 * 39099998 + 1) * 2 ^ 18.
Proof. vm_compute. repeat split; congruence. Qed.

(** The parser and the writer on a few cells. *)
Example str_to_int64_examples :
  pd.str_to_int64 "10" = Some 10
  ∧ pd.str_to_int64 " -12 " = Some (-12)
  ∧ pd.str_to_int64 "+7" = Some 7
  ∧ pd.str_to_int64 "10.0" = None
  ∧ pd.str_to_int64 "abc" = None
  ∧ pd.str_to_int64 "9223372036854775808" = None.
Proof. vm_compute. repeat split. Qed.

Example exact_int32_examples :
  pd.exact_int32 "10.0" = Some 10
  ∧ pd.exact_int32 "1e3" = Some 1000
  ∧ pd.exact_int32 "10.5" = None
  ∧ pd.exact_int32 "3000000000" = None
  ∧ pd.exact_int32 "inf" = None.
Proof. vm_compute. repeat split. Qed.

Example float32_rendering_examples :
  (Float.format 6 ∘ Float.astype_float32) <$> pd.to_double "12.3" = Some "12.300000"
  ∧ (Float.format 6 ∘ Float.astype_float32) <$> pd.to_double "-94.5" = Some "-94.500000"
  ∧ (Float.format 6 ∘ Float.astype_float32) <$> pd.to_double "39.1" = Some "39.099998"
  ∧ (Float.format 6 ∘ Float.astype_float32) <$> pd.to_double "0.0078125" = Some "0.007812"
  ∧ (Float.format 6 ∘ Float.astype_float32) <$> pd.to_double "16777217" = Some "16777216.000000"
  ∧ (Float.format 6 ∘ Float.astype_float32) <$> pd.to_double "-1e-7" = Some "-0.000000"
  ∧ (Float.format 6 ∘ Float.astype_float32) <$> pd.to_double "4e38" = Some "inf"
  ∧ pd.to_double "abc" = None.
Proof. vm_compute. repeat split. Qed.

(** The converter is not exact.  Of a literal with more than 17 digits
    it reads [22.770033] where the binary64 value nearest to the literal
    narrows to [22.770031]; and narrowing rounds a second time: the
    binary32 value nearest to the second literal prints as [39.100002].
    A literal whose exponent exceeds 308 is no number even when its digits
    are zero, and leading zeros count among the 17 digits. *)
Example converter_examples :
  (Float.format 6 ∘ Float.astype_float32) <$> pd.to_double "22.77003192901611300125"
  = Some "22.770033"
  ∧ Float.format 6 (Float.astype_float32
                      (Float.binary64 false 2277003192901611300125 (10 ^ 20)))
    = "22.770031"
  ∧ (Float.format 6 ∘ Float.astype_float32)
      <$> pd.to_double "39.10000038146972656250000000000000001"
    = Some "39.099998"
  ∧ Float.format 6 (Float.binary32 false 3910000038146972656250000000000000001 (10 ^ 35))
    = "39.100002"
  ∧ pd.to_double "0e400" = None
  ∧ pd.exact_int32 "00000000000000000007" = Some 0.
Proof. vm_compute. repeat split. Qed.

(** A column declared [int32] on a few columns: a literal beyond 64 bits
    signed goes through the unsigned scan and is narrowed, which wraps it
    around, as a literal beyond 32 bits is; the unsigned scan takes no
    negative and no missing cell; numbers with an integer value and the
    words true and false are cast. *)
Example int32_column_examples :
  pd.int32_column "driverId" ["9223372036854775808"] = Return [0]
  ∧ pd.int32_column "driverId" ["3000000000"] = Return [-1294967296]
  ∧ pd.int32_column "driverId" ["9223372036854775808"; "-1"]
    = Raise (ValueError (UintConflict "driverId"))
  ∧ pd.int32_column "driverId" ["9223372036854775808"; "NA"]
    = Raise (ValueError (UintConflict "driverId"))
  ∧ pd.int32_column "driverId" ["99999999999999999999999"] = Raise OverflowError
  ∧ pd.int32_column "driverId" ["10.0"; "7"] = Return [10; 7]
  ∧ pd.int32_column "driverId" ["true"; "FALSE"] = Return [1; 0]
  ∧ pd.int32_column "driverId" ["10"; "NA"] = Raise (ValueError (IntegerNA "driverId"))
  ∧ pd.int32_column "driverId" ["10.5"] = Raise (ValueError (UnsafeCast "driverId"))
  ∧ pd.int32_column "driverId" ["abc"] = Raise (ValueError (InvalidLiteral "driverId")).
Proof. vm_compute. repeat split. Qed.

(** ** Running a computation *)

Lemma bind_run {A B} (c : Py A) (k : A -> Py B) (w w' : World) (r : result A) :
  c w = (r, w') ->
  bind c k w = match r with Return a => k a w' | Raise e => (Raise e, w') end.
Proof. intros H. unfold bind. rewrite H. reflexivity. Qed.

Lemma print_run (x : printed) (w : World) :
  print x w = (Return tt, {| fs := fs w; stdout := stdout w ++ [x] |}).
Proof. reflexivity. Qed.

Lemma for_each_print {A} (f : A -> printed) (l : list A) (w : World) :
  for_each l (fun x => print (f x)) w
  = (Return tt, {| fs := fs w; stdout := stdout w ++ map f l |}).
Proof.
  revert w; induction l as [|x l IH]; intros [m out]; cbn [for_each map].
  - unfold ret. cbn [fs stdout]. by rewrite app_nil_r.
  - unfold bind. rewrite print_run. cbn [fs stdout]. rewrite IH. cbn [fs stdout].
    by rewrite <- app_assoc.
Qed.

(** ** The file system *)

Lemma stat_below (m : gmap Path node) (q : Path) (n : string) :
  stat m q = IsDir ->
  stat m (Slash q n) =
    match m !! Slash q n with
    | None => ENOENT
    | Some Dir => IsDir
    | Some (File c) => IsFile c
    end.
Proof. intros H. simpl. rewrite H. reflexivity. Qed.

Lemma stat_below_missing (m : gmap Path node) (q : Path) (n : string) :
  stat m q = ENOENT -> stat m (Slash q n) = ENOENT.
Proof. intros H. simpl. rewrite H. reflexivity. Qed.

(** [stat] only looks at the path and what lies above it. *)
Lemma above_depth (q p : Path) :
  above q p -> (List.length (parts q) <= List.length (parts p))%nat.
Proof.
  induction p as [|p' IH n]; cbn [above]; intros [->|H]; try done.
  cbn [parts List.length]. specialize (IH H). lia.
Qed.

Lemma not_above_parent (q : Path) (n : string) : ~ above (Slash q n) q.
Proof. intros H%above_depth. cbn [parts List.length] in H. lia. Qed.

Lemma stat_insert_other (m : gmap Path node) (p q : Path) (x : node) :
  ~ above p q -> stat (<[p := x]> m) q = stat m q.
Proof.
  induction q as [|q' IH n]; intros Hpq; [reflexivity|].
  cbn [stat]. rewrite IH by (intros H; apply Hpq; by right).
  rewrite lookup_insert_ne; [reflexivity|]. intros ->. apply Hpq. by left.
Qed.

Lemma free_way_stat (m : gmap Path node) (p : Path) :
  free_way m p -> stat m p = IsDir ∨ stat m p = ENOENT.
Proof.
  induction p as [|q IH n]; cbn [free_way stat]; [auto|]. intros [Hq Hp].
  destruct (IH Hq) as [->| ->]; [|auto].
  destruct (m !! Slash q n) as [[|c]|]; [auto|discriminate|auto].
Qed.

Lemma mkdir_eq (self : Path) (parents exist_ok : bool) :
  mkdir self parents exist_ok
  = try_except (os.mkdir self)
      [ (cls.FileNotFoundError, fun e =>
           match self with
           | Cwd => raise e
           | Slash q _ =>
               if negb parents then raise e
               else (mkdir q true true ;; mkdir_single self exist_ok)
           end);
        (cls.OSError, fun e =>
           d <- is_dir self ;;
           if negb exist_ok || negb d then raise e else ret tt) ].
Proof. destruct self; reflexivity. Qed.

(** X13. [mkdir(parents=True, exist_ok=True)] at any depth: when no regular
    file is in the way the call succeeds, the path is a directory
    afterwards, only the path and what lies above it can have changed, and
    a path that was a directory already leaves everything as it was. *)
Lemma mkdir_parents (p : Path) (w : World) :
  free_way (fs w) p ->
  exists m',
    mkdir p true true w = (Return tt, {| fs := m'; stdout := stdout w |})
    ∧ stat m' p = IsDir
    ∧ (forall q, ~ above q p -> m' !! q = fs w !! q)
    ∧ (stat (fs w) p = IsDir -> m' = fs w).
Proof.
  revert w. induction p as [|q IH n]; intros [m out]; cbn [fs stdout free_way].
  - intros _. exists m. by rewrite mkdir_eq.
  - intros [Hq Hp]. rewrite mkdir_eq. unfold try_except, os.mkdir. cbn [fs parent].
    destruct (free_way_stat m q Hq) as [Hsq|Hsq].
    + rewrite (stat_below _ _ _ Hsq).
      destruct (m !! Slash q n) as [[|c]|] eqn:Hl; [| discriminate |].
      * exists m. cbn [raise handle isinstance]. unfold bind, is_dir, ret. cbn [fs].
        rewrite (stat_below _ _ _ Hsq), Hl. done.
      * rewrite Hsq. exists (<[Slash q n := Dir]> m). split; [reflexivity|].
        split; [|split; [|discriminate]].
        -- rewrite stat_below, lookup_insert_eq; [done|].
           rewrite stat_insert_other; [done|apply not_above_parent].
        -- intros q' Hq'. apply lookup_insert_ne. intros <-. apply Hq'. by left.
    + rewrite (stat_below_missing _ _ _ Hsq), Hsq. cbn [raise handle isinstance negb].
      destruct (IH {| fs := m; stdout := out |} Hq) as (m1 & Hrun & Hs1 & Hsame & _).
      cbn [fs stdout] in Hrun, Hsame.
      rewrite (bind_run _ _ _ _ _ Hrun).
      assert (Hl : m1 !! Slash q n = m !! Slash q n)
        by (apply Hsame, not_above_parent).
      unfold mkdir_single, try_except, os.mkdir. cbn [fs parent].
      rewrite (stat_below _ _ _ Hs1), Hl.
      destruct (m !! Slash q n) as [[|c]|] eqn:Hm; [| discriminate |].
      * exists m1. cbn [raise handle isinstance]. unfold bind, is_dir, ret. cbn [fs].
        rewrite (stat_below _ _ _ Hs1), Hl. cbn [negb orb].
        split; [reflexivity|]. split; [reflexivity|].
        split; [|discriminate].
        intros q' Hq'. apply Hsame. intros H. apply Hq'. by right.
      * rewrite Hs1. exists (<[Slash q n := Dir]> m1). split; [reflexivity|].
        split; [|split; [|discriminate]].
        -- rewrite stat_below, lookup_insert_eq; [done|].
           rewrite stat_insert_other; [done|apply not_above_parent].
        -- intros q' Hq'. rewrite lookup_insert_ne.
           ++ apply Hsame. intros H. apply Hq'. by right.
           ++ intros <-. apply Hq'. by left.
Qed.

Lemma mkdir_output_dir (w : World) :
  mkdir output_dir true true w
  = (mkdir_status (fs w), {| fs := made (fs w); stdout := stdout w |}).
Proof.
  destruct w as [m out]. unfold mkdir_status, made. cbn [fs stdout].
  destruct (m !! files_dir) as [[|c1]|] eqn:H1; cbn [is_file].
  - (* [files] is a directory *)
    destruct (m !! output_dir) as [[|c2]|] eqn:H2; cbn [is_file]; paths;
      rewrite mkdir_eq; exec.
    + by rewrite insert_id.
    + by rewrite insert_id.
    + by rewrite (insert_id m _ _ H1).
  - paths. rewrite mkdir_eq; exec. done.
  - destruct (m !! output_dir) as [[|c2]|] eqn:H2; cbn [is_file]; paths;
      rewrite !mkdir_eq; exec.
    all: done.
Qed.

Lemma made_dirs (m : gmap Path node) :
  mkdir_status m = Return tt ->
  made m !! files_dir = Some Dir ∧ made m !! output_dir = Some Dir.
Proof.
  unfold mkdir_status, made.
  destruct (m !! files_dir) as [[|c1]|] eqn:H1; cbn [is_file]; [|discriminate|];
    (destruct (m !! output_dir) as [[|c2]|] eqn:H2; cbn [is_file]; [|discriminate|]);
    intros _; paths; lookups; done.
Qed.

Lemma made_other (m : gmap Path node) (p : Path) :
  p <> files_dir -> p <> output_dir -> made m !! p = m !! p.
Proof.
  intros Hf Ho. unfold made.
  destruct (is_file (m !! files_dir)); [reflexivity|].
  destruct (m !! output_dir); rewrite ?lookup_insert_ne by done; reflexivity.
Qed.

Lemma stat_output_dir (m : gmap Path node) :
  m !! files_dir = Some Dir -> m !! output_dir = Some Dir ->
  stat m output_dir = IsDir.
Proof. intros H1 H2. paths. cbn [stat]. by rewrite H1, H2. Qed.

(** ** The run, case by case *)

Lemma read_csv_reading (w : World) :
  pd.read_csv input_file columns_to_extract dtype_mapping w = (reading (fs w), w).
Proof.
  unfold pd.read_csv, reading, bind, open_read, ret, raise.
  destruct (stat (fs w) input_file); try reflexivity.
  destruct (pd.parse _ _ _); reflexivity.
Qed.

Lemma snoc_split {A} (out l : list A) (h : A) :
  (exists out', l = out ++ out') -> exists out', l ++ [h] = out ++ out' ++ [h].
Proof. intros [o ->]. exists o. by rewrite app_assoc. Qed.

Lemma run_cases (w : World) :
  match mkdir_status (fs w) with
  | Raise e =>
      extract_specific_columns w = (Raise e, {| fs := made (fs w); stdout := stdout w |})
  | Return _ =>
      let m1 := made (fs w) in
      match reading m1 with
      | Raise e =>
          extract_specific_columns w
          = (Return false,
             {| fs := m1;
                stdout := stdout w ++ [Line "Leyendo archivo de entrada..."; handler_line e] |})
      | Return df =>
          if bool_decide (m1 !! output_file = Some Dir) then
            exists w',
              extract_specific_columns w = (Return false, w') /\
              fs w' = m1 /\
              exists out',
                stdout w' = stdout w ++ out' ++ [handler_line (IsADirectoryError output_file)]
          else
            exists w',
              extract_specific_columns w = (Return true, w') /\
              fs w' = <[output_file := File (Table (pd.csv_records df false 6))]> m1 /\
              exists out', stdout w' = stdout w ++ out'
      end
  end.
Proof.
  destruct w as [m out]. cbn [fs stdout].
  pose proof (mkdir_output_dir {| fs := m; stdout := out |}) as Hmk. cbn [fs stdout] in Hmk.
  unfold extract_specific_columns. rewrite (bind_run _ _ _ _ _ Hmk).
  destruct (mkdir_status m) as [[]|e] eqn:Hst; [|reflexivity].
  cbv zeta.
  destruct (made_dirs _ Hst) as [Hf Ho].
  pose proof (stat_output_dir _ Hf Ho) as Hd.
  set (m1 := made m) in *. clearbody m1. clear Hmk.
  destruct (reading m1) as [df|e] eqn:Hr.
  - unfold try_except, bind.
    rewrite print_run; cbn [fs stdout].
    rewrite read_csv_reading; cbn [fs stdout]. rewrite Hr.
    do 3 (rewrite print_run; cbn [fs stdout]).
    rewrite (for_each_print
               (fun col => Line ("  - " +:+ col.1 +:+ ": " +:+ dtype_name (Series_dtype col.2)))).
    cbn [fs stdout]. rewrite print_run; cbn [fs stdout].
    unfold pd.to_csv, bind, is_dir, open_write, ret, raise, put; cbn [fs stdout].
    change (parent output_file) with output_dir. rewrite Hd. cbn [negb].
    change output_file with (Slash output_dir "specific-columns.csv").
    rewrite (stat_below _ _ _ Hd).
    destruct (m1 !! Slash output_dir "specific-columns.csv") as [[|c]|] eqn:Hout.
    + rewrite bool_decide_eq_true_2 by reflexivity. cbn [handle isinstance fs stdout].
      unfold bind, ret.
      eexists; split; [rewrite print_run; reflexivity|]. cbn [fs stdout].
      split; [reflexivity|].
      apply snoc_split. rewrite <- !app_assoc. eexists; reflexivity.
    + rewrite bool_decide_eq_false_2 by discriminate.
      eexists; split; [do 4 (cbn [fs stdout]; rewrite print_run); reflexivity|].
      cbn [fs stdout]. split; [reflexivity|].
      rewrite <- !app_assoc. eexists; reflexivity.
    + rewrite bool_decide_eq_false_2 by discriminate.
      cbn [parent fs]. rewrite Hd.
      eexists; split; [do 4 (cbn [fs stdout]; rewrite print_run); reflexivity|].
      cbn [fs stdout]. split; [reflexivity|].
      rewrite <- !app_assoc. eexists; reflexivity.
  - unfold try_except, bind.
    rewrite print_run; cbn [fs stdout].
    rewrite read_csv_reading; cbn [fs stdout]. rewrite Hr.
    unfold handler_line. cbn [handle].
    destruct (isinstance e cls.FileNotFoundError) eqn:Hfnf.
    + unfold bind, ret. rewrite print_run; cbn [fs stdout]. by rewrite <- app_assoc.
    + replace (isinstance e cls.Exception) with true by (by destruct e).
      unfold bind, ret. rewrite print_run; cbn [fs stdout]. by rewrite <- app_assoc.
Qed.

(** ** The run, seen from the file system *)

Lemma run_outcome (w : World) :
  (extract_specific_columns w).1 = (outcome (fs w)).1
  ∧ fs (extract_specific_columns w).2 = (outcome (fs w)).2.
Proof.
  pose proof (run_cases w) as H. unfold outcome.
  destruct (mkdir_status (fs w)) as [[]|e].
  - cbv zeta in H. destruct (reading (made (fs w))) as [df|e].
    + destruct (bool_decide _).
      * destruct H as (w' & -> & Hfs & _). cbn [fst snd]. by rewrite Hfs.
      * destruct H as (w' & -> & Hfs & _). cbn [fst snd]. by rewrite Hfs.
    + by rewrite H.
  - by rewrite H.
Qed.

Lemma made_fixed (m : gmap Path node) :
  m !! files_dir = Some Dir -> m !! output_dir = Some Dir ->
  mkdir_status m = Return tt ∧ made m = m.
Proof.
  intros H1 H2. unfold mkdir_status, made. rewrite H1, H2. cbn [is_file].
  split; [reflexivity|]. by apply insert_id.
Qed.

Lemma made_again (m : gmap Path node) :
  mkdir_status (made m) = mkdir_status m ∧ made (made m) = made m.
Proof.
  destruct (mkdir_status m) as [[]|e] eqn:Hst.
  - destruct (made_dirs _ Hst) as [H1 H2]. by apply made_fixed.
  - revert Hst. unfold mkdir_status, made.
    destruct (is_file (m !! files_dir)) eqn:Hf.
    + rewrite Hf. by intros ->.
    + destruct (is_file (m !! output_dir)) eqn:Ho; [|discriminate].
      intros <-. destruct (m !! output_dir) as [x|] eqn:Hx; [|discriminate].
      paths. lookups. cbn [is_file] in *. rewrite Ho.
      split; [reflexivity|]. by rewrite insert_insert_eq.
Qed.

Lemma stat_input_written (m : gmap Path node) (x : node) :
  stat (<[output_file := x]> m) input_file = stat m input_file.
Proof. paths. cbn [stat]. by rewrite !lookup_insert_ne by discriminate. Qed.

Lemma reading_written (m : gmap Path node) (x : node) :
  reading (<[output_file := x]> m) = reading m.
Proof. unfold reading. by rewrite stat_input_written. Qed.

Lemma outcome_again (m : gmap Path node) :
  outcome (outcome m).2 = outcome m.
Proof.
  unfold outcome at 2 3.
  destruct (mkdir_status m) as [[]|e] eqn:Hst; cbn [snd].
  - destruct (made_dirs _ Hst) as [H1 H2]. cbv zeta.
    destruct (reading (made m)) as [df|e] eqn:Hr; cbn [snd].
    + destruct (bool_decide (made m !! output_file = Some Dir)) eqn:Hd; cbn [snd].
      * unfold outcome. destruct (made_fixed _ H1 H2) as [-> ->].
        cbv zeta. by rewrite Hr, Hd.
      * unfold outcome.
        destruct (made_fixed (<[output_file := File (Table (pd.csv_records df false 6))]> (made m)))
          as [-> ->]; [paths; by lookups..|].
        cbv zeta. rewrite reading_written, Hr, lookup_insert_eq.
        rewrite bool_decide_eq_false_2 by discriminate.
        by rewrite insert_insert_eq.
    + unfold outcome. destruct (made_fixed _ H1 H2) as [-> ->].
      cbv zeta. by rewrite Hr.
  - unfold outcome. destruct (made_again m) as [-> ->]. by rewrite Hst.
Qed.

Lemma unobstructed_status (m : gmap Path node) :
  unobstructed m <-> mkdir_status m = Return tt.
Proof.
  unfold unobstructed, mkdir_status. split.
  - by intros [-> ->].
  - destruct (is_file (m !! files_dir)); [discriminate|].
    by destruct (is_file (m !! output_dir)).
Qed.

Lemma reading_missing (m : gmap Path node) :
  mkdir_status m = Return tt -> input_missing m ->
  reading (made m) = Raise (FileNotFoundError input_file).
Proof.
  intros Hst [Hin Hdir]. destruct (made_dirs _ Hst) as [H1 _].
  assert (Hi : made m !! input_file = None) by (by rewrite made_other).
  assert (Hd : made m !! input_dir = m !! input_dir) by (by rewrite made_other).
  unfold reading. paths. cbn [stat]. rewrite H1, Hd, Hi.
  by destruct (m !! Slash (Slash Cwd "files") "input") as [[|c]|].
Qed.

(** ** The parser *)

Lemma reading_present (m : gmap Path node) (c : content) :
  mkdir_status m = Return tt -> stat m input_file = IsFile c ->
  reading (made m) = pd.parse columns_to_extract dtype_mapping c.
Proof.
  intros Hst Hin. destruct (made_dirs _ Hst) as [H1 _].
  assert (Hi : made m !! input_file = m !! input_file) by (by rewrite made_other).
  assert (Hd : made m !! input_dir = m !! input_dir) by (by rewrite made_other).
  unfold reading. revert Hin. paths. cbn [stat]. rewrite H1, Hd, Hi.
  destruct (m !! Slash Cwd "files") as [[|c1]|]; try discriminate.
  destruct (m !! Slash (Slash Cwd "files") "input") as [[|c2]|]; try discriminate.
  destruct (m !! _) as [[|c3]|]; try discriminate.
  by intros [= ->].
Qed.

Lemma elem_of_selected_from (u seen : list string) (k : nat) (header : list string)
    (i : nat) (name : string) :
  (i, name) ∈ pd.selected_from u seen k header
  <-> (exists j : nat,
         i = (k + j)%nat ∧ header !! j = Some name
         ∧ name ∈ u ∧ (name ∉ seen) ∧ (name ∉ take j header)).
Proof.
  revert seen k. induction header as [|n rest IH]; intros seen k; cbn [pd.selected_from].
  - split; [by intros ?%elem_of_nil|]. by intros (j & _ & ? & _).
  - rewrite elem_of_app, IH. split.
    + intros [Hhd|(j & -> & Hj & Hu & Hs & Ht)].
      * case_bool_decide as Hc; [|by apply elem_of_nil in Hhd].
        apply list_elem_of_singleton in Hhd as [= -> ->].
        exists 0%nat. rewrite Nat.add_0_r. cbn. destruct Hc. repeat split; try done.
        by intros ?%elem_of_nil.
      * exists (S j). rewrite Nat.add_succ_r. cbn.
        apply not_elem_of_cons in Hs as [Hne Hs]. repeat split; try done.
        by apply not_elem_of_cons.
    + intros ([|j] & -> & Hj & Hu & Hs & Ht); cbn in Hj, Ht.
      * left. injection Hj as ->. rewrite bool_decide_eq_true_2 by done.
        rewrite Nat.add_0_r. by apply list_elem_of_singleton.
      * right. apply not_elem_of_cons in Ht as [Hne Ht].
        exists j. rewrite Nat.add_succ_r. repeat split; try done.
        by apply not_elem_of_cons.
Qed.

Lemma elem_of_selected (u header : list string) (i : nat) (name : string) :
  (i, name) ∈ pd.selected u header
  <-> header !! i = Some name ∧ name ∈ u ∧ name ∉ take i header.
Proof.
  unfold pd.selected. rewrite elem_of_selected_from. split.
  - intros (j & -> & Hj & Hu & _ & Ht). done.
  - intros (Hj & Hu & Ht). exists i. repeat split; try done. by intros ?%elem_of_nil.
Qed.

Lemma convert_raises (name : string) (d : option dtype) (cells : list string) (e : exn) :
  pd.convert name d cells = Raise e -> isinstance e cls.FileNotFoundError = false.
Proof.
  unfold pd.convert, pd.int32_column, pd.int32_fallback, pd.float32_column.
  intros H. destruct d as [[]|]; repeat case_match; simplify_eq; reflexivity.
Qed.

Lemma convert_columns_raises_other (d : gmap string dtype) (rows : list (list string))
    (cols : list (nat * string)) (e : exn) :
  pd.convert_columns d rows cols = Raise e -> isinstance e cls.FileNotFoundError = false.
Proof.
  induction cols as [|[i name] cols IH]; cbn [pd.convert_columns]; [discriminate|].
  destruct (pd.convert _ _ _) as [s|e0] eqn:Hc.
  - destruct (pd.convert_columns d rows cols) as [ss|e1]; [discriminate|].
    intros [= <-]. by apply IH.
  - intros [= <-]. by apply convert_raises in Hc.
Qed.


(** Whatever the parser raises is no [FileNotFoundError]. *)
Lemma parse_raises (u : list string) (d : gmap string dtype) (c : content) (e : exn) :
  pd.parse u d c = Raise e -> isinstance e cls.FileNotFoundError = false.
Proof.
  unfold pd.parse. destruct c as [[|header rows]|]; try (by intros [= <-]).
  destruct (filter _ u); [|by intros [= <-]].
  destruct (pd.convert_columns _ _ _) as [cols|e'] eqn:Hc; [discriminate|].
  intros [= <-]. by apply convert_columns_raises_other in Hc.
Qed.

(** A run whose input file is there but is rejected by the parser. *)
Lemma run_parse_failure (w : World) (c : content) (e : exn) :
  unobstructed (fs w) ->
  stat (fs w) input_file = IsFile c ->
  pd.parse columns_to_extract dtype_mapping c = Raise e ->
  exists w',
    extract_specific_columns w = (Return false, w')
    ∧ stdout w'
      = stdout w ++ [ Line "Leyendo archivo de entrada...";
                      ErrorLine "❌ Error procesando datos: " e ]
    ∧ fs w' !! output_file = fs w !! output_file.
Proof.
  intros Hu Hin Hp. apply unobstructed_status in Hu.
  pose proof (run_cases w) as H. rewrite Hu in H. cbv zeta in H.
  rewrite (reading_present _ _ Hu Hin), Hp in H.
  unfold handler_line in H. rewrite (parse_raises _ _ _ _ Hp) in H.
  eexists. split; [exact H|]. cbn [fs stdout].
  split; [reflexivity|]. by apply made_other.
Qed.

Lemma forallb_elem {A} (f : A -> bool) (l : list A) (x : A) :
  forallb f l = true -> x ∈ l -> f x = true.
Proof. intros H Hx. apply list_elem_of_In in Hx. by apply (proj1 (forallb_forall f l) H). Qed.

Lemma existsb_elem {A} (f : A -> bool) (l : list A) (x : A) :
  existsb f l = false -> x ∈ l -> f x = false.
Proof.
  intros H Hx. apply list_elem_of_In in Hx.
  destruct (f x) eqn:Hf; [|done].
  assert (existsb f l = true) by (apply existsb_exists; eauto). congruence.
Qed.




(** No missing-value marker is an integer literal. *)
Lemma isna_no_integer (cell : string) :
  pd.isna cell = true -> pd.str_to_int64 cell = None.
Proof.
  unfold pd.isna, pd.STR_NA_VALUES. intros H%bool_decide_eq_true_1.
  apply elem_of_list_to_set in H.
  repeat (apply elem_of_cons in H as [->|H]; [vm_compute; reflexivity|]).
  by apply elem_of_nil in H.
Qed.

(** What a finished signed scan says about the cells. *)
Lemma try_int64_scanned (cells : list string) (v : list (option Z)) :
  pd.try_int64 cells = pd.Scanned v ->
  v = map (fun c => if pd.isna c then None else pd.str_to_int64 c) cells
  ∧ Forall (fun c => pd.isna c = true ∨ is_Some (pd.str_to_int64 c)) cells.
Proof.
  revert v. induction cells as [|c cells IH]; intros v; cbn [pd.try_int64 map].
  - intros [= <-]. by split.
  - destruct (pd.isna c) eqn:Hna.
    + destruct (pd.try_int64 cells) as [v'| |]; try discriminate.
      intros [= <-]. destruct (IH v' eq_refl) as [-> Hall]. split; [done|].
      constructor; auto.
    + destruct (pd.str_to_int64 c) as [x|] eqn:Hx.
      * destruct (pd.try_int64 cells) as [v'| |]; try discriminate.
        intros [= <-]. destruct (IH v' eq_refl) as [-> Hall]. split; [done|].
        constructor; [right; eauto|done].
      * by destruct (pd.int64_overflow c).
Qed.


Lemma try_int64_literals (cells : list string) :
  Forall (fun c => is_Some (pd.str_to_int64 c)) cells ->
  pd.try_int64 cells = pd.Scanned (map pd.str_to_int64 cells)
  ∧ existsb pd.isna cells = false.
Proof.
  induction 1 as [|c cells [x Hx] _ [IH1 IH2]]; [done|].
  assert (Hna : pd.isna c = false).
  { destruct (pd.isna c) eqn:Hna; [|done]. apply isna_no_integer in Hna. congruence. }
  cbn [pd.try_int64 existsb map]. by rewrite Hna, Hx, IH1, IH2.
Qed.

(** What a finished unsigned scan says about the cells. *)
Lemma try_uint64_scanned (cells : list string) (v : list pd.uint_token) :
  pd.try_uint64 cells = pd.Scanned v ->
  Forall2 (fun c t => if pd.isna c then t = pd.Null else pd.str_to_uint64 c = pd.Scanned t)
          cells v.
Proof.
  revert v. induction cells as [|c cells IH]; intros v; cbn [pd.try_uint64].
  - intros [= <-]. constructor.
  - destruct (pd.isna c) eqn:Hna.
    + destruct (pd.try_uint64 cells) as [v'| |]; try discriminate.
      intros [= <-]. constructor; [by rewrite Hna|by apply IH].
    + destruct (pd.str_to_uint64 c) as [t| |] eqn:Ht; try discriminate.
      destruct (pd.try_uint64 cells) as [v'| |]; try discriminate.
      intros [= <-]. constructor; [by rewrite Hna|by apply IH].
Qed.






(** ** Well-formed input *)

Lemma selected_from_names (u seen : list string) (k : nat) (header : list string) :
  NoDup header ->
  (forall n, n ∈ header -> n ∉ seen) ->
  map snd (pd.selected_from u seen k header) = filter (fun n => n ∈ u) header.
Proof.
  revert seen k. induction header as [|n rest IH]; intros seen k Hnd Hseen; [reflexivity|].
  apply NoDup_cons in Hnd as [Hn Hnd]. cbn [pd.selected_from].
  rewrite map_app, (IH (n :: seen) (S k) Hnd).
  - rewrite filter_cons. case_bool_decide as Hc.
    + destruct Hc as [Hu _]. by rewrite decide_True.
    + rewrite decide_False; [reflexivity|].
      intros Hu. apply Hc. split; [done|]. apply Hseen. by left.
  - intros x Hx. apply not_elem_of_cons. split.
    + by intros ->.
    + apply Hseen. by right.
Qed.

Lemma selected_names (u header : list string) :
  NoDup header -> map snd (pd.selected u header) = filter (fun n => n ∈ u) header.
Proof.
  intros Hnd. apply selected_from_names; [done|]. intros n _. by intros ?%elem_of_nil.
Qed.

(** The columns come out in the order of [usecols] exactly when the file
    lists them in that order. *)
Lemma filter_sublist (u header : list string) :
  NoDup header -> sublist u header -> filter (fun n => n ∈ u) header = u.
Proof.
  intros Hnd Hsub. induction Hsub as [|x k l Hsub IH|x k l Hsub IH].
  - reflexivity.
  - apply NoDup_cons in Hnd as [Hx Hnd].
    rewrite filter_cons, decide_True by (by left). f_equal.
    transitivity (filter (fun n => n ∈ k) l); [|by apply IH].
    clear IH Hsub. induction l as [|y l IHl]; [reflexivity|].
    apply NoDup_cons in Hnd as [Hy Hnd]. apply not_elem_of_cons in Hx as [Hxy Hx].
    rewrite !filter_cons, (IHl Hx Hnd).
    destruct (decide (y ∈ k)) as [Hk|Hk].
    + rewrite decide_True; [reflexivity|by right].
    + rewrite decide_False; [reflexivity|].
      intros [->|?]%elem_of_cons; done.
  - apply NoDup_cons in Hnd as [Hx Hnd].
    rewrite filter_cons, decide_False; [by apply IH|].
    intros Hk. apply Hx. by apply (sublist_subseteq _ _ Hsub).
Qed.

Lemma filter_permutation (u header : list string) :
  NoDup header -> NoDup u -> u ⊆ header -> filter (fun n => n ∈ u) header ≡ₚ u.
Proof.
  intros Hh Hu Hsub. apply NoDup_Permutation; [by apply NoDup_filter|done|].
  intros x. rewrite list_elem_of_filter. split; [by intros []|].
  intros Hx. split; [done|]. by apply Hsub.
Qed.

Lemma int32_column_ok (name : string) (cells : list string) :
  Forall (fun c => cell_ok (Some int32) c = true) cells ->
  exists v, pd.int32_column name cells = Return v.
Proof.
  intros Hall. unfold pd.int32_column.
  destruct (try_int64_literals cells) as [-> ->]; [|eauto].
  eapply Forall_impl; [exact Hall|]. intros c Hc. cbn [cell_ok] in Hc.
  apply andb_true_iff in Hc as [_ Hc]. by apply bool_decide_eq_true_1 in Hc.
Qed.

Lemma float32_column_ok (name : string) (cells : list string) :
  Forall (fun c => cell_ok (Some float32) c = true) cells ->
  exists v, pd.float32_column name cells = Return v.
Proof.
  intros Hall. unfold pd.float32_column.
  assert (H1 : forallb (fun c => pd.isna c || bool_decide (is_Some (pd.to_double c)))
                 cells = true).
  { induction Hall as [|c l Hc _ IH]; [reflexivity|]. cbn [forallb].
    cbn [cell_ok] in Hc. by rewrite Hc, IH. }
  rewrite H1. eauto.
Qed.

Lemma convert_ok (name : string) (d : option dtype) (cells : list string) :
  Forall (fun c => cell_ok d c = true) cells ->
  exists s, pd.convert name d cells = Return s.
Proof.
  intros Hall. destruct d as [[]|]; cbn [pd.convert]; eauto.
  - destruct (int32_column_ok name cells Hall) as [v ->]. eauto.
  - destruct (float32_column_ok name cells Hall) as [v ->]. eauto.
Qed.

Lemma convert_columns_ok (d : gmap string dtype) (rows : list (list string))
    (cols : list (nat * string)) :
  (forall i name, (i, name) ∈ cols ->
     exists s, pd.convert name (d !! name) (pd.column_cells i rows) = Return s) ->
  exists ss, pd.convert_columns d rows cols = Return ss.
Proof.
  induction cols as [|[i name] cols IH]; intros H; cbn [pd.convert_columns]; [eauto|].
  destruct (H i name) as [s ->]; [by left|].
  destruct IH as [ss ->]; [|eauto].
  intros i' name' Hin. apply H. by right.
Qed.

Lemma convert_columns_names (d : gmap string dtype) (rows : list (list string))
    (cols : list (nat * string)) (ss : list (string * Series)) :
  pd.convert_columns d rows cols = Return ss -> map fst ss = map snd cols.
Proof.
  revert ss. induction cols as [|[i name] cols IH]; intros ss; cbn [pd.convert_columns].
  - by intros [= <-].
  - destruct (pd.convert _ _ _) as [s|]; [|discriminate].
    destruct (pd.convert_columns d rows cols) as [ss'|]; [|discriminate].
    intros [= <-]. cbn. f_equal. by apply IH.
Qed.

Lemma well_formed_cells (header : list string) (rows : list (list string))
    (i : nat) (name : string) :
  well_formed header rows = true ->
  header !! i = Some name ->
  Forall (fun c => cell_ok (dtype_mapping !! name) c = true) (pd.column_cells i rows).
Proof.
  intros Hwf Hi. unfold well_formed in Hwf.
  apply andb_true_iff in Hwf as [_ Hrows].
  unfold pd.column_cells. apply Forall_fmap, Forall_forall. intros row Hrow. cbn.
  pose proof (forallb_elem _ _ _ Hrows Hrow) as Hr. cbv beta in Hr.
  apply andb_true_iff in Hr as [_ Hr].
  apply (forallb_elem _ _ (i, name) Hr).
  by apply (elem_of_lookup_imap_2 (fun i name => (i, name))).
Qed.

Lemma parse_well_formed (header : list string) (rows : list (list string)) :
  well_formed header rows = true ->
  exists cols,
    pd.parse columns_to_extract dtype_mapping (Table (header :: rows))
    = Return {| nrows := List.length rows; columns := cols |}
    ∧ map fst cols = filter (fun n => n ∈ columns_to_extract) header.
Proof.
  intros Hwf. pose proof Hwf as Hwf'. unfold well_formed in Hwf'.
  apply andb_true_iff in Hwf' as [Hhd _]. apply andb_true_iff in Hhd as [Hnd Hsub].
  apply bool_decide_eq_true_1 in Hnd, Hsub.
  cbn [pd.parse].
  assert (Hmiss : filter (fun name => name ∉ header) columns_to_extract = []).
  { destruct (filter _ columns_to_extract) as [|x l] eqn:Hf; [reflexivity|]. exfalso.
    assert (Hx : x ∈ filter (fun name => name ∉ header) columns_to_extract)
      by (rewrite Hf; by left).
    apply list_elem_of_filter in Hx as [Hx1 Hx2]. by apply Hx1, Hsub. }
  rewrite Hmiss.
  destruct (convert_columns_ok dtype_mapping rows (pd.selected columns_to_extract header))
    as [cols Hcols].
  { intros i name (Hi & _ & _)%elem_of_selected.
    apply convert_ok. by apply (well_formed_cells header). }
  rewrite Hcols. exists cols. split; [reflexivity|].
  rewrite (convert_columns_names _ _ _ _ Hcols). by apply selected_names.
Qed.

(** A run whose input file is accepted by the parser and whose output
    path is free or holds a file. *)
Lemma run_success (w : World) (c : content) (df : DataFrame) :
  unobstructed (fs w) ->
  fs w !! output_file <> Some Dir ->
  stat (fs w) input_file = IsFile c ->
  pd.parse columns_to_extract dtype_mapping c = Return df ->
  exists w',
    extract_specific_columns w = (Return true, w')
    ∧ fs w' !! output_file = Some (File (Table (pd.csv_records df false 6))).
Proof.
  intros Hu Hout Hin Hp. apply unobstructed_status in Hu.
  pose proof (run_cases w) as H. rewrite Hu in H. cbv zeta in H.
  rewrite (reading_present _ _ Hu Hin), Hp in H.
  rewrite bool_decide_eq_false_2 in H by (by rewrite made_other).
  destruct H as (w' & Hrun & Hfs & _). exists w'. split; [done|].
  rewrite Hfs. apply lookup_insert_eq.
Qed.

Lemma csv_records_plain (df : DataFrame) (n : nat) :
  exists body,
    pd.csv_records df false n = map fst (columns df) :: body
    ∧ List.length body = nrows df
    ∧ Forall (fun r => List.length r = List.length (columns df)) body.
Proof.
  unfold pd.csv_records. eexists. split; [reflexivity|]. split.
  - by rewrite length_map, length_seq.
  - apply Forall_fmap, Forall_forall. intros i _. cbn. by rewrite length_map.
Qed.

(** ** Decimal text *)

Lemma chars_text (l : list ascii) : Text.chars (Text.text l) = l.
Proof. apply list_ascii_of_string_of_list_ascii. Qed.

Lemma digit_char_isdigit (d : Z) : Text.isdigit (Text.digit_char d) = true.
Proof.
  unfold Text.isdigit, Text.digit_char, Text.code.
  pose proof (Z.mod_pos_bound d 10 eq_refl) as Hd.
  rewrite N_ascii_embedding by lia. rewrite Z2N.id by lia.
  apply andb_true_iff. split; apply Z.leb_le; lia.
Qed.

Lemma fixed_digits_length (width : nat) (v : Z) :
  List.length (Text.fixed_digits width v) = width.
Proof.
  revert v. induction width as [|n IH]; intros v; cbn [Text.fixed_digits]; [reflexivity|].
  rewrite length_app, IH. cbn. lia.
Qed.

Lemma fixed_digits_isdigit (width : nat) (v : Z) :
  Forall (fun a => Text.isdigit a = true) (Text.fixed_digits width v).
Proof.
  revert v. induction width as [|n IH]; intros v; cbn [Text.fixed_digits]; [constructor|].
  apply Forall_app. split; [apply IH|].
  constructor; [apply digit_char_isdigit|constructor].
Qed.

Lemma span_snd_Forall (P : ascii -> Prop) (f : ascii -> bool) (l : list ascii) :
  Forall P l -> Forall P (snd (Text.span f l)).
Proof.
  induction 1 as [|a l Ha Hl IH]; cbn [Text.span]; [constructor|].
  destruct (f a); [|by constructor].
  destruct (Text.span f l) as [u v]. exact IH.
Qed.

Lemma decimal_isdigit (v : Z) :
  Text.decimal v <> [] ∧ Forall (fun a => Text.isdigit a = true) (Text.decimal v).
Proof.
  unfold Text.decimal.
  pose proof (span_snd_Forall (fun a => Text.isdigit a = true)
                (fun a => Text.code a =? 48)
                (Text.fixed_digits (S (Z.to_nat (Z.log2 v))) v)
                (fixed_digits_isdigit _ _)) as H.
  destruct (snd (Text.span _ _)) as [|a l].
  - split; [discriminate|]. constructor; [apply digit_char_isdigit|constructor].
  - split; [discriminate|exact H].
Qed.

Lemma format_f_six_decimals (neg : bool) (m e : Z) :
  six_decimals (Float.format_f 6 neg m e).
Proof.
  unfold six_decimals, Float.format_f. cbv zeta.
  set (k := if 0 <=? e then _ else _).
  destruct (decimal_isdigit (k / 10 ^ Z.of_nat 6)) as [Hne Hdig].
  exists (if neg then ["-"%char] else []),
         (Text.decimal (k / 10 ^ Z.of_nat 6)),
         (Text.fixed_digits 6 (k mod 10 ^ Z.of_nat 6)).
  rewrite chars_text.
  split; [reflexivity|]. split; [destruct neg; auto|]. split; [exact Hne|].
  split; [exact Hdig|]. split; [apply fixed_digits_length|apply fixed_digits_isdigit].
Qed.

(** What [%.6f] makes of a binary32 value: six decimals when the value is
    finite; the two infinities and the missing value have no digits. *)
Lemma format_shape (x : Float.float) :
  Float.format 6 x = EmptyString ∨ Float.format 6 x = "inf" ∨ Float.format 6 x = "-inf"
  ∨ six_decimals (Float.format 6 x).
Proof.
  destruct x as [|[]|neg m e]; cbn [Float.format]; auto.
  do 3 right. apply format_f_six_decimals.
Qed.

(** ** The decimal columns, from input cell to output text *)

Lemma run_true_inv (w w' : World) :
  extract_specific_columns w = (Return true, w') ->
  mkdir_status (fs w) = Return tt
  ∧ exists df,
      reading (made (fs w)) = Return df
      ∧ fs w' = <[output_file := File (Table (pd.csv_records df false 6))]> (made (fs w)).
Proof.
  intros Hrun. pose proof (run_cases w) as H.
  destruct (mkdir_status (fs w)) as [[]|e]; [|congruence].
  split; [reflexivity|]. cbv zeta in H.
  destruct (reading (made (fs w))) as [df|e]; [|congruence].
  exists df. split; [reflexivity|].
  destruct (bool_decide _).
  - destruct H as (w1 & H & _). congruence.
  - destruct H as (w1 & H & Hfs & _). congruence.
Qed.

Lemma parse_inv (u : list string) (d : gmap string dtype) (header : list string)
    (rows : list (list string)) (df : DataFrame) :
  pd.parse u d (Table (header :: rows)) = Return df ->
  pd.convert_columns d rows (pd.selected u header) = Return (columns df)
  ∧ nrows df = List.length rows.
Proof.
  cbn [pd.parse]. destruct (filter _ u); [|discriminate].
  destruct (pd.convert_columns _ _ _) as [cols|]; [|discriminate].
  by intros [= <-].
Qed.

Lemma convert_columns_lookup (d : gmap string dtype) (rows : list (list string))
    (cols : list (nat * string)) (ss : list (string * Series))
    (k j : nat) (name : string) :
  pd.convert_columns d rows cols = Return ss ->
  cols !! k = Some (j, name) ->
  exists s,
    ss !! k = Some (name, s)
    ∧ pd.convert name (d !! name) (pd.column_cells j rows) = Return s.
Proof.
  revert ss k. induction cols as [|[i n] cols IH]; intros ss k; cbn [pd.convert_columns].
  - by intros _ ?.
  - destruct (pd.convert n _ _) as [s|] eqn:Hc; [|discriminate].
    destruct (pd.convert_columns d rows cols) as [ss'|]; [|discriminate].
    intros [= <-]. destruct k as [|k]; cbn.
    + intros [= -> ->]. eauto.
    + by apply IH.
Qed.

Lemma float32_column_lookup (name : string) (cells : list string) (v : list Float.float)
    (i : nat) (cell : string) :
  pd.float32_column name cells = Return v ->
  cells !! i = Some cell ->
  exists x,
    v !! i = Some x
    ∧ ((pd.isna cell = true ∧ x = Float.NaN)
       ∨ (exists y, pd.isna cell = false ∧ pd.to_double cell = Some y
                    ∧ x = Float.astype_float32 y)
       ∨ (exists b : bool, pd.isna cell = false ∧ pd.to_boolean cell = Some b
                           ∧ x = if b then Float.Finite false 1 0 else Float.Finite false 0 0)).
Proof.
  intros Hcol Hi. assert (Hin : cell ∈ cells) by (by eapply list_elem_of_lookup_2).
  revert Hcol. unfold pd.float32_column.
  destruct (forallb _ cells) eqn:H1.
  - intros [= <-]. eexists. split; [rewrite list_lookup_fmap, Hi; reflexivity|].
    apply (fun H => forallb_elem _ _ _ H Hin) in H1. cbv beta in H1.
    destruct (pd.isna cell); [auto|]. cbn [orb] in H1.
    apply bool_decide_eq_true_1 in H1 as [y Hy]. rewrite Hy. cbn.
    right; left. eauto.
  - match goal with
    | |- context [if forallb ?f cells then _ else _] => destruct (forallb f cells) eqn:H2
    end; [|discriminate].
    intros [= <-]. eexists. split; [rewrite list_lookup_fmap, Hi; reflexivity|].
    apply (fun H => forallb_elem _ _ _ H Hin) in H2. cbv beta in H2.
    destruct (pd.isna cell); [auto|]. cbn [orb] in H2.
    apply bool_decide_eq_true_1 in H2 as [b Hb]. rewrite Hb. cbn.
    right; right. exists b. by destruct b.
Qed.

Lemma rendered_example_longitude (text : string) :
  rendered "-94.5" text -> text = "-94.500000".
Proof.
  intros [[H _]|[(x & _ & Hx & ->)|(b & _ & Hb & _)]].
  - vm_compute in H. discriminate.
  - vm_compute in Hx. injection Hx as <-. vm_compute. reflexivity.
  - vm_compute in Hb. discriminate.
Qed.

Lemma rendered_example_latitude (text : string) :
  rendered "39.1" text -> text = "39.099998".
Proof.
  intros [[H _]|[(x & _ & Hx & ->)|(b & _ & Hb & _)]].
  - vm_compute in H. discriminate.
  - vm_compute in Hx. injection Hx as <-. vm_compute. reflexivity.
  - vm_compute in Hb. discriminate.
Qed.

(** ** A console that can fail *)









(** * The claims *)

(** C1, counterexample.  A well-formed input that lists [truckId] before
    [driverId]: the run succeeds, and the output lists [truckId] first. *)
Lemma output_follows_file_order :
  well_formed
    [ "truckId"; "driverId"; "eventTime"; "eventType"; "longitude"; "latitude";
      "eventKey"; "correlationId"; "driverName"; "routeId"; "routeName"; "eventDate" ]
    [ [ "200"; "10"; "59:21.7"; "Normal"; "-94.5"; "39.1"; "10|200|1"; "3.66E+18";
        "Alice"; "160405074"; "R1"; "2016-01-01" ] ] = true
  ∧ (extract_specific_columns swapped_world).1 = Return true
  ∧ fs (extract_specific_columns swapped_world).2 !! output_file
    = Some (File (Table
        [ [ "truckId"; "driverId"; "eventTime"; "eventType"; "longitude"; "latitude";
            "driverName"; "routeName"; "eventDate" ];
          [ "200"; "10"; "59:21.7"; "Normal"; "-94.500000"; "39.099998";
            "Alice"; "R1"; "2016-01-01" ] ])).
Proof. vm_compute. done. Qed.

(** C1, amended.  For a well-formed input that contains the nine columns
    (possibly among others) the run succeeds and the output file holds
    exactly the nine columns, in the order in which the header of the
    input lists them: the header record is the input header restricted to
    the nine names, hence a rearrangement of the fixed list, and it is the
    fixed list itself whenever the input lists the nine in that order.
    There is no index column: every record has nine fields.  There are as
    many records after the header as the input has rows. *)
Theorem projection_in_file_order (w : World) (header : list string)
    (rows : list (list string)) :
  unobstructed (fs w) ->
  fs w !! output_file <> Some Dir ->
  stat (fs w) input_file = IsFile (Table (header :: rows)) ->
  well_formed header rows = true ->
  exists w' body,
    extract_specific_columns w = (Return true, w')
    ∧ fs w' !! output_file
      = Some (File (Table (filter (fun n => n ∈ columns_to_extract) header :: body)))
    ∧ filter (fun n => n ∈ columns_to_extract) header ≡ₚ columns_to_extract
    ∧ (sublist columns_to_extract header ->
       filter (fun n => n ∈ columns_to_extract) header = columns_to_extract)
    ∧ List.length body = List.length rows
    ∧ Forall (fun r => List.length r = 9%nat) body.
Proof.
  intros Hu Hout Hin Hwf.
  destruct (parse_well_formed header rows Hwf) as (cols & Hp & Hnames).
  destruct (run_success w _ _ Hu Hout Hin Hp) as (w' & Hrun & Hfs).
  destruct (csv_records_plain {| nrows := List.length rows; columns := cols |} 6)
    as (body & Hcsv & Hlen & Hwidth).
  cbn [nrows columns] in *. rewrite Hcsv, Hnames in Hfs.
  unfold well_formed in Hwf.
  apply andb_true_iff in Hwf as [Hhd _]. apply andb_true_iff in Hhd as [Hnd Hsub].
  apply bool_decide_eq_true_1 in Hnd, Hsub.
  assert (Hperm : filter (fun n => n ∈ columns_to_extract) header ≡ₚ columns_to_extract).
  { apply filter_permutation; [done| |done].
    apply (bool_decide_unpack _). vm_compute. exact I. }
  exists w', body. repeat split; try done.
  - intros Hsl. by apply filter_sublist.
  - eapply Forall_impl; [exact Hwidth|]. intros r ->. cbv beta.
    rewrite <- (length_map fst), Hnames, Hperm. reflexivity.
Qed.

Lemma projection_in_file_order_witness :
  unobstructed (fs example_world)
  ∧ fs example_world !! output_file <> Some Dir
  ∧ well_formed sample_header [sample_row] = true
  ∧ exists w' body,
      extract_specific_columns example_world = (Return true, w')
      ∧ fs w' !! output_file
        = Some (File (Table (filter (fun n => n ∈ columns_to_extract) sample_header :: body)))
      ∧ filter (fun n => n ∈ columns_to_extract) sample_header ≡ₚ columns_to_extract
      ∧ (sublist columns_to_extract sample_header ->
         filter (fun n => n ∈ columns_to_extract) sample_header = columns_to_extract)
      ∧ List.length body = List.length [sample_row]
      ∧ Forall (fun r => List.length r = 9%nat) body.
Proof.
  assert (H1 : unobstructed (fs example_world)) by (split; reflexivity).
  assert (H2 : fs example_world !! output_file <> Some Dir) by (vm_compute; discriminate).
  assert (H3 : well_formed sample_header [sample_row] = true) by (vm_compute; reflexivity).
  split; [exact H1|]. split; [exact H2|]. split; [exact H3|].
  apply (projection_in_file_order example_world sample_header [sample_row] H1 H2);
    [reflexivity|exact H3].
Defined.

(** C2, counterexample.  The row of the specification's example: the
    run succeeds, [longitude] [-94.5] is written as [-94.500000], and
    [latitude] [39.1] is written as [39.099998], not as [39.100000].  And
    the same row without a latitude, or with an infinite one: the run
    succeeds and the field is written empty, or as [inf], with no digit
    after a decimal point. *)
Lemma latitude_not_preserved :
  ((extract_specific_columns spec_example_world).1 = Return true
   ∧ fs (extract_specific_columns spec_example_world).2 !! output_file
     = Some (File (Table
         [ [ "driverId"; "truckId"; "eventTime"; "eventType"; "longitude"; "latitude";
             "driverName"; "routeName"; "eventDate" ];
           [ "10"; "200"; "59:21.7"; "Normal"; "-94.500000"; "39.099998"; "Alice"; "R1";
             "2016-01-01" ] ]))
   ∧ "39.099998" <> "39.100000")
  ∧ ((extract_specific_columns blank_latitude_world).1 = Return true
     ∧ fs (extract_specific_columns blank_latitude_world).2 !! output_file
       = Some (File (Table
           [ [ "driverId"; "truckId"; "eventTime"; "eventType"; "longitude"; "latitude";
               "driverName"; "routeName"; "eventDate" ];
             [ "10"; "200"; "59:21.7"; "Normal"; "-94.500000"; EmptyString; "Alice"; "R1";
               "2016-01-01" ] ])))
  ∧ ((extract_specific_columns infinite_latitude_world).1 = Return true
     ∧ fs (extract_specific_columns infinite_latitude_world).2 !! output_file
       = Some (File (Table
           [ [ "driverId"; "truckId"; "eventTime"; "eventType"; "longitude"; "latitude";
               "driverName"; "routeName"; "eventDate" ];
             [ "10"; "200"; "59:21.7"; "Normal"; "-94.500000"; "inf"; "Alice"; "R1";
               "2016-01-01" ] ]))).
Proof. vm_compute. done. Qed.

(** C2, amended.  In every successful run on a table each cell of
    [longitude] and [latitude] is written, in the same row and under the
    same name, as follows: a missing value as an empty field; a number as
    [%.6f] of the value the parser holds for it, that is with exactly six
    digits after the decimal point (the infinities apart).  That value is
    not the input itself: the parser reads the text into a binary64 value
    (from at most 17 significant digits, with its own rounding) and the
    declared type [float32] narrows it to 32-bit precision.  Hence [-94.5]
    is written as [-94.500000] and [39.1] as [39.099998]. *)
Theorem decimal_columns_rendering (w w' : World) (header : list string)
    (rows : list (list string)) :
  stat (fs w) input_file = IsFile (Table (header :: rows)) ->
  rectangular header rows ->
  extract_specific_columns w = (Return true, w') ->
  exists hdr body,
    fs w' !! output_file = Some (File (Table (hdr :: body)))
    ∧ forall (i j : nat) (row : list string) (name : string),
        rows !! i = Some row ->
        header !! j = Some name ->
        name ∉ take j header ->
        name ∈ ["longitude"; "latitude"] ->
        exists cell record k text,
          row !! j = Some cell
          ∧ body !! i = Some record
          ∧ hdr !! k = Some name
          ∧ record !! k = Some text
          ∧ rendered cell text
          ∧ (text = EmptyString ∨ text = "inf" ∨ text = "-inf" ∨ six_decimals text)
          ∧ (cell = "-94.5" -> text = "-94.500000")
          ∧ (cell = "39.1" -> text = "39.099998").
Proof.
  intros Hin Hrect Hrun.
  destruct (run_true_inv _ _ Hrun) as (Hst & df & Hread & Hfs).
  rewrite (reading_present _ _ Hst Hin) in Hread.
  destruct (parse_inv _ _ _ _ _ Hread) as [Hcols Hn].
  eexists _, _. split.
  { rewrite Hfs, lookup_insert_eq. unfold pd.csv_records. reflexivity. }
  intros i j row name Hrow Hj Hfirst Hname. cbn [app].
  assert (Hcell : exists cell, row !! j = Some cell).
  { apply lookup_lt_is_Some.
    rewrite (proj1 (Forall_forall _ _) Hrect row) by (by eapply list_elem_of_lookup_2).
    by eapply lookup_lt_Some. }
  destruct Hcell as [cell Hcell].
  assert (Hd : dtype_mapping !! name = Some float32).
  { apply elem_of_cons in Hname as [->|Hname]; [reflexivity|].
    apply list_elem_of_singleton in Hname as ->. reflexivity. }
  assert (Hu : name ∈ columns_to_extract).
  { apply elem_of_cons in Hname as [->|Hname]; [|apply list_elem_of_singleton in Hname as ->];
      apply (bool_decide_unpack _); vm_compute; exact I. }
  assert (Hsel : (j, name) ∈ pd.selected columns_to_extract header)
    by (by apply elem_of_selected).
  apply list_elem_of_lookup_1 in Hsel as [k Hk].
  destruct (convert_columns_lookup _ _ _ _ _ _ _ Hcols Hk) as (s & Hs & Hconv).
  rewrite Hd in Hconv. cbn [pd.convert] in Hconv.
  destruct (pd.float32_column name _) as [v|] eqn:Hv; [|discriminate].
  injection Hconv as <-.
  destruct (float32_column_lookup _ _ _ i cell Hv) as (x & Hx & Hcases).
  { unfold pd.column_cells. rewrite list_lookup_fmap, Hrow. cbn. by rewrite Hcell. }
  assert (Hren : rendered cell (Float.format 6 x)).
  { destruct Hcases as [[Hna ->]|[(y & Hna & Hy & ->)|(b & Hna & Hb & ->)]].
    - left. done.
    - right; left. eauto.
    - right; right. exists b. by destruct b. }
  eexists cell, _, k, (Float.format 6 x).
  split; [exact Hcell|].
  split; [|split; [|split; [|split; [|split; [|split]]]]].
  - rewrite list_lookup_fmap, lookup_seq_lt; [reflexivity|].
    rewrite Hn. by eapply lookup_lt_Some.
  - by rewrite list_lookup_fmap, Hs.
  - rewrite list_lookup_fmap, Hs. cbn. by rewrite list_lookup_fmap, Hx.
  - exact Hren.
  - apply format_shape.
  - intros Hc. rewrite Hc in Hren. by apply rendered_example_longitude.
  - intros Hc. rewrite Hc in Hren. by apply rendered_example_latitude.
Qed.

Lemma decimal_columns_rendering_witness :
  stat (fs example_world) input_file = IsFile (Table (sample_header :: [sample_row]))
  ∧ rectangular sample_header [sample_row]
  ∧ extract_specific_columns example_world
    = (Return true, (extract_specific_columns example_world).2)
  ∧ exists hdr body,
      fs (extract_specific_columns example_world).2 !! output_file
      = Some (File (Table (hdr :: body)))
      ∧ forall (i j : nat) (row : list string) (name : string),
          [sample_row] !! i = Some row ->
          sample_header !! j = Some name ->
          name ∉ take j sample_header ->
          name ∈ ["longitude"; "latitude"] ->
          exists cell record k text,
            row !! j = Some cell
            ∧ body !! i = Some record
            ∧ hdr !! k = Some name
            ∧ record !! k = Some text
            ∧ rendered cell text
            ∧ (text = EmptyString ∨ text = "inf" ∨ text = "-inf" ∨ six_decimals text)
            ∧ (cell = "-94.5" -> text = "-94.500000")
            ∧ (cell = "39.1" -> text = "39.099998").
Proof.
  assert (H1 : stat (fs example_world) input_file
               = IsFile (Table (sample_header :: [sample_row]))) by reflexivity.
  assert (H2 : rectangular sample_header [sample_row]) by (repeat constructor).
  assert (H3 : extract_specific_columns example_world
               = (Return true, (extract_specific_columns example_world).2))
    by (vm_compute; reflexivity).
  split; [exact H1|]. split; [exact H2|]. split; [exact H3|].
  exact (decimal_columns_rendering example_world _ sample_header [sample_row] H1 H2 H3).
Defined.

(** C3, counterexample.  The input path does not resolve to an existing
    file, and yet no file-not-found message is printed: with a directory
    at the input path, or with a regular file where the directory
    [files/input] has to be, [read_csv] raises [IsADirectoryError] or
    [NotADirectoryError], which the second [except] clause reports as a
    processing error.  The function returns [False] all the same. *)
Lemma input_path_not_a_file_is_a_processing_error :
  (stat (fs input_is_directory_world) input_file = IsDir
   ∧ (extract_specific_columns input_is_directory_world).1 = Return false
   ∧ stdout (extract_specific_columns input_is_directory_world).2
     = [ Line "Leyendo archivo de entrada...";
         ErrorLine "❌ Error procesando datos: " (IsADirectoryError input_file) ])
  ∧ (stat (fs input_dir_is_file_world) input_file = ENOTDIR
     ∧ (extract_specific_columns input_dir_is_file_world).1 = Return false
     ∧ stdout (extract_specific_columns input_dir_is_file_world).2
       = [ Line "Leyendo archivo de entrada...";
           ErrorLine "❌ Error procesando datos: " (NotADirectoryError input_file) ]).
Proof. vm_compute. done. Qed.

(** C3, amended.  When nothing exists at the input path, that is when
    the file is absent from [files/input] or [files/input] itself is
    absent (and the output directory can be made),
    [extract_specific_columns] returns [False]; after the progress line it
    prints the file-not-found message, which ends with the input path; and
    the output path is left as it was: no file is created or modified
    there. *)
Theorem missing_input_reported (w : World) :
  unobstructed (fs w) ->
  input_missing (fs w) ->
  exists w',
    extract_specific_columns w = (Return false, w')
    ∧ stdout w'
      = stdout w
        ++ [ Line "Leyendo archivo de entrada...";
             Line "❌ Error: No se encontró el archivo files/input/truck_event_text_partition.csv" ]
    ∧ str input_file = "files/input/truck_event_text_partition.csv"
    ∧ fs w' !! output_file = fs w !! output_file.
Proof.
  intros Hu Hin. apply unobstructed_status in Hu.
  pose proof (run_cases w) as H. rewrite Hu in H. cbv zeta in H.
  rewrite (reading_missing _ Hu Hin) in H.
  eexists. split; [exact H|]. cbn [fs stdout].
  split; [reflexivity|]. split; [reflexivity|].
  by apply made_other.
Qed.

Lemma missing_input_reported_witness :
  unobstructed (fs empty_world)
  ∧ input_missing (fs empty_world)
  ∧ exists w',
      extract_specific_columns empty_world = (Return false, w')
      ∧ stdout w'
        = stdout empty_world
          ++ [ Line "Leyendo archivo de entrada...";
               Line "❌ Error: No se encontró el archivo files/input/truck_event_text_partition.csv" ]
      ∧ str input_file = "files/input/truck_event_text_partition.csv"
      ∧ fs w' !! output_file = fs empty_world !! output_file.
Proof.
  split; [split; reflexivity|]. split; [split; reflexivity|].
  apply (missing_input_reported empty_world); split; reflexivity.
Defined.

(** C4. When the input file lacks one of the nine columns, the run
    fails: it returns [False], the line it prints after the progress line
    is the processing-error message with the parser's exception (for a
    file with a header: the complaint of [usecols] listing the columns
    that were not found), and the output path is left as it was. *)
Theorem missing_column_fails (w : World) (c : content) (name : string) :
  unobstructed (fs w) ->
  stat (fs w) input_file = IsFile c ->
  name ∈ columns_to_extract ->
  name ∉ header_of c ->
  exists w' e,
    extract_specific_columns w = (Return false, w')
    ∧ stdout w'
      = stdout w ++ [ Line "Leyendo archivo de entrada...";
                      ErrorLine "❌ Error procesando datos: " e ]
    ∧ fs w' !! output_file = fs w !! output_file
    ∧ (forall header rows,
         c = Table (header :: rows) ->
         e = ValueError
               (UsecolsMismatch (filter (fun n => n ∉ header) columns_to_extract))).
Proof.
  intros Hu Hin Hname Hmiss.
  assert (Hp : exists e,
    pd.parse columns_to_extract dtype_mapping c = Raise e
    ∧ forall header rows,
        c = Table (header :: rows) ->
        e = ValueError (UsecolsMismatch (filter (fun n => n ∉ header) columns_to_extract))).
  { destruct c as [[|header rows]|]; cbn [pd.parse header_of] in *.
    - eexists; split; [reflexivity|discriminate].
    - destruct (filter (fun n => n ∉ header) columns_to_extract) as [|x l] eqn:Hf.
      + exfalso. assert (Hx : name ∈ filter (fun n => n ∉ header) columns_to_extract)
          by (by apply list_elem_of_filter).
        rewrite Hf in Hx. by apply elem_of_nil in Hx.
      + eexists; split; [reflexivity|]. intros h r [= <- <-]. by rewrite Hf.
    - eexists; split; [reflexivity|discriminate]. }
  destruct Hp as (e & Hp & He).
  destruct (run_parse_failure w c e Hu Hin Hp) as (w' & Hrun & Hout & Hfs).
  exists w', e. done.
Qed.

Lemma missing_column_fails_witness :
  unobstructed (fs narrow_world)
  ∧ "latitude" ∈ columns_to_extract
  ∧ exists w' e,
      extract_specific_columns narrow_world = (Return false, w')
      ∧ stdout w'
        = stdout narrow_world ++ [ Line "Leyendo archivo de entrada...";
                                   ErrorLine "❌ Error procesando datos: " e ]
      ∧ fs w' !! output_file = fs narrow_world !! output_file
      ∧ e = ValueError (UsecolsMismatch ["latitude"]).
Proof.
  assert (H1 : "latitude" ∈ columns_to_extract)
    by (apply (bool_decide_unpack _); vm_compute; exact I).
  assert (H2 : "latitude" ∉ header_of
                 (Table [ [ "driverId"; "truckId"; "eventTime"; "eventType"; "longitude";
                            "driverName"; "routeName"; "eventDate" ];
                          [ "10"; "200"; "59:21.7"; "Normal"; "-94.5"; "Alice"; "R1";
                            "2016-01-01" ] ]))
    by (apply (bool_decide_unpack _); vm_compute; exact I).
  split; [split; reflexivity|]. split; [exact H1|].
  destruct (missing_column_fails narrow_world _ "latitude"
              ltac:(split; reflexivity) ltac:(reflexivity) H1 H2)
    as (w' & e & Hrun & Hout & Hfs & He).
  exists w', e. repeat split; try done.
  by rewrite (He _ _ eq_refl).
Defined.


(** C5, second counterexample.  On a console that cannot encode the
    emoji of the messages, the sample is read and written; then the
    [print] of line 81 raises inside the [try] block, the second [except]
    clause catches the exception, and its own [print] raises again: that
    exception leaves [extract_specific_columns], with the output file
    already written, and the exit status is 1. *)
Lemma handler_print_failure_escapes :
  (@extract_specific_columns latin1_console example_world).1 = Raise UnicodeEncodeError
  ∧ is_file (fs (@extract_specific_columns latin1_console example_world).2 !! output_file)
    = true
  ∧ (@main latin1_console example_world).1 = 1.
Proof. vm_compute. done. Qed.


(** C6. The exit status is 0 exactly when [extract_specific_columns]
    returns [True]; it is 1 when the function returns [False] (and also
    when an exception leaves it). *)
Theorem exit_status (w : World) :
  ((main w).1 = 0 <-> (extract_specific_columns w).1 = Return true)
  ∧ (main w).1
    = match (extract_specific_columns w).1 with
      | Return true => 0
      | Return false => 1
      | Raise _ => 1
      end.
Proof.
  unfold main. destruct (extract_specific_columns w) as [[[]|e] w']; cbn [fst].
  all: split; [split; intros; congruence|reflexivity].
Qed.

(** C7. A second run, started in the world the first run left, returns
    what the first run returned and leaves the file system as it found
    it: in particular the output file is the same, record for record (or
    is absent both times). *)
Theorem rerun_same_output (w : World) :
  fs (extract_specific_columns (extract_specific_columns w).2).2 !! output_file
  = fs (extract_specific_columns w).2 !! output_file
  ∧ fs (extract_specific_columns (extract_specific_columns w).2).2
    = fs (extract_specific_columns w).2
  ∧ (extract_specific_columns (extract_specific_columns w).2).1
    = (extract_specific_columns w).1.
Proof.
  destruct (run_outcome w) as [Hr Hf].
  destruct (run_outcome (extract_specific_columns w).2) as [Hr' Hf'].
  rewrite Hf in Hr', Hf'. rewrite outcome_again in Hr', Hf'.
  rewrite Hf', Hr', Hf, Hr. done.
Qed.

(** C8. When no regular file is in the way (each of [files] and
    [files/output] is a directory or absent), the directory step
    succeeds; afterwards both are directories, whatever was missing has
    been made and nothing else has changed; a world in which both existed
    is left exactly as it was; and the step can be repeated: on the world
    it produced it succeeds again and changes nothing. *)
Theorem mkdir_idempotent (w : World) :
  unobstructed (fs w) ->
  exists w1,
    mkdir (parent output_file) true true w = (Return tt, w1)
    ∧ fs w1 !! files_dir = Some Dir
    ∧ fs w1 !! output_dir = Some Dir
    ∧ stat (fs w1) output_dir = IsDir
    ∧ (forall p, p <> files_dir -> p <> output_dir -> fs w1 !! p = fs w !! p)
    ∧ stdout w1 = stdout w
    ∧ (fs w !! files_dir = Some Dir -> fs w !! output_dir = Some Dir -> w1 = w)
    ∧ mkdir (parent output_file) true true w1 = (Return tt, w1).
Proof.
  intros Hu. apply unobstructed_status in Hu.
  change (parent output_file) with output_dir.
  exists {| fs := made (fs w); stdout := stdout w |}.
  destruct (made_dirs _ Hu) as [H1 H2].
  rewrite !mkdir_output_dir. cbn [fs stdout]. rewrite Hu.
  destruct (made_fixed _ H1 H2) as [-> ->].
  repeat split; try done.
  - by apply stat_output_dir.
  - intros p Hp1 Hp2. by apply made_other.
  - intros Hf Ho. destruct (made_fixed _ Hf Ho) as [_ ->]. by destruct w.
Qed.

Lemma mkdir_idempotent_witness :
  unobstructed (fs empty_world)
  ∧ exists w1,
      mkdir (parent output_file) true true empty_world = (Return tt, w1)
      ∧ fs w1 !! files_dir = Some Dir
      ∧ fs w1 !! output_dir = Some Dir
      ∧ stat (fs w1) output_dir = IsDir
      ∧ (forall p, p <> files_dir -> p <> output_dir -> fs w1 !! p = fs empty_world !! p)
      ∧ stdout w1 = stdout empty_world
      ∧ (fs empty_world !! files_dir = Some Dir ->
         fs empty_world !! output_dir = Some Dir -> w1 = empty_world)
      ∧ mkdir (parent output_file) true true w1 = (Return tt, w1).
Proof.
  split; [split; reflexivity|].
  apply (mkdir_idempotent empty_world); split; reflexivity.
Defined.

(** C9, counterexample.  A run can end without a directory
    [files/output]: with a regular file in its place the directory step
    raises and the file is still there afterwards; with a regular file in
    place of [files] nothing exists at [files/output] afterwards. *)
Lemma output_dir_missing_after_run :
  ((extract_specific_columns blocked_world).1 = Raise (FileExistsError output_dir)
   ∧ stat (fs (extract_specific_columns blocked_world).2) output_dir = IsFile (Table []))
  ∧ ((extract_specific_columns files_is_file_world).1 = Raise (NotADirectoryError output_dir)
     ∧ stat (fs (extract_specific_columns files_is_file_world).2) output_dir = ENOTDIR).
Proof. vm_compute. done. Qed.

(** C9, amended.  The directory step comes first, so whenever it
    succeeds, that is whenever no regular file stands at [files] or at
    [files/output], the run ends with a boolean and [files/output] is a
    directory afterwards, also when the run fails: a [False] result leaves
    the output path as it was, and a run without input file returns
    [False]. *)
Theorem output_dir_exists_after_run (w : World) :
  unobstructed (fs w) ->
  exists (b : bool) (w' : World),
    extract_specific_columns w = (Return b, w')
    ∧ stat (fs w') output_dir = IsDir
    ∧ (b = false -> fs w' !! output_file = fs w !! output_file)
    ∧ (input_missing (fs w) -> b = false).
Proof.
  intros Hu. apply unobstructed_status in Hu.
  pose proof (run_cases w) as H. rewrite Hu in H. cbv zeta in H.
  destruct (made_dirs _ Hu) as [H1 H2].
  pose proof (stat_output_dir _ H1 H2) as Hd.
  assert (Hsame : made (fs w) !! output_file = fs w !! output_file)
    by (by apply made_other).
  destruct (reading (made (fs w))) as [df|e] eqn:Hr.
  - assert (Hnm : ~ input_missing (fs w)).
    { intros Hin. by rewrite (reading_missing _ Hu Hin) in Hr. }
    destruct (bool_decide _).
    + destruct H as (w' & Hrun & Hfs & _). exists false, w'.
      rewrite Hfs. done.
    + destruct H as (w' & Hrun & Hfs & _). exists true, w'.
      rewrite Hfs. repeat split; try done.
      paths. cbn [stat]. by lookups.
  - eexists false, _. split; [exact H|]. done.
Qed.

Lemma output_dir_exists_after_run_witness :
  unobstructed (fs empty_world)
  ∧ exists (b : bool) (w' : World),
      extract_specific_columns empty_world = (Return b, w')
      ∧ stat (fs w') output_dir = IsDir
      ∧ (b = false -> fs w' !! output_file = fs empty_world !! output_file)
      ∧ (input_missing (fs empty_world) -> b = false).
Proof.
  split; [split; reflexivity|].
  apply (output_dir_exists_after_run empty_world); split; reflexivity.
Defined.




(** * Further properties *)

(** ** The console of a run that reaches the writer *)

Lemma run_stdout (w : World) (df : DataFrame) :
  mkdir_status (fs w) = Return tt ->
  reading (made (fs w)) = Return df ->
  stdout (extract_specific_columns w).2
  = stdout w ++ lines_before_saving df
    ++ (if bool_decide (made (fs w) !! output_file = Some Dir)
        then [ErrorLine "❌ Error procesando datos: " (IsADirectoryError output_file)]
        else lines_after_saving df).
Proof.
  destruct w as [m out]. cbn [fs stdout]. intros Hst Hr.
  pose proof (mkdir_output_dir {| fs := m; stdout := out |}) as Hmk. cbn [fs stdout] in Hmk.
  unfold extract_specific_columns. rewrite (bind_run _ _ _ _ _ Hmk), Hst.
  destruct (made_dirs _ Hst) as [Hf Ho].
  pose proof (stat_output_dir _ Hf Ho) as Hd.
  set (m1 := made m) in *. clearbody m1. clear Hmk.
  unfold try_except, bind.
  rewrite print_run; cbn [fs stdout].
  rewrite read_csv_reading; cbn [fs stdout]. rewrite Hr.
  do 3 (rewrite print_run; cbn [fs stdout]).
  rewrite (for_each_print
             (fun col => Line ("  - " +:+ col.1 +:+ ": " +:+ dtype_name (Series_dtype col.2)))).
  cbn [fs stdout]. rewrite print_run; cbn [fs stdout].
  unfold pd.to_csv, bind, is_dir, open_write, ret, raise, put; cbn [fs stdout].
  change (parent output_file) with output_dir. rewrite Hd. cbn [negb].
  change output_file with (Slash output_dir "specific-columns.csv").
  rewrite (stat_below _ _ _ Hd).
  unfold lines_before_saving, lines_after_saving.
  destruct (m1 !! Slash output_dir "specific-columns.csv") as [[|c]|] eqn:Hout.
  - rewrite bool_decide_eq_true_2 by reflexivity. cbn [handle isinstance fs stdout].
    unfold bind, ret. rewrite print_run. cbn [snd fs stdout].
    rewrite <- !app_assoc. reflexivity.
  - rewrite bool_decide_eq_false_2 by discriminate.
    do 4 (cbn [fs stdout]; rewrite print_run). cbn [snd fs stdout].
    rewrite <- !app_assoc. reflexivity.
  - rewrite bool_decide_eq_false_2 by discriminate.
    cbn [parent fs]. rewrite Hd.
    do 4 (cbn [fs stdout]; rewrite print_run). cbn [snd fs stdout].
    rewrite <- !app_assoc. reflexivity.
Qed.

(** ** More on the file system *)

Lemma stat_made_input (m : gmap Path node) :
  mkdir_status m = Return tt ->
  stat m input_file <> ENOENT ->
  stat (made m) input_file = stat m input_file.
Proof.
  intros Hst Hne. destruct (made_dirs _ Hst) as [H1 _].
  assert (Hi : made m !! input_file = m !! input_file) by (by rewrite made_other).
  assert (Hd : made m !! input_dir = m !! input_dir) by (by rewrite made_other).
  revert Hst Hne. unfold mkdir_status. paths. cbn [stat]. rewrite H1, Hd, Hi.
  destruct (m !! Slash Cwd "files") as [[|c1]|]; cbn [is_file]; try done.
Qed.

Lemma made_keeps (m : gmap Path node) (p : Path) (x : node) :
  m !! p = Some x -> made m !! p = Some x.
Proof.
  intros Hp. unfold made. destruct (is_file (m !! files_dir)) eqn:Hf; [done|].
  assert (Hfd : <[files_dir := Dir]> m !! p = Some x).
  { destruct (decide (p = files_dir)) as [->|Hne].
    - rewrite Hp in Hf. destruct x; [|discriminate]. by rewrite lookup_insert_eq.
    - by rewrite lookup_insert_ne. }
  destruct (m !! output_dir) as [y|] eqn:Ho; [done|].
  rewrite lookup_insert_ne; [done|]. intros <-. congruence.
Qed.

Lemma made_fresh (m : gmap Path node) (p : Path) :
  m !! p = None ->
  made m !! p = None ∨ ((p = files_dir ∨ p = output_dir) ∧ made m !! p = Some Dir).
Proof.
  intros Hp.
  destruct (decide (p = files_dir)) as [->|Hf].
  - right. split; [by left|]. unfold made. rewrite Hp. cbn [is_file].
    destruct (m !! output_dir); paths; by lookups.
  - destruct (decide (p = output_dir)) as [->|Ho].
    + unfold made. rewrite Hp. destruct (is_file (m !! files_dir)); [by left|].
      right. split; [by right|]. by rewrite lookup_insert_eq.
    + left. by rewrite made_other.
Qed.

Lemma outcome_lookup (m : gmap Path node) (p : Path) :
  p <> output_file -> (outcome m).2 !! p = made m !! p.
Proof.
  intros Hp. unfold outcome. destruct (mkdir_status m); [|done].
  cbv zeta. destruct (reading (made m)); [|done].
  destruct (bool_decide _); [done|]. cbn [snd]. by rewrite lookup_insert_ne.
Qed.

Lemma made_agree (m1 m2 : gmap Path node) :
  (forall p, p <> output_file -> m1 !! p = m2 !! p) ->
  mkdir_status m1 = mkdir_status m2
  ∧ forall p, p <> output_file -> made m1 !! p = made m2 !! p.
Proof.
  intros H.
  assert (Hf : m1 !! files_dir = m2 !! files_dir) by (by apply H).
  assert (Ho : m1 !! output_dir = m2 !! output_dir) by (by apply H).
  unfold mkdir_status, made. rewrite Hf, Ho. split; [done|].
  intros p Hp. destruct (is_file (m2 !! files_dir)); [by apply H|].
  destruct (m2 !! output_dir).
  - destruct (decide (p = files_dir)) as [->|]; [by rewrite !lookup_insert_eq|].
    rewrite !lookup_insert_ne by done. by apply H.
  - destruct (decide (p = output_dir)) as [->|]; [by rewrite !lookup_insert_eq|].
    rewrite !(lookup_insert_ne _ output_dir) by done.
    destruct (decide (p = files_dir)) as [->|]; [by rewrite !lookup_insert_eq|].
    rewrite !lookup_insert_ne by done. by apply H.
Qed.

Lemma reading_agree (m1 m2 : gmap Path node) :
  (forall p, p <> output_file -> m1 !! p = m2 !! p) -> reading m1 = reading m2.
Proof.
  intros H. unfold reading. paths. cbn [stat]. by rewrite !H by discriminate.
Qed.

(** ** The selected columns, whatever the header *)

Lemma selected_from_fresh (u seen : list string) (k : nat) (header : list string)
    (name : string) :
  name ∈ map snd (pd.selected_from u seen k header) ->
  name ∈ u ∧ (name ∉ seen) ∧ name ∈ header.
Proof.
  intros ([i n] & -> & Hin)%list_elem_of_fmap.
  apply elem_of_selected_from in Hin as (j & _ & Hj & Hu & Hs & _).
  cbn. repeat split; try done. by eapply list_elem_of_lookup_2.
Qed.

Lemma selected_from_NoDup (u seen : list string) (k : nat) (header : list string) :
  NoDup (map snd (pd.selected_from u seen k header)).
Proof.
  revert seen k. induction header as [|n rest IH]; intros seen k; cbn [pd.selected_from].
  - constructor.
  - rewrite map_app. apply NoDup_app. split; [|split; [|apply IH]].
    + case_bool_decide; [apply NoDup_singleton|constructor].
    + intros x Hx Hx'. apply selected_from_fresh in Hx' as (_ & Hseen & _).
      case_bool_decide; [|by apply elem_of_nil in Hx].
      apply list_elem_of_singleton in Hx as ->. apply Hseen. by left.
Qed.

Lemma selected_from_sublist (u seen : list string) (k : nat) (header : list string) :
  sublist (map snd (pd.selected_from u seen k header)) header.
Proof.
  revert seen k. induction header as [|n rest IH]; intros seen k; cbn [pd.selected_from].
  - constructor.
  - case_bool_decide; cbn [app map snd].
    + apply sublist_skip, IH.
    + apply sublist_cons, IH.
Qed.

Lemma first_occurrence (header : list string) (name : string) :
  name ∈ header -> exists j : nat, header !! j = Some name ∧ name ∉ take j header.
Proof.
  induction header as [|n rest IH]; [by intros ?%elem_of_nil|].
  intros Hin. destruct (decide (n = name)) as [->|Hne].
  - exists 0%nat. split; [done|]. by intros ?%elem_of_nil.
  - apply elem_of_cons in Hin as [?|Hin]; [congruence|].
    destruct (IH Hin) as (j & Hj & Ht). exists (S j). split; [done|].
    cbn. by apply not_elem_of_cons.
Qed.

Lemma selected_permutation (u header : list string) :
  NoDup u -> filter (fun name => name ∉ header) u = [] ->
  map snd (pd.selected u header) ≡ₚ u.
Proof.
  intros Hu Hmiss. apply NoDup_Permutation; [apply selected_from_NoDup|done|].
  intros x. split.
  - by intros (? & _ & _)%selected_from_fresh.
  - intros Hx.
    assert (Hh : x ∈ header).
    { destruct (decide (x ∈ header)) as [|Hn]; [done|]. exfalso.
      assert (H : x ∈ filter (fun name => name ∉ header) u) by (by apply list_elem_of_filter).
      rewrite Hmiss in H. by apply elem_of_nil in H. }
    destruct (first_occurrence _ _ Hh) as (j & Hj & Ht).
    apply list_elem_of_fmap. exists (j, x). split; [done|]. by apply elem_of_selected.
Qed.

Lemma parse_missing (u : list string) (d : gmap string dtype) (header : list string)
    (rows : list (list string)) (df : DataFrame) :
  pd.parse u d (Table (header :: rows)) = Return df ->
  filter (fun name => name ∉ header) u = [].
Proof. cbn [pd.parse]. by destruct (filter _ u). Qed.

Lemma columns_to_extract_NoDup : NoDup columns_to_extract.
Proof. apply (bool_decide_unpack _). vm_compute. exact I. Qed.

(** The names of the frame the script reads. *)
Lemma parse_names (header : list string) (rows : list (list string)) (df : DataFrame) :
  pd.parse columns_to_extract dtype_mapping (Table (header :: rows)) = Return df ->
  map fst (columns df) ≡ₚ columns_to_extract
  ∧ sublist (map fst (columns df)) header
  ∧ List.length (columns df) = 9%nat
  ∧ nrows df = List.length rows.
Proof.
  intros Hp. pose proof (parse_missing _ _ _ _ _ Hp) as Hmiss.
  destruct (parse_inv _ _ _ _ _ Hp) as [Hcols Hn].
  rewrite (convert_columns_names _ _ _ _ Hcols).
  pose proof (selected_permutation _ header columns_to_extract_NoDup Hmiss) as Hperm.
  split; [done|]. split; [apply selected_from_sublist|]. split; [|done].
  rewrite <- (length_map fst), (convert_columns_names _ _ _ _ Hcols), Hperm. reflexivity.
Qed.

Lemma convert_dtype (name : string) (d : option dtype) (cells : list string) (s : Series) :
  pd.convert name d cells = Return s -> Series_dtype s = default object_ d.
Proof.
  destruct d as [[]|]; cbn [pd.convert]; try (by intros [= <-]).
  - destruct (pd.int32_column _ _); [|discriminate]. by intros [= <-].
  - destruct (pd.float32_column _ _); [|discriminate]. by intros [= <-].
Qed.

Lemma convert_columns_dtypes (d : gmap string dtype) (rows : list (list string))
    (cols : list (nat * string)) (ss : list (string * Series)) :
  pd.convert_columns d rows cols = Return ss ->
  Forall (fun col => Series_dtype col.2 = default object_ (d !! col.1)) ss.
Proof.
  revert ss. induction cols as [|[i name] cols IH]; intros ss; cbn [pd.convert_columns].
  - intros [= <-]. constructor.
  - destruct (pd.convert _ _ _) as [s|] eqn:Hc; [|discriminate].
    destruct (pd.convert_columns d rows cols) as [ss'|]; [|discriminate].
    intros [= <-]. constructor; [by apply convert_dtype in Hc|by apply IH].
Qed.

(** From a cell of the input to the field of the output. *)
Lemma output_field (w w' : World) (header : list string) (rows : list (list string)) :
  stat (fs w) input_file = IsFile (Table (header :: rows)) ->
  rectangular header rows ->
  extract_specific_columns w = (Return true, w') ->
  exists hdr body,
    fs w' !! output_file = Some (File (Table (hdr :: body)))
    ∧ forall (i j : nat) (row : list string) (name : string),
        rows !! i = Some row ->
        header !! j = Some name ->
        name ∉ take j header ->
        name ∈ columns_to_extract ->
        exists cell record k s,
          row !! j = Some cell
          ∧ body !! i = Some record
          ∧ hdr !! k = Some name
          ∧ pd.column_cells j rows !! i = Some cell
          ∧ pd.convert name (dtype_mapping !! name) (pd.column_cells j rows) = Return s
          ∧ record !! k = Some (default EmptyString (pd.values_for_csv 6 s !! i)).
Proof.
  intros Hin Hrect Hrun.
  destruct (run_true_inv _ _ Hrun) as (Hst & df & Hread & Hfs).
  rewrite (reading_present _ _ Hst Hin) in Hread.
  destruct (parse_inv _ _ _ _ _ Hread) as [Hcols Hn].
  eexists _, _. split.
  { rewrite Hfs, lookup_insert_eq. unfold pd.csv_records. reflexivity. }
  intros i j row name Hrow Hj Hfirst Hu. cbn [app].
  assert (Hcell : exists cell, row !! j = Some cell).
  { apply lookup_lt_is_Some.
    rewrite (proj1 (Forall_forall _ _) Hrect row) by (by eapply list_elem_of_lookup_2).
    by eapply lookup_lt_Some. }
  destruct Hcell as [cell Hcell].
  assert (Hsel : (j, name) ∈ pd.selected columns_to_extract header)
    by (by apply elem_of_selected).
  apply list_elem_of_lookup_1 in Hsel as [k Hk].
  destruct (convert_columns_lookup _ _ _ _ _ _ _ Hcols Hk) as (s & Hs & Hconv).
  exists cell. eexists _, k, s.
  split; [exact Hcell|].
  split; [|split; [|split; [|split]]].
  - rewrite list_lookup_fmap, lookup_seq_lt; [reflexivity|].
    rewrite Hn. by eapply lookup_lt_Some.
  - by rewrite list_lookup_fmap, Hs.
  - unfold pd.column_cells. rewrite list_lookup_fmap, Hrow. cbn. by rewrite Hcell.
  - exact Hconv.
  - by rewrite list_lookup_fmap, Hs.
Qed.

Lemma astype_int32_range (v : Z) : - 2 ^ 31 <= pd.astype_int32 v <= 2 ^ 31 - 1.
Proof.
  unfold pd.astype_int32.
  pose proof (Z.mod_pos_bound (v + 2 ^ 31) (2 ^ 32) ltac:(lia)). lia.
Qed.

Lemma astype_int32_small (v : Z) : - 2 ^ 31 <= v <= 2 ^ 31 - 1 -> pd.astype_int32 v = v.
Proof. intros Hv. unfold pd.astype_int32. rewrite Z.mod_small by lia. lia. Qed.

Lemma exact_int32_range (cell : string) (v : Z) :
  pd.exact_int32 cell = Some v -> - 2 ^ 31 <= v <= 2 ^ 31 - 1.
Proof.
  unfold pd.exact_int32. destruct (pd.to_double cell); [|discriminate].
  destruct (Float.to_integer _) as [z|]; [|discriminate].
  destruct (Z.leb_spec (- 2 ^ 31) z); [|discriminate].
  destruct (Z.leb_spec z (2 ^ 31 - 1)); [|discriminate].
  intros [= <-]. lia.
Qed.

Lemma int32_fallback_lookup (name : string) (cells : list string) (v : list Z)
    (i : nat) (cell : string) :
  pd.int32_fallback name cells = Return v ->
  cells !! i = Some cell ->
  exists z, v !! i = Some z ∧ - 2 ^ 31 <= z <= 2 ^ 31 - 1.
Proof.
  intros Hcol Hi. assert (Hin : cell ∈ cells) by (by eapply list_elem_of_lookup_2).
  revert Hcol. unfold pd.int32_fallback.
  repeat match goal with
         | |- context [if forallb ?f cells then _ else _] =>
             let H := fresh "Hall" in
             destruct (forallb f cells) eqn:H;
             [apply (fun H' => forallb_elem _ _ _ H' Hin) in H; cbv beta in H|clear H]
         | |- context [if existsb ?f cells then _ else _] =>
             let H := fresh "Hex" in
             destruct (existsb f cells) eqn:H;
             [clear H|apply (fun H' => existsb_elem _ _ _ H' Hin) in H]
         end; try discriminate.
  all: intros [= <-]; eexists; (split; [rewrite list_lookup_fmap, Hi; reflexivity|]).
  - apply andb_true_iff in Hall0 as [_ Hall0].
    apply bool_decide_eq_true_1 in Hall0 as [z Hz]. rewrite Hz. cbn [from_option id].
    by eapply exact_int32_range.
  - destruct (default false (pd.to_boolean cell)); lia.
Qed.

Lemma int32_column_lookup (name : string) (cells : list string) (v : list Z)
    (i : nat) (cell : string) :
  pd.int32_column name cells = Return v ->
  cells !! i = Some cell ->
  exists z,
    v !! i = Some z
    ∧ - 2 ^ 31 <= z <= 2 ^ 31 - 1
    ∧ (Forall (fun c => is_Some (pd.str_to_int64 c)) cells ->
       forall n, pd.str_to_int64 cell = Some n -> z = pd.astype_int32 n).
Proof.
  intros Hcol Hi. assert (Hin : cell ∈ cells) by (by eapply list_elem_of_lookup_2).
  revert Hcol. unfold pd.int32_column.
  destruct (pd.try_int64 cells) as [v0| |] eqn:Hs.
  - apply try_int64_scanned in Hs as [-> _].
    destruct (existsb pd.isna cells) eqn:Hex; [discriminate|].
    apply (fun H => existsb_elem _ _ _ H Hin) in Hex.
    intros [= <-]. exists (pd.astype_int32 (default 0 (pd.str_to_int64 cell))).
    split; [rewrite !list_lookup_fmap, Hi; cbn; by rewrite Hex|].
    split; [apply astype_int32_range|].
    intros _ n ->. reflexivity.
  - destruct (pd.try_uint64 cells) as [vt| |] eqn:Hu; [|discriminate|].
    + apply try_uint64_scanned in Hu.
      destruct (Forall2_lookup_l _ _ _ _ _ Hu Hi) as (t & Ht & _).
      destruct (pd.uint64_conflict vt); [discriminate|].
      destruct (pd.seen_sint vt); [discriminate|].
      intros [= <-]. eexists. split; [rewrite list_lookup_fmap, Ht; reflexivity|].
      split; [apply astype_int32_range|].
      intros Hlit. destruct (try_int64_literals _ Hlit). congruence.
    + intros Hf. destruct (int32_fallback_lookup _ _ _ _ _ Hf Hi) as (z & Hz & Hr).
      exists z. split; [done|]. split; [done|].
      intros Hlit. destruct (try_int64_literals _ Hlit). congruence.
  - intros Hf. destruct (int32_fallback_lookup _ _ _ _ _ Hf Hi) as (z & Hz & Hr).
    exists z. split; [done|]. split; [done|].
    intros Hlit. destruct (try_int64_literals _ Hlit). congruence.
Qed.

(** ** Thousands separators *)

Lemma group3_separators (fuel : nat) (l : list ascii) :
  filter (fun a => a <> ","%char) (Text.group3 fuel l) = filter (fun a => a <> ","%char) l.
Proof.
  revert l. induction fuel as [|fuel IH]; intros l; [by destruct l|].
  destruct l as [|a [|b [|c [|d rest]]]]; try reflexivity.
  cbn [Text.group3]. rewrite !filter_cons. rewrite IH.
  rewrite (decide_False (P := ","%char <> ","%char)) by auto. reflexivity.
Qed.

Lemma digits_no_separator (l : list ascii) :
  Forall (fun a => Text.isdigit a = true) l ->
  filter (fun a => a <> ","%char) l = l.
Proof.
  induction 1 as [|a l Ha _ IH]; [reflexivity|].
  rewrite filter_cons, IH, decide_True; [reflexivity|].
  intros ->. vm_compute in Ha. discriminate.
Qed.

Lemma group3_positions (fuel : nat) (l : list ascii) :
  (List.length l <= fuel)%nat ->
  Forall (fun a => a <> ","%char) l ->
  (forall (i : nat) (a : ascii),
     Text.group3 fuel l !! i = Some a -> (a = ","%char <-> (i mod 4 = 3)%nat))
  ∧ (l <> [] -> (List.length (Text.group3 fuel l) mod 4 <> 0)%nat).
Proof.
  revert l. induction fuel as [|fuel IH]; intros l Hlen Hl.
  { destruct l; [|cbn in Hlen; lia]. split; [by intros i a ?|done]. }
  destruct l as [|a [|b [|c [|d rest]]]].
  - split; [by intros i x ?|done].
  - split; [|by intros _; cbn].
    intros [|i] x Hx; cbn in Hx; [|done]. injection Hx as <-.
    apply Forall_cons in Hl as [Ha _]. cbn. split; [done|lia].
  - split; [|by intros _; cbn].
    apply Forall_cons in Hl as [Ha Hl]. apply Forall_cons in Hl as [Hb _].
    intros [|[|i]] x Hx; cbn in Hx; [| |done]; injection Hx as <-; cbn; split; try done; lia.
  - split; [|by intros _; cbn].
    apply Forall_cons in Hl as [Ha Hl]. apply Forall_cons in Hl as [Hb Hl].
    apply Forall_cons in Hl as [Hc _].
    intros [|[|[|i]]] x Hx; cbn in Hx; [| | |done]; injection Hx as <-; cbn;
      split; try done; lia.
  - apply Forall_cons in Hl as [Ha Hl]. apply Forall_cons in Hl as [Hb Hl].
    apply Forall_cons in Hl as [Hc Hl].
    destruct (IH (d :: rest)) as [IH1 IH2]; [cbn in *; lia|done|].
    cbn [Text.group3]. split.
    + intros [|[|[|[|i]]]] x Hx; cbn in Hx.
      1-3: injection Hx as <-; cbn; split; try done; lia.
      * injection Hx as <-. done.
      * rewrite (IH1 i x Hx).
        replace (S (S (S (S i)))) with (i + 1 * 4)%nat by lia.
        by rewrite Nat.Div0.mod_add.
    + intros _. specialize (IH2 ltac:(done)).
      cbn [List.length].
      replace (S (S (S (S (List.length (Text.group3 fuel (d :: rest))))))) with
        (List.length (Text.group3 fuel (d :: rest)) + 1 * 4)%nat by lia.
      by rewrite Nat.Div0.mod_add.
Qed.

Lemma filter_rev_separators (l : list ascii) :
  filter (fun a => a <> ","%char) (rev l) = rev (filter (fun a => a <> ","%char) l).
Proof.
  induction l as [|x l IH]; [reflexivity|]. cbn [rev].
  rewrite filter_app, IH, !filter_cons.
  destruct (decide (x <> ","%char)); cbn [rev]; by rewrite ?app_nil_r.
Qed.

Lemma digit_no_separator (a : ascii) : Text.isdigit a = true -> a <> ","%char.
Proof. intros Ha ->. vm_compute in Ha. discriminate. Qed.

(** ** Writing an integer and reading it back *)

Lemma digit_value_char (d : Z) : Text.digit_value (Text.digit_char d) = d mod 10.
Proof.
  unfold Text.digit_value, Text.digit_char, Text.code.
  pose proof (Z.mod_pos_bound d 10 eq_refl) as Hd.
  rewrite N_ascii_embedding by lia. rewrite Z2N.id by lia. lia.
Qed.

Lemma digits_value_snoc (l : list ascii) (a : ascii) :
  Text.digits_value (l ++ [a]) = 10 * Text.digits_value l + Text.digit_value a.
Proof. unfold Text.digits_value. by rewrite fold_left_app. Qed.

Lemma digits_value_fixed (width : nat) (v : Z) :
  0 <= v -> Text.digits_value (Text.fixed_digits width v) = v mod 10 ^ Z.of_nat width.
Proof.
  revert v. induction width as [|w IH]; intros v Hv.
  - cbn. by rewrite Z.mod_1_r.
  - cbn [Text.fixed_digits]. rewrite digits_value_snoc, digit_value_char.
    rewrite IH by (apply Z.div_pos; lia).
    rewrite Nat2Z.inj_succ, Z.pow_succ_r by lia.
    rewrite Z.rem_mul_r by lia. lia.
Qed.

Lemma digits_value_zeros (l : list ascii) :
  Text.digits_value (snd (Text.span (fun a => Text.code a =? 48) l)) = Text.digits_value l.
Proof.
  induction l as [|a l IH]; [reflexivity|]. cbn [Text.span].
  destruct (Z.eqb_spec (Text.code a) 48) as [Ha|Ha]; [|reflexivity].
  destruct (Text.span _ l) as [u v]. cbn [snd] in *. rewrite IH.
  unfold Text.digits_value. cbn [fold_left]. unfold Text.digit_value. rewrite Ha.
  reflexivity.
Qed.

Lemma digits_value_decimal (v : Z) : 0 <= v -> Text.digits_value (Text.decimal v) = v.
Proof.
  intros Hv. unfold Text.decimal. cbv zeta.
  set (W := S (Z.to_nat (Z.log2 v))).
  pose proof (digits_value_zeros (Text.fixed_digits W v)) as Hz.
  rewrite digits_value_fixed in Hz by done.
  assert (Hsmall : v < 10 ^ Z.of_nat W).
  { unfold W. rewrite Nat2Z.inj_succ, Z2Nat.id by apply Z.log2_nonneg.
    destruct (Z.eq_dec v 0) as [->|Hne]; [reflexivity|].
    pose proof (Z.log2_spec v ltac:(lia)) as [_ Hhi].
    pose proof (Z.log2_nonneg v).
    eapply Z.lt_le_trans; [exact Hhi|]. apply Z.pow_le_mono_l. lia. }
  rewrite Z.mod_small in Hz by lia.
  destruct (snd (Text.span _ _)) as [|a l]; [|exact Hz].
  rewrite <- Hz. reflexivity.
Qed.

Lemma span_all (f : ascii -> bool) (l : list ascii) :
  Forall (fun a => f a = true) l -> Text.span f l = (l, []).
Proof.
  induction 1 as [|a l Ha _ IH]; [reflexivity|]. cbn [Text.span]. by rewrite Ha, IH.
Qed.

Lemma isdigit_plain (a : ascii) :
  Text.isdigit a = true ->
  Text.isspace a = false ∧ (Text.code a =? 45) = false ∧ (Text.code a =? 43) = false.
Proof.
  unfold Text.isdigit, Text.isspace. intros [H1 H2]%andb_true_iff.
  apply Z.leb_le in H1, H2.
  rewrite (proj2 (Z.eqb_neq _ 32)) by lia. rewrite (proj2 (Z.leb_gt _ 13)) by lia.
  rewrite andb_false_r. repeat split; apply Z.eqb_neq; lia.
Qed.

Lemma str_to_int64_str_int (v : Z) :
  - 2 ^ 63 <= v <= 2 ^ 63 - 1 -> pd.str_to_int64 (Text.str_int v) = Some v.
Proof.
  intros Hv. unfold pd.str_to_int64, Text.str_int. rewrite chars_text.
  destruct (decimal_isdigit (Z.abs v)) as [Hne Hdig].
  pose proof (digits_value_decimal (Z.abs v) ltac:(lia)) as Hval.
  destruct (Text.decimal (Z.abs v)) as [|d ds] eqn:Hdec; [done|].
  pose proof (Forall_inv Hdig) as Hd. destruct (isdigit_plain d Hd) as (Hsp & Hm & Hp).
  destruct (Z.ltb_spec v 0) as [Hneg|Hpos]; cbn [app Text.span].
  - change (Text.isspace "-") with false. cbn [snd Text.sign].
    change (Text.code "-" =? 45) with true. cbv iota.
    rewrite (span_all _ _ Hdig). cbn [Text.span snd]. rewrite Hval.
    rewrite (proj2 (Z.leb_le _ _)) by lia. rewrite (proj2 (Z.leb_le _ _)) by lia.
    cbn [andb]. f_equal. lia.
  - rewrite Hsp. cbn [snd Text.sign]. rewrite Hm, Hp.
    rewrite (span_all _ _ Hdig). cbn [Text.span snd]. rewrite Hval.
    rewrite (proj2 (Z.leb_le _ _)) by lia. rewrite (proj2 (Z.leb_le _ _)) by lia.
    cbn [andb]. f_equal. lia.
Qed.

(** ** A table without rows *)

Lemma convert_no_rows (name : string) (d : option dtype) :
  exists s, pd.convert name d [] = Return s.
Proof. destruct d as [[]|]; cbn; eauto. Qed.

Lemma parse_header_only (header : list string) :
  columns_to_extract ⊆ header ->
  exists df,
    pd.parse columns_to_extract dtype_mapping (Table [header]) = Return df
    ∧ nrows df = 0%nat.
Proof.
  intros Hsub. cbn [pd.parse].
  assert (Hmiss : filter (fun name => name ∉ header) columns_to_extract = []).
  { destruct (filter _ columns_to_extract) as [|x l] eqn:Hf; [reflexivity|]. exfalso.
    assert (Hx : x ∈ filter (fun name => name ∉ header) columns_to_extract)
      by (rewrite Hf; by left).
    apply list_elem_of_filter in Hx as [Hx1 Hx2]. by apply Hx1, Hsub. }
  rewrite Hmiss.
  destruct (convert_columns_ok dtype_mapping [] (pd.selected columns_to_extract header))
    as [cols ->]; [|eauto].
  intros i name _. apply convert_no_rows.
Qed.

(** ** The properties *)

(** X1. The directory step runs before the [try] block.  When a regular
    file stands at [files] or at [files/output] the call raises:
    [NotADirectoryError] in the first case, [FileExistsError] in the
    second.  Nothing is printed, no path other than [files] can have
    changed, and the interpreter ends with status 1. *)

Theorem obstructed_run_raises (w : World) :
  ~ unobstructed (fs w) ->
  exists w',
    extract_specific_columns w
    = (Raise (if is_file (fs w !! files_dir)
              then NotADirectoryError output_dir
              else FileExistsError output_dir), w')
    ∧ stdout w' = stdout w
    ∧ (forall p, p <> files_dir -> fs w' !! p = fs w !! p)
    ∧ (main w).1 = 1.
Proof.
  intros Hu. pose proof (run_cases w) as H.
  destruct (mkdir_status (fs w)) as [[]|e] eqn:Hst.
  { exfalso. by apply Hu, unobstructed_status. }
  exists {| fs := made (fs w); stdout := stdout w |}.
  revert Hst. unfold mkdir_status, main. rewrite H. unfold made.
  destruct (is_file (fs w !! files_dir)).
  - intros [= <-]. done.
  - destruct (fs w !! output_dir) as [[|c]|]; cbn [is_file]; try discriminate.
    intros [= <-]. repeat split; try done.
    intros p Hp. cbn [fs]. by rewrite lookup_insert_ne.
Qed.

Lemma obstructed_run_raises_witness :
  ~ unobstructed (fs blocked_world)
  ∧ exists w',
      extract_specific_columns blocked_world = (Raise (FileExistsError output_dir), w')
      ∧ stdout w' = stdout blocked_world
      ∧ (forall p, p <> files_dir -> fs w' !! p = fs blocked_world !! p)
      ∧ (main blocked_world).1 = 1.
Proof.
  assert (H : ~ unobstructed (fs blocked_world)) by (intros [_ H]; discriminate H).
  split; [exact H|]. exact (obstructed_run_raises blocked_world H).
Defined.

(** X2. [extract_specific_columns] returns [True] exactly when no
    regular file is in the way of the output directory, [files/input] is a
    directory, the input path holds a file that the parser accepts with
    the nine columns at their declared types, and the output path is not a
    directory. *)

Theorem success_conditions (w : World) :
  (extract_specific_columns w).1 = Return true
  <-> unobstructed (fs w)
      ∧ fs w !! input_dir = Some Dir
      ∧ fs w !! output_file <> Some Dir
      ∧ exists c df,
          fs w !! input_file = Some (File c)
          ∧ pd.parse columns_to_extract dtype_mapping c = Return df.
Proof.
  rewrite (proj1 (run_outcome w)). unfold outcome.
  assert (Hd : made (fs w) !! input_dir = fs w !! input_dir) by (by rewrite made_other).
  assert (Hi : made (fs w) !! input_file = fs w !! input_file) by (by rewrite made_other).
  assert (Ho : made (fs w) !! output_file = fs w !! output_file) by (by rewrite made_other).
  split.
  - destruct (mkdir_status (fs w)) as [[]|e] eqn:Hst; [|discriminate].
    cbv zeta. destruct (reading (made (fs w))) as [df|e] eqn:Hr; [|discriminate].
    case_bool_decide as Hout; [discriminate|]. intros _.
    split; [by apply unobstructed_status|].
    revert Hr. unfold reading. paths. cbn [stat]. rewrite Hd, Hi.
    destruct (made (fs w) !! Slash Cwd "files") as [[|c1]|]; try discriminate.
    destruct (fs w !! Slash (Slash Cwd "files") "input") as [[|c2]|]; try discriminate.
    destruct (fs w !! Slash (Slash (Slash Cwd "files") "input") _) as [[|c3]|];
      try discriminate.
    intros Hp. split; [done|]. split; [by rewrite <- Ho|]. eauto.
  - intros (Hu & Hdir & Hout & c & df & Hin & Hp).
    apply unobstructed_status in Hu. rewrite Hu. cbv zeta.
    destruct (made_dirs _ Hu) as [H1 _].
    assert (Hr : reading (made (fs w)) = Return df).
    { unfold reading. paths. cbn [stat]. by rewrite H1, Hd, Hdir, Hi, Hin. }
    rewrite Hr, bool_decide_eq_false_2; [done|]. by rewrite Ho.
Qed.

(** X3. What a run leaves of the file system, whatever its outcome.
    Apart from the output file, every path that held something holds the
    same thing afterwards, and a path that held nothing still holds
    nothing, unless it is [files] or [files/output], which the run may
    have made as directories.  In particular the input file is never
    modified or removed. *)

Theorem run_only_adds (w : World) (p : Path) :
  p <> output_file ->
  (forall x, fs w !! p = Some x -> fs (extract_specific_columns w).2 !! p = Some x)
  ∧ (fs w !! p = None ->
     fs (extract_specific_columns w).2 !! p = None
     ∨ ((p = files_dir ∨ p = output_dir)
        ∧ fs (extract_specific_columns w).2 !! p = Some Dir)).
Proof.
  intros Hp. rewrite (proj2 (run_outcome w)), (outcome_lookup _ _ Hp).
  split; [apply made_keeps|apply made_fresh].
Qed.

Lemma run_only_adds_witness :
  input_file <> output_file
  ∧ (forall x, fs example_world !! input_file = Some x ->
       fs (extract_specific_columns example_world).2 !! input_file = Some x)
  ∧ (fs example_world !! input_file = None ->
     fs (extract_specific_columns example_world).2 !! input_file = None
     ∨ ((input_file = files_dir ∨ input_file = output_dir)
        ∧ fs (extract_specific_columns example_world).2 !! input_file = Some Dir)).
Proof.
  assert (H : input_file <> output_file) by discriminate.
  split; [exact H|]. exact (run_only_adds example_world input_file H).
Defined.

(** X4. The result does not depend on what an earlier run left at the
    output path.  Two worlds that differ only there, neither holding a
    directory in that place, give the same result, and after a successful
    run the same file system: the file is replaced as a whole. *)

Theorem output_independent_of_old_file (w1 w2 : World) :
  (forall p, p <> output_file -> fs w1 !! p = fs w2 !! p) ->
  fs w1 !! output_file <> Some Dir ->
  fs w2 !! output_file <> Some Dir ->
  (extract_specific_columns w1).1 = (extract_specific_columns w2).1
  ∧ ((extract_specific_columns w1).1 = Return true ->
     fs (extract_specific_columns w1).2 = fs (extract_specific_columns w2).2).
Proof.
  intros Hsame H1 H2.
  destruct (run_outcome w1) as [-> ->]. destruct (run_outcome w2) as [-> ->].
  destruct (made_agree _ _ Hsame) as [Hst Hmade].
  pose proof (reading_agree _ _ Hmade) as Hr.
  unfold outcome. rewrite Hst, Hr.
  destruct (mkdir_status (fs w2)); [|by split].
  cbv zeta. destruct (reading (made (fs w2))) as [df|e]; [|by split].
  rewrite !bool_decide_eq_false_2 by (by rewrite made_other).
  split; [done|]. intros _. cbn [snd]. apply map_eq. intros p.
  destruct (decide (p = output_file)) as [->|Hp].
  - by rewrite !lookup_insert_eq.
  - rewrite !lookup_insert_ne by done. by apply Hmade.
Qed.

Lemma output_independent_of_old_file_witness :
  (forall p, p <> output_file -> fs ready_world !! p = fs stale_output_world !! p)
  ∧ fs ready_world !! output_file <> Some Dir
  ∧ fs stale_output_world !! output_file <> Some Dir
  ∧ (extract_specific_columns ready_world).1 = (extract_specific_columns stale_output_world).1
  ∧ ((extract_specific_columns ready_world).1 = Return true ->
     fs (extract_specific_columns ready_world).2
     = fs (extract_specific_columns stale_output_world).2).
Proof.
  assert (H0 : forall p, p <> output_file ->
                         fs ready_world !! p = fs stale_output_world !! p).
  { intros p Hp. unfold stale_output_world. cbn [fs]. by rewrite lookup_insert_ne. }
  assert (H1 : fs ready_world !! output_file <> Some Dir) by (vm_compute; discriminate).
  assert (H2 : fs stale_output_world !! output_file <> Some Dir) by (vm_compute; discriminate).
  split; [exact H0|]. split; [exact H1|]. split; [exact H2|].
  exact (output_independent_of_old_file ready_world stale_output_world H0 H1 H2).
Defined.

(** X5. When the output path is a directory, the run reads and reports
    the data as usual and fails at writing: [to_csv] raises
    [IsADirectoryError], which the second [except] clause reports with the
    processing-error message as the last line.  The function returns
    [False], nothing that was in the file system is lost, and the exit
    status is 1. *)

Theorem output_path_is_directory (w : World) (c : content) (df : DataFrame) :
  unobstructed (fs w) ->
  stat (fs w) input_file = IsFile c ->
  pd.parse columns_to_extract dtype_mapping c = Return df ->
  fs w !! output_file = Some Dir ->
  exists w',
    extract_specific_columns w = (Return false, w')
    ∧ stdout w'
      = stdout w ++ lines_before_saving df
        ++ [ErrorLine "❌ Error procesando datos: " (IsADirectoryError output_file)]
    ∧ (forall p x, fs w !! p = Some x -> fs w' !! p = Some x)
    ∧ (main w).1 = 1.
Proof.
  intros Hu Hin Hp Hout. apply unobstructed_status in Hu.
  assert (Hr : reading (made (fs w)) = Return df) by (by rewrite (reading_present _ _ Hu Hin)).
  assert (Hd : made (fs w) !! output_file = Some Dir) by (by rewrite made_other).
  pose proof (run_cases w) as H. pose proof (run_stdout w df Hu Hr) as Hs.
  rewrite Hu in H. cbv zeta in H. rewrite Hr in H.
  rewrite bool_decide_eq_true_2 in H, Hs by done.
  destruct H as (w' & Hrun & Hfs & _). exists w'.
  unfold main. rewrite Hrun in *. cbn [snd] in Hs.
  split; [done|]. split; [done|]. split; [|done].
  intros p x Hx. rewrite Hfs. by apply made_keeps.
Qed.

Lemma output_path_is_directory_witness :
  unobstructed (fs output_is_directory_world)
  ∧ fs output_is_directory_world !! output_file = Some Dir
  ∧ exists df w',
      pd.parse columns_to_extract dtype_mapping (Table [sample_header; sample_row]) = Return df
      ∧ extract_specific_columns output_is_directory_world = (Return false, w')
      ∧ stdout w'
        = stdout output_is_directory_world ++ lines_before_saving df
          ++ [ErrorLine "❌ Error procesando datos: " (IsADirectoryError output_file)]
      ∧ (forall p x, fs output_is_directory_world !! p = Some x -> fs w' !! p = Some x)
      ∧ (main output_is_directory_world).1 = 1.
Proof.
  assert (H1 : unobstructed (fs output_is_directory_world)) by (split; reflexivity).
  assert (H2 : fs output_is_directory_world !! output_file = Some Dir) by reflexivity.
  split; [exact H1|]. split; [exact H2|].
  destruct (pd.parse columns_to_extract dtype_mapping (Table [sample_header; sample_row]))
    as [df|e] eqn:Hp; [|vm_compute in Hp; discriminate Hp].
  exists df.
  destruct (output_path_is_directory output_is_directory_world
              (Table [sample_header; sample_row]) df H1 ltac:(reflexivity) Hp H2)
    as (w' & H). exists w'. split; [reflexivity|exact H].
Defined.

(** X6. Only a missing input file is reported as missing: when a run
    returns [False] and its last line is the file-not-found message,
    nothing is found at the input path.  And when the output directory can
    be made while the input path is a directory, or [files/input] is a
    regular file, or the input file holds no record, [read_csv] raises
    [IsADirectoryError], [NotADirectoryError] or [EmptyDataError]; the run
    reports it with the processing-error message, returns [False] and
    leaves the output path as it was. *)
Theorem unreadable_input_reported (w : World) :
  (forall e : exn,
     unobstructed (fs w) ->
     unreadable (stat (fs w) input_file) = Some e ->
     exists w',
       extract_specific_columns w = (Return false, w')
       ∧ stdout w'
         = stdout w ++ [ Line "Leyendo archivo de entrada...";
                         ErrorLine "❌ Error procesando datos: " e ]
       ∧ fs w' !! output_file = fs w !! output_file)
  ∧ (forall w' : World,
       extract_specific_columns w = (Return false, w') ->
       last (stdout w')
       = Some (Line ("❌ Error: No se encontró el archivo " +:+ str input_file)) ->
       stat (fs w) input_file = ENOENT).
Proof.
  split.
  - intros e Hu He. apply unobstructed_status in Hu.
    assert (Hne : stat (fs w) input_file <> ENOENT) by (intros H; by rewrite H in He).
    assert (Hr : reading (made (fs w)) = Raise e
                 ∧ isinstance e cls.FileNotFoundError = false).
    { unfold reading. rewrite (stat_made_input _ Hu Hne).
      destruct (stat (fs w) input_file) as [| | |[[|header rows]|]];
        try discriminate; injection He as <-; done. }
    destruct Hr as [Hr Hfnf].
    pose proof (run_cases w) as H. rewrite Hu in H. cbv zeta in H. rewrite Hr in H.
    unfold handler_line in H. rewrite Hfnf in H.
    eexists. split; [exact H|]. cbn [fs stdout]. split; [reflexivity|].
    by apply made_other.
  - intros w' Hrun Hlast.
    pose proof (run_cases w) as H.
    destruct (mkdir_status (fs w)) as [[]|e0] eqn:Hst; [|by rewrite H in Hrun].
    cbv zeta in H.
    destruct (stat (fs w) input_file) eqn:Hs; try reflexivity.
    all: assert (Hne : stat (fs w) input_file <> ENOENT) by (by rewrite Hs).
    all: pose proof (stat_made_input _ Hst Hne) as Hm; rewrite Hs in Hm.
    all: unfold reading in H; rewrite Hm in H.
    all: try (rewrite H in Hrun; injection Hrun as <-; cbn [stdout] in Hlast;
              change (stdout w ++ [?a; ?b]) with (stdout w ++ [a] ++ [b]) in Hlast;
              rewrite app_assoc, last_snoc in Hlast; discriminate).
    destruct (pd.parse _ _ _) as [df|e] eqn:Hp.
    + case_bool_decide.
      * destruct H as (w1 & Hw1 & _ & out' & Hout). rewrite Hw1 in Hrun.
        injection Hrun as <-. rewrite Hout, app_assoc, last_snoc in Hlast. discriminate.
      * destruct H as (w1 & Hw1 & _). rewrite Hw1 in Hrun. discriminate.
    + rewrite H in Hrun. injection Hrun as <-. cbn [stdout] in Hlast.
      change (stdout w ++ [?a; ?b]) with (stdout w ++ [a] ++ [b]) in Hlast.
      rewrite app_assoc, last_snoc in Hlast. unfold handler_line in Hlast.
      rewrite (parse_raises _ _ _ _ Hp) in Hlast. discriminate.
Qed.

Lemma unreadable_input_reported_witness :
  unobstructed (fs empty_file_world)
  ∧ unobstructed (fs input_is_directory_world)
  ∧ unobstructed (fs input_dir_is_file_world)
  ∧ (exists w',
       extract_specific_columns empty_file_world = (Return false, w')
       ∧ stdout w'
         = stdout empty_file_world
           ++ [ Line "Leyendo archivo de entrada...";
                ErrorLine "❌ Error procesando datos: " EmptyDataError ]
       ∧ fs w' !! output_file = fs empty_file_world !! output_file)
  ∧ (exists w',
       extract_specific_columns input_is_directory_world = (Return false, w')
       ∧ stdout w'
         = stdout input_is_directory_world
           ++ [ Line "Leyendo archivo de entrada...";
                ErrorLine "❌ Error procesando datos: " (IsADirectoryError input_file) ]
       ∧ fs w' !! output_file = fs input_is_directory_world !! output_file)
  ∧ (exists w',
       extract_specific_columns input_dir_is_file_world = (Return false, w')
       ∧ stdout w'
         = stdout input_dir_is_file_world
           ++ [ Line "Leyendo archivo de entrada...";
                ErrorLine "❌ Error procesando datos: " (NotADirectoryError input_file) ]
       ∧ fs w' !! output_file = fs input_dir_is_file_world !! output_file)
  ∧ extract_specific_columns empty_world
    = (Return false, snd (extract_specific_columns empty_world))
  ∧ last (stdout (snd (extract_specific_columns empty_world)))
    = Some (Line ("❌ Error: No se encontró el archivo " +:+ str input_file))
  ∧ stat (fs empty_world) input_file = ENOENT.
Proof.
  assert (H1 : unobstructed (fs empty_file_world)) by (split; reflexivity).
  assert (H2 : unobstructed (fs input_is_directory_world)) by (split; reflexivity).
  assert (H3 : unobstructed (fs input_dir_is_file_world)) by (split; reflexivity).
  assert (H4 : extract_specific_columns empty_world
               = (Return false, snd (extract_specific_columns empty_world)))
    by (vm_compute; reflexivity).
  assert (H5 : last (stdout (snd (extract_specific_columns empty_world)))
               = Some (Line ("❌ Error: No se encontró el archivo " +:+ str input_file)))
    by (vm_compute; reflexivity).
  split; [exact H1|]. split; [exact H2|]. split; [exact H3|]. split; [|split; [|split]].
  - exact (proj1 (unreadable_input_reported empty_file_world) EmptyDataError H1 eq_refl).
  - exact (proj1 (unreadable_input_reported input_is_directory_world)
             (IsADirectoryError input_file) H2 eq_refl).
  - exact (proj1 (unreadable_input_reported input_dir_is_file_world)
             (NotADirectoryError input_file) H3 eq_refl).
  - split; [exact H4|]. split; [exact H5|].
    exact (proj2 (unreadable_input_reported empty_world) _ H4 H5).
Defined.

(** X7. Every successful run writes exactly nine columns, whatever else
    the header of the input held (other columns, repeated names, any
    order): the header record is a rearrangement of the nine names, taken
    from the input header in its order; there is one record per input
    row, and every record has nine fields. *)

Theorem nine_columns_whatever_the_header (w w' : World) (header : list string)
    (rows : list (list string)) :
  stat (fs w) input_file = IsFile (Table (header :: rows)) ->
  extract_specific_columns w = (Return true, w') ->
  exists hdr body,
    fs w' !! output_file = Some (File (Table (hdr :: body)))
    ∧ hdr ≡ₚ columns_to_extract
    ∧ sublist hdr header
    ∧ List.length body = List.length rows
    ∧ Forall (fun r => List.length r = 9%nat) body.
Proof.
  intros Hin Hrun.
  destruct (run_true_inv _ _ Hrun) as (Hst & df & Hread & Hfs).
  rewrite (reading_present _ _ Hst Hin) in Hread.
  destruct (parse_names _ _ _ Hread) as (Hperm & Hsub & Hlen & Hn).
  destruct (csv_records_plain df 6) as (body & Hcsv & Hbody & Hwidth).
  exists (map fst (columns df)), body.
  split; [by rewrite Hfs, lookup_insert_eq, Hcsv|].
  split; [done|]. split; [done|]. split; [congruence|].
  by rewrite Hlen in Hwidth.
Qed.

Lemma nine_columns_whatever_the_header_witness :
  stat (fs repeated_header_world) input_file
  = IsFile (Table ((sample_header ++ ["driverId"]) :: [sample_row ++ ["77"]]))
  ∧ extract_specific_columns repeated_header_world
    = (Return true, (extract_specific_columns repeated_header_world).2)
  ∧ exists hdr body,
      fs (extract_specific_columns repeated_header_world).2 !! output_file
      = Some (File (Table (hdr :: body)))
      ∧ hdr ≡ₚ columns_to_extract
      ∧ sublist hdr (sample_header ++ ["driverId"])
      ∧ List.length body = List.length [sample_row ++ ["77"]]
      ∧ Forall (fun r => List.length r = 9%nat) body.
Proof.
  assert (H1 : stat (fs repeated_header_world) input_file
               = IsFile (Table ((sample_header ++ ["driverId"]) :: [sample_row ++ ["77"]])))
    by reflexivity.
  assert (H2 : extract_specific_columns repeated_header_world
               = (Return true, (extract_specific_columns repeated_header_world).2))
    by (vm_compute; reflexivity).
  split; [exact H1|]. split; [exact H2|].
  exact (nine_columns_whatever_the_header repeated_header_world _ _ _ H1 H2).
Defined.

(** X8. What a successful run prints, line by line: the progress line;
    the number of rows with thousands separators and the number of
    columns, nine; the memory figure; one line per column, in the order of
    the frame, with the type declared for it in [dtype_mapping]; the
    saving line; the path of the output file; the number of records and
    of columns; and the sample of the first three rows. *)

Theorem success_report (w w' : World) (header : list string) (rows : list (list string)) :
  stat (fs w) input_file = IsFile (Table (header :: rows)) ->
  extract_specific_columns w = (Return true, w') ->
  exists df,
    pd.parse columns_to_extract dtype_mapping (Table (header :: rows)) = Return df
    ∧ map fst (columns df) ≡ₚ columns_to_extract
    ∧ stdout w'
      = stdout w
        ++ [ Line "Leyendo archivo de entrada...";
             Line ("Datos leídos: " +:+ Text.str_thousands (List.length rows)
                   +:+ " filas, 9 columnas");
             MemoryLine df;
             Line (nl +:+ "Columnas extraídas:") ]
        ++ map (fun name =>
                  Line ("  - " +:+ name +:+ ": "
                        +:+ dtype_name (default object_ (dtype_mapping !! name))))
               (map fst (columns df))
        ++ [ Line (nl +:+ "Guardando archivo de salida...");
             Line "✅ Archivo guardado exitosamente: files/output/specific-columns.csv";
             Line ("📊 Resumen: " +:+ Text.str_int (Z.of_nat (List.length rows))
                   +:+ " registros, 9 columnas específicas");
             Line (nl +:+ "📋 Muestra de los datos extraídos:");
             SampleLines (head 3 df) ].
Proof.
  intros Hin Hrun.
  destruct (run_true_inv _ _ Hrun) as (Hst & df & Hread & Hfs).
  pose proof (run_stdout w df Hst Hread) as Hout.
  rewrite (reading_present _ _ Hst Hin) in Hread.
  destruct (parse_names _ _ _ Hread) as (Hperm & _ & Hlen & Hn).
  destruct (parse_inv _ _ _ _ _ Hread) as [Hcols _].
  apply convert_columns_dtypes in Hcols.
  exists df. split; [done|]. split; [done|].
  rewrite Hrun in Hout. cbn [snd] in Hout. rewrite Hout.
  rewrite bool_decide_eq_false_2.
  2:{ intros Hd. pose proof (run_cases w) as H.
      rewrite Hst in H. cbv zeta in H.
      destruct (reading (made (fs w))) as [df'|]; [|congruence].
      rewrite bool_decide_eq_true_2 in H by done.
      destruct H as (w1 & H & _). congruence. }
  unfold lines_before_saving, lines_after_saving. rewrite Hlen, Hn.
  rewrite <- !app_assoc. f_equal. cbn [app]. do 4 f_equal.
  rewrite map_map. f_equal.
  apply Forall_fmap_ext_1. eapply Forall_impl; [exact Hcols|].
  intros [name s] Hd. cbn in *. by rewrite Hd.
Qed.

Lemma success_report_witness :
  stat (fs example_world) input_file = IsFile (Table (sample_header :: [sample_row]))
  ∧ extract_specific_columns example_world
    = (Return true, (extract_specific_columns example_world).2)
  ∧ exists df,
      pd.parse columns_to_extract dtype_mapping (Table (sample_header :: [sample_row]))
      = Return df
      ∧ map fst (columns df) ≡ₚ columns_to_extract
      ∧ stdout (extract_specific_columns example_world).2
        = stdout example_world
          ++ [ Line "Leyendo archivo de entrada...";
               Line ("Datos leídos: " +:+ Text.str_thousands (List.length [sample_row])
                     +:+ " filas, 9 columnas");
               MemoryLine df;
               Line (nl +:+ "Columnas extraídas:") ]
          ++ map (fun name =>
                    Line ("  - " +:+ name +:+ ": "
                          +:+ dtype_name (default object_ (dtype_mapping !! name))))
                 (map fst (columns df))
          ++ [ Line (nl +:+ "Guardando archivo de salida...");
               Line "✅ Archivo guardado exitosamente: files/output/specific-columns.csv";
               Line ("📊 Resumen: " +:+ Text.str_int (Z.of_nat (List.length [sample_row]))
                     +:+ " registros, 9 columnas específicas");
               Line (nl +:+ "📋 Muestra de los datos extraídos:");
               SampleLines (head 3 df) ].
Proof.
  assert (H1 : stat (fs example_world) input_file
               = IsFile (Table (sample_header :: [sample_row]))) by reflexivity.
  assert (H2 : extract_specific_columns example_world
               = (Return true, (extract_specific_columns example_world).2))
    by (vm_compute; reflexivity).
  split; [exact H1|]. split; [exact H2|].
  exact (success_report example_world _ sample_header [sample_row] H1 H2).
Defined.

(** X9. The columns declared [string] ([eventTime], [driverName],
    [routeName], [eventDate]) are written as they were read.  In every
    successful run each cell appears unchanged in the same row under the
    same name, blanks included, except a missing-value marker (such as
    [NA], [null] or [None]), which is written as an empty field. *)

Theorem text_columns_verbatim (w w' : World) (header : list string)
    (rows : list (list string)) :
  stat (fs w) input_file = IsFile (Table (header :: rows)) ->
  rectangular header rows ->
  extract_specific_columns w = (Return true, w') ->
  exists hdr body,
    fs w' !! output_file = Some (File (Table (hdr :: body)))
    ∧ forall (i j : nat) (row : list string) (name : string),
        rows !! i = Some row ->
        header !! j = Some name ->
        name ∉ take j header ->
        name ∈ ["eventTime"; "driverName"; "routeName"; "eventDate"] ->
        exists cell record k,
          row !! j = Some cell
          ∧ body !! i = Some record
          ∧ hdr !! k = Some name
          ∧ record !! k = Some (if pd.isna cell then EmptyString else cell).
Proof.
  intros Hin Hrect Hrun.
  destruct (output_field _ _ _ _ Hin Hrect Hrun) as (hdr & body & Hfs & Hfield).
  exists hdr, body. split; [exact Hfs|].
  intros i j row name Hrow Hj Hfirst Hname.
  assert (Hd : dtype_mapping !! name = Some string_).
  { repeat (apply elem_of_cons in Hname as [->|Hname]; [reflexivity|]).
    by apply elem_of_nil in Hname. }
  assert (Hu : name ∈ columns_to_extract).
  { repeat (apply elem_of_cons in Hname as [->|Hname];
            [apply (bool_decide_unpack _); vm_compute; exact I|]).
    by apply elem_of_nil in Hname. }
  destruct (Hfield i j row name Hrow Hj Hfirst Hu)
    as (cell & record & k & s & Hcell & Hrec & Hk & Hcells & Hconv & Htext).
  exists cell, record, k. repeat split; try done.
  rewrite Htext. rewrite Hd in Hconv. cbn [pd.convert] in Hconv. injection Hconv as <-.
  cbn [pd.values_for_csv]. unfold pd.text_column.
  rewrite !list_lookup_fmap, Hcells. cbn. by destruct (pd.isna cell).
Qed.

Lemma text_columns_verbatim_witness :
  stat (fs marker_name_world) input_file
  = IsFile (Table (sample_header ::
      [ [ "10"; "200"; "59:21.7"; "Normal"; "-94.5"; "39.1"; "10|200|1"; "3.66E+18";
          "NA"; "160405074"; "R1"; "2016-01-01" ] ]))
  ∧ rectangular sample_header
      [ [ "10"; "200"; "59:21.7"; "Normal"; "-94.5"; "39.1"; "10|200|1"; "3.66E+18";
          "NA"; "160405074"; "R1"; "2016-01-01" ] ]
  ∧ extract_specific_columns marker_name_world
    = (Return true, (extract_specific_columns marker_name_world).2)
  ∧ exists hdr body,
      fs (extract_specific_columns marker_name_world).2 !! output_file
      = Some (File (Table (hdr :: body)))
      ∧ forall (i j : nat) (row : list string) (name : string),
          [ [ "10"; "200"; "59:21.7"; "Normal"; "-94.5"; "39.1"; "10|200|1"; "3.66E+18";
              "NA"; "160405074"; "R1"; "2016-01-01" ] ] !! i = Some row ->
          sample_header !! j = Some name ->
          name ∉ take j sample_header ->
          name ∈ ["eventTime"; "driverName"; "routeName"; "eventDate"] ->
          exists cell record k,
            row !! j = Some cell
            ∧ body !! i = Some record
            ∧ hdr !! k = Some name
            ∧ record !! k = Some (if pd.isna cell then EmptyString else cell).
Proof.
  assert (H1 : stat (fs marker_name_world) input_file
               = IsFile (Table (sample_header ::
                   [ [ "10"; "200"; "59:21.7"; "Normal"; "-94.5"; "39.1"; "10|200|1";
                       "3.66E+18"; "NA"; "160405074"; "R1"; "2016-01-01" ] ])))
    by reflexivity.
  assert (H2 : rectangular sample_header
                 [ [ "10"; "200"; "59:21.7"; "Normal"; "-94.5"; "39.1"; "10|200|1";
                     "3.66E+18"; "NA"; "160405074"; "R1"; "2016-01-01" ] ])
    by (repeat constructor).
  assert (H3 : extract_specific_columns marker_name_world
               = (Return true, (extract_specific_columns marker_name_world).2))
    by (vm_compute; reflexivity).
  split; [exact H1|]. split; [exact H2|]. split; [exact H3|].
  exact (text_columns_verbatim marker_name_world _ sample_header _ H1 H2 H3).
Defined.

(** X10. In every successful run each field under [driverId] and
    [truckId] is the decimal text of an integer of the [int32] range, so
    it is never empty.  When every cell of the column is an integer
    literal that fits 64 bits, the field is the value of its cell narrowed
    to 32 bits: the integer itself in canonical form (whatever blanks,
    plus sign or leading zeros the input had) when it is in the [int32]
    range, and that integer wrapped around otherwise. *)
Theorem integer_columns_canonical (w w' : World) (header : list string)
    (rows : list (list string)) :
  stat (fs w) input_file = IsFile (Table (header :: rows)) ->
  rectangular header rows ->
  extract_specific_columns w = (Return true, w') ->
  exists hdr body,
    fs w' !! output_file = Some (File (Table (hdr :: body)))
    ∧ forall (i j : nat) (row : list string) (name : string),
        rows !! i = Some row ->
        header !! j = Some name ->
        name ∉ take j header ->
        name ∈ ["driverId"; "truckId"] ->
        exists cell record k z,
          row !! j = Some cell
          ∧ body !! i = Some record
          ∧ hdr !! k = Some name
          ∧ record !! k = Some (Text.str_int z)
          ∧ - 2 ^ 31 <= z <= 2 ^ 31 - 1
          ∧ (Forall (fun r => is_Some (pd.str_to_int64 (default EmptyString (r !! j)))) rows ->
             forall n,
               pd.str_to_int64 cell = Some n ->
               z = pd.astype_int32 n ∧ (- 2 ^ 31 <= n <= 2 ^ 31 - 1 -> z = n)).
Proof.
  intros Hin Hrect Hrun.
  destruct (output_field _ _ _ _ Hin Hrect Hrun) as (hdr & body & Hfs & Hfield).
  exists hdr, body. split; [exact Hfs|].
  intros i j row name Hrow Hj Hfirst Hname.
  assert (Hd : dtype_mapping !! name = Some int32).
  { repeat (apply elem_of_cons in Hname as [->|Hname]; [reflexivity|]).
    by apply elem_of_nil in Hname. }
  assert (Hu : name ∈ columns_to_extract).
  { repeat (apply elem_of_cons in Hname as [->|Hname];
            [apply (bool_decide_unpack _); vm_compute; exact I|]).
    by apply elem_of_nil in Hname. }
  destruct (Hfield i j row name Hrow Hj Hfirst Hu)
    as (cell & record & k & s & Hcell & Hrec & Hk & Hcells & Hconv & Htext).
  rewrite Hd in Hconv. cbn [pd.convert] in Hconv.
  destruct (pd.int32_column name _) as [v|] eqn:Hv; [|discriminate].
  injection Hconv as <-.
  destruct (int32_column_lookup _ _ _ i cell Hv Hcells) as (z & Hz & Hrange & Hlit).
  exists cell, record, k, z.
  split; [done|]. split; [done|]. split; [done|].
  split; [|split; [done|]].
  - rewrite Htext. cbn [pd.values_for_csv]. by rewrite list_lookup_fmap, Hz.
  - intros Hall n Hn.
    assert (Hz' : z = pd.astype_int32 n).
    { apply Hlit; [|done]. unfold pd.column_cells. by apply Forall_fmap. }
    split; [done|]. intros Hr. rewrite Hz'. by apply astype_int32_small.
Qed.

Lemma integer_columns_canonical_witness :
  stat (fs padded_id_world) input_file
  = IsFile (Table (sample_header ::
      [ [ " 007"; "+200"; "59:21.7"; "Normal"; "-94.5"; "39.1"; "10|200|1"; "3.66E+18";
          "Alice"; "160405074"; "R1"; "2016-01-01" ] ]))
  ∧ rectangular sample_header
      [ [ " 007"; "+200"; "59:21.7"; "Normal"; "-94.5"; "39.1"; "10|200|1"; "3.66E+18";
          "Alice"; "160405074"; "R1"; "2016-01-01" ] ]
  ∧ extract_specific_columns padded_id_world
    = (Return true, (extract_specific_columns padded_id_world).2)
  ∧ exists hdr body,
      fs (extract_specific_columns padded_id_world).2 !! output_file
      = Some (File (Table (hdr :: body)))
      ∧ forall (i j : nat) (row : list string) (name : string),
          [ [ " 007"; "+200"; "59:21.7"; "Normal"; "-94.5"; "39.1"; "10|200|1"; "3.66E+18";
              "Alice"; "160405074"; "R1"; "2016-01-01" ] ] !! i = Some row ->
          sample_header !! j = Some name ->
          name ∉ take j sample_header ->
          name ∈ ["driverId"; "truckId"] ->
          exists cell record k z,
            row !! j = Some cell
            ∧ body !! i = Some record
            ∧ hdr !! k = Some name
            ∧ record !! k = Some (Text.str_int z)
            ∧ - 2 ^ 31 <= z <= 2 ^ 31 - 1
            ∧ (Forall (fun r => is_Some (pd.str_to_int64 (default EmptyString (r !! j))))
                 [ [ " 007"; "+200"; "59:21.7"; "Normal"; "-94.5"; "39.1"; "10|200|1";
                     "3.66E+18"; "Alice"; "160405074"; "R1"; "2016-01-01" ] ] ->
               forall n,
                 pd.str_to_int64 cell = Some n ->
                 z = pd.astype_int32 n ∧ (- 2 ^ 31 <= n <= 2 ^ 31 - 1 -> z = n)).
Proof.
  assert (H1 : stat (fs padded_id_world) input_file
               = IsFile (Table (sample_header ::
                   [ [ " 007"; "+200"; "59:21.7"; "Normal"; "-94.5"; "39.1"; "10|200|1";
                       "3.66E+18"; "Alice"; "160405074"; "R1"; "2016-01-01" ] ])))
    by reflexivity.
  assert (H2 : rectangular sample_header
                 [ [ " 007"; "+200"; "59:21.7"; "Normal"; "-94.5"; "39.1"; "10|200|1";
                     "3.66E+18"; "Alice"; "160405074"; "R1"; "2016-01-01" ] ])
    by (repeat constructor).
  assert (H3 : extract_specific_columns padded_id_world
               = (Return true, (extract_specific_columns padded_id_world).2))
    by (vm_compute; reflexivity).
  split; [exact H1|]. split; [exact H2|]. split; [exact H3|].
  exact (integer_columns_canonical padded_id_world _ sample_header _ H1 H2 H3).
Defined.

(** X11. The integers the script writes are read back unchanged.  The
    text written for an [int32] value is an integer literal with that
    value and no missing-value marker, so a column holding it is read at
    the declared type [int32] as that value. *)

Theorem integer_fields_read_back (v : Z) :
  - 2 ^ 31 <= v <= 2 ^ 31 - 1 ->
  pd.str_to_int64 (Text.str_int v) = Some v
  ∧ pd.isna (Text.str_int v) = false
  ∧ cell_ok (Some int32) (Text.str_int v) = true
  ∧ forall name, pd.int32_column name [Text.str_int v] = Return [v].
Proof.
  intros Hv.
  assert (Hr : pd.str_to_int64 (Text.str_int v) = Some v) by (apply str_to_int64_str_int; lia).
  assert (Hna : pd.isna (Text.str_int v) = false).
  { destruct (pd.isna _) eqn:Hna; [|done]. apply isna_no_integer in Hna. congruence. }
  split; [done|]. split; [done|]. split.
  - cbn [cell_ok]. rewrite Hna, Hr. reflexivity.
  - intros name. unfold pd.int32_column. cbn [pd.try_int64 existsb].
    rewrite Hna, Hr. cbn [orb map from_option id]. by rewrite astype_int32_small.
Qed.

Lemma integer_fields_read_back_witness :
  - 2 ^ 31 <= -42 <= 2 ^ 31 - 1
  ∧ pd.str_to_int64 (Text.str_int (-42)) = Some (-42)
  ∧ pd.isna (Text.str_int (-42)) = false
  ∧ cell_ok (Some int32) (Text.str_int (-42)) = true
  ∧ forall name, pd.int32_column name [Text.str_int (-42)] = Return [-42].
Proof.
  assert (H : - 2 ^ 31 <= -42 <= 2 ^ 31 - 1) by lia.
  split; [exact H|]. exact (integer_fields_read_back (-42) H).
Defined.

(** X12. The row count of the line [Datos leídos] is printed with
    thousands separators.  Its characters are those of the plain count
    with commas added; counted from the right, every fourth character is
    a comma and all the others are digits; and the text does not begin
    with a comma. *)

Theorem thousands_separators (n : nat) :
  filter (fun a => a <> ","%char) (Text.chars (Text.str_thousands n))
  = Text.chars (Text.str_int (Z.of_nat n))
  ∧ (forall (i : nat) (a : ascii),
       rev (Text.chars (Text.str_thousands n)) !! i = Some a ->
       if decide (i mod 4 = 3)%nat then a = ","%char else Text.isdigit a = true)
  ∧ (List.length (Text.chars (Text.str_thousands n)) mod 4 <> 0)%nat.
Proof.
  unfold Text.str_thousands, Text.str_int. cbv zeta. rewrite !chars_text.
  destruct (decimal_isdigit (Z.of_nat n)) as [Hne Hdig].
  rewrite (proj2 (Z.ltb_ge _ _)) by lia. rewrite Z.abs_eq by lia. cbn [app].
  set (ds := Text.decimal (Z.of_nat n)) in *.
  assert (Hrev : Forall (fun a => Text.isdigit a = true) (rev ds)) by (by apply Forall_rev).
  assert (Hsep : Forall (fun a => a <> ","%char) (rev ds)).
  { eapply Forall_impl; [exact Hrev|]. apply digit_no_separator. }
  destruct (group3_positions (List.length (rev ds)) (rev ds)) as [Hpos Hlen]; [done|done|].
  pose proof (group3_separators (List.length (rev ds)) (rev ds)) as Hfil.
  rewrite (digits_no_separator _ Hrev) in Hfil.
  split; [|split].
  - by rewrite filter_rev_separators, Hfil, rev_involutive.
  - intros i a. rewrite rev_involutive. intros Hi.
    pose proof (Hpos i a Hi) as Hiff.
    destruct (decide (i mod 4 = 3)%nat) as [Hm|Hm]; [by apply Hiff|].
    assert (Ha : a ∈ filter (fun a => a <> ","%char)
                       (Text.group3 (List.length (rev ds)) (rev ds))).
    { apply list_elem_of_filter. split; [by rewrite Hiff|].
      by eapply list_elem_of_lookup_2. }
    rewrite Hfil in Ha. by apply (proj1 (Forall_forall _ _) Hrev).
  - rewrite length_rev. apply Hlen. intros Hr. apply Hne.
    by rewrite <- (rev_involutive ds), Hr.
Qed.

(** X14. An input that holds a header and no row is a valid input.  When
    the header lists the nine columns the run succeeds and writes the
    header record alone: the nine names, in the order of the input
    header. *)
Theorem header_only_input (w : World) (header : list string) :
  unobstructed (fs w) ->
  fs w !! output_file <> Some Dir ->
  stat (fs w) input_file = IsFile (Table [header]) ->
  columns_to_extract ⊆ header ->
  exists w' hdr,
    extract_specific_columns w = (Return true, w')
    ∧ fs w' !! output_file = Some (File (Table [hdr]))
    ∧ hdr ≡ₚ columns_to_extract
    ∧ sublist hdr header.
Proof.
  intros Hu Hout Hin Hsub.
  destruct (parse_header_only header Hsub) as (df & Hp & Hn).
  destruct (run_success w _ _ Hu Hout Hin Hp) as (w' & Hrun & Hfs).
  destruct (parse_names _ _ _ Hp) as (Hperm & Hsl & _ & _).
  exists w', (map fst (columns df)). split; [done|].
  split; [|done]. rewrite Hfs. unfold pd.csv_records. by rewrite Hn.
Qed.

Lemma header_only_input_witness :
  unobstructed (fs header_only_world)
  ∧ fs header_only_world !! output_file <> Some Dir
  ∧ columns_to_extract ⊆ sample_header
  ∧ exists w' hdr,
      extract_specific_columns header_only_world = (Return true, w')
      ∧ fs w' !! output_file = Some (File (Table [hdr]))
      ∧ hdr ≡ₚ columns_to_extract
      ∧ sublist hdr sample_header.
Proof.
  assert (H1 : unobstructed (fs header_only_world)) by (split; reflexivity).
  assert (H2 : fs header_only_world !! output_file <> Some Dir) by (vm_compute; discriminate).
  assert (H3 : columns_to_extract ⊆ sample_header)
    by (apply (bool_decide_unpack _); vm_compute; exact I).
  split; [exact H1|]. split; [exact H2|]. split; [exact H3|].
  exact (header_only_input header_only_world sample_header H1 H2 ltac:(reflexivity) H3).
Defined.

Lemma mkdir_parents_witness :
  free_way (fs empty_world) deep_path
  ∧ exists m',
      mkdir deep_path true true empty_world
      = (Return tt, {| fs := m'; stdout := stdout empty_world |})
      ∧ stat m' deep_path = IsDir
      ∧ (forall q, ~ above q deep_path -> m' !! q = fs empty_world !! q)
      ∧ (stat (fs empty_world) deep_path = IsDir -> m' = fs empty_world).
Proof.
  assert (H : free_way (fs empty_world) deep_path) by (repeat split).
  split; [exact H|]. exact (mkdir_parents deep_path empty_world H).
Defined.
